(** * UFC fight predictor: scraping, normalisation, fighter index, serving

    A shallow embedding of the pure logic of the repository:
    - [ufc_scraper/utils.py]: [clean_text], [parse_fighter_id_from_url],
      [normalize_weight_class], [parse_height_to_cm];
    - [ufc_scraper/scraper.py]: the per-row logic of [scrape_event_fights];
    - [ufc_scraper/fighter_organizer.py]: [update_fighter_index];
    - [app.py]: the guards of [predict].

    Python [str] values are modelled by [string]; a character stands for
    the code point of the same number (0..255).  [None] is [None]. *)

From Stdlib Require Import ZArith NArith Ascii String List Floats Lia Bool.
From Stdlib Require Import DecimalString Sorting.Sorted.
From stdpp Require Import gmap strings list sorting.

Local Open Scope string_scope.
#[local] Arguments String.append !_ _ / : simpl nomatch.

(** ** Python string primitives *)

Module Py.

(** What a Python call does: it returns a value or raises. *)
Inductive result (A : Type) : Type :=
| Returns (a : A)
| Raises (exn : string).
Arguments Returns {A} a.
Arguments Raises {A} exn.

Definition code (c : ascii) : N := N_of_ascii c.

(** [str.isspace] on one character, which is also the class [\s] of [re]
    and the separator set of [str.split()]: TAB..CR, FS..US, space, NEL
    and the no-break space. *)
Definition is_space (c : ascii) : bool :=
  let n := code c in
  (((9 <=? n) && (n <=? 13)) || ((28 <=? n) && (n <=? 32))
   || (n =? 133) || (n =? 160))%N.

Definition is_digit (c : ascii) : bool :=
  let n := code c in ((48 <=? n) && (n <=? 57))%N.

Definition is_upper (c : ascii) : bool :=
  let n := code c in ((65 <=? n) && (n <=? 90))%N.

Definition is_lower (c : ascii) : bool :=
  let n := code c in ((97 <=? n) && (n <=? 122))%N.

(** ASCII case folding, enough to compare against the ASCII letters of a
    pattern under [re.IGNORECASE]. *)
Definition to_lower (c : ascii) : ascii :=
  if is_upper c then ascii_of_N (code c + 32) else c.

Definition dquote : ascii := ascii_of_N 34.
Definition newline : ascii := ascii_of_N 10.

(** Truthiness of a [str]. *)
Definition truthy (s : string) : bool :=
  match s with EmptyString => false | String _ _ => true end.

(** Truthiness of a value that is [None] or a [str]. *)
Definition truthy_opt (o : option string) : bool :=
  match o with None => false | Some s => truthy s end.

(** [s.startswith(p)], returning what follows the prefix. *)
Fixpoint strip_prefix (p s : string) : option string :=
  match p with
  | EmptyString => Some s
  | String a p' =>
      match s with
      | EmptyString => None
      | String b s' => if Ascii.eqb a b then strip_prefix p' s' else None
      end
  end.

Definition startswith (p s : string) : bool :=
  match strip_prefix p s with Some _ => true | None => false end.

(** [sub in s] for strings. *)
Fixpoint contains (sub s : string) : bool :=
  startswith sub s
  || match s with
     | EmptyString => false
     | String _ s' => contains sub s'
     end.

(** [s.replace(old, new)] for a one-character [old]. *)
Fixpoint replace_chr (old : ascii) (new s : string) : string :=
  match s with
  | EmptyString => EmptyString
  | String c s' =>
      if Ascii.eqb c old then new ++ replace_chr old new s'
      else String c (replace_chr old new s')
  end.

(** [s.split(sep)] for a one-character [sep]: the head of the result is
    the piece being read. *)
Fixpoint split_chr (sep : ascii) (s : string) : string * list string :=
  match s with
  | EmptyString => (EmptyString, [])
  | String c s' =>
      let '(w, ws) := split_chr sep s' in
      if Ascii.eqb c sep then (EmptyString, w :: ws) else (String c w, ws)
  end.

Definition split_on (sep : ascii) (s : string) : list string :=
  let '(w, ws) := split_chr sep s in w :: ws.

(** [s.split()]: maximal runs of non-space characters. *)
Fixpoint split_ws (s : string) : string * list string :=
  match s with
  | EmptyString => (EmptyString, [])
  | String c s' =>
      let '(w, ws) := split_ws s' in
      if is_space c
      then (EmptyString, if truthy w then w :: ws else ws)
      else (String c w, ws)
  end.

Definition split (s : string) : list string :=
  let '(w, ws) := split_ws s in if truthy w then w :: ws else ws.

(** [sep.join(ws)]. *)
Fixpoint join (sep : string) (ws : list string) : string :=
  match ws with
  | [] => EmptyString
  | [w] => w
  | w :: ws' => w ++ sep ++ join sep ws'
  end.

Fixpoint lstrip (s : string) : string :=
  match s with
  | EmptyString => EmptyString
  | String c s' => if is_space c then lstrip s' else s
  end.

Fixpoint rstrip (s : string) : string :=
  match s with
  | EmptyString => EmptyString
  | String c s' =>
      match rstrip s' with
      | EmptyString => if is_space c then EmptyString else String c EmptyString
      | r => String c r
      end
  end.

(** [s.strip()]. *)
Definition strip (s : string) : string := rstrip (lstrip s).

(** *** [int(s)] in base ten

    White space around the number, one optional sign, then digits that
    single underscores may separate.  [None] stands for [ValueError].  The
    white space that [int] skips is TAB..CR and the space, and the two
    characters above 127 that it first rewrites to a space; FS..US are not
    skipped.  The interpreter's cap on the number of digits is left out. *)
Definition is_int_space (c : ascii) : bool :=
  let n := code c in
  (((9 <=? n) && (n <=? 13)) || (n =? 32) || (n =? 133) || (n =? 160))%N.

Fixpoint int_lstrip (s : string) : string :=
  match s with
  | EmptyString => EmptyString
  | String c s' => if is_int_space c then int_lstrip s' else s
  end.

Fixpoint int_rstrip (s : string) : string :=
  match s with
  | EmptyString => EmptyString
  | String c s' =>
      match int_rstrip s' with
      | EmptyString =>
          if is_int_space c then EmptyString else String c EmptyString
      | r => String c r
      end
  end.

Fixpoint digits (acc : Z) (after_digit : bool) (s : string) : option Z :=
  match s with
  | EmptyString => if after_digit then Some acc else None
  | String c s' =>
      if is_digit c
      then digits (10 * acc + Z.of_N (code c - 48)) true s'
      else if Ascii.eqb c "_" && after_digit
           then match s' with
                | String d _ => if is_digit d then digits acc false s' else None
                | EmptyString => None
                end
           else None
  end.

Definition int (s : string) : option Z :=
  match int_rstrip (int_lstrip s) with
  | String "+" s' => digits 0 false s'
  | String "-" s' => option_map Z.opp (digits 0 false s')
  | s' => digits 0 false s'
  end.

(** *** [float(n)], [x * y] and [round(x)] on binary64 *)

(** The double nearest to 2.54, the literal of the source. *)
Definition f2_54 : float := 0x1.451eb851eb852p+1%float.

(** [int] to [float]: round to nearest even; too large an integer raises. *)
Definition float_of_int (n : Z) : result float :=
  match binary_normalize prec emax n 0 false with
  | S754_infinity _ => Raises "OverflowError"
  | f => Returns (SF2Prim f)
  end.

(** Nearest integer of [m / 2^k], ties to even. *)
Definition round_half_even_shift (m : Z) (k : Z) : Z :=
  let d := (2 ^ k)%Z in
  let q := (m / d)%Z in
  let r := (m mod d)%Z in
  match (2 * r ?= d)%Z with
  | Lt => q
  | Gt => (q + 1)%Z
  | Eq => if Z.even q then q else (q + 1)%Z
  end.

(** [round(x)] with one argument: an [int], ties to even. *)
Definition round (x : float) : result Z :=
  match Prim2SF x with
  | S754_zero _ => Returns 0%Z
  | S754_finite s m e =>
      let a := if (0 <=? e)%Z then (Z.pos m * 2 ^ e)%Z
               else round_half_even_shift (Z.pos m) (- e) in
      Returns (if s then (- a)%Z else a)
  | S754_infinity _ => Raises "OverflowError"
  | S754_nan => Raises "ValueError"
  end.

(** *** Shapes of text used in the statements below *)

(** No character of [s] is white space. *)
Definition no_space (s : string) : Prop :=
  forall c, In c (list_ascii_of_string s) -> is_space c = false.

(** A piece that [split] can return. *)
Definition word (w : string) : Prop := w <> "" /\ no_space w.

(** Empty, or starting with a character that is not white space. *)
Definition head_ok (s : string) : Prop :=
  match s with EmptyString => True | String c _ => is_space c = false end.

(** Characters of the pieces, each piece counted with one separator. *)
Fixpoint weight (ws : list string) : nat :=
  match ws with
  | [] => 0
  | w :: ws' => S (String.length w + weight ws')
  end.

End Py.

(** ** The fragment of [re] the sources use *)

Module Re.

Inductive cclass : Type :=
| CSpace                 (* \s *)
| CDot                   (* .  : anything but a line feed *)
| CAlnum.                (* [a-zA-Z0-9] *)

Definition in_class (k : cclass) (c : ascii) : bool :=
  match k with
  | CSpace => Py.is_space c
  | CDot => negb (Ascii.eqb c Py.newline)
  | CAlnum => Py.is_lower c || Py.is_upper c || Py.is_digit c
  end.

Inductive regex : Type :=
| Eps
| Chr (c : ascii)
| Star (k : cclass)      (* greedy k* *)
| Plus (k : cclass)      (* greedy k+ *)
| Bol                    (* ^ *)
| Eol                    (* $ *)
| Cat (r1 r2 : regex)
| Alt (r1 r2 : regex)
| Group (r : regex).     (* ( r ), the first group of the pattern *)

(** A literal run of characters. *)
Fixpoint lit (s : string) : regex :=
  match s with
  | EmptyString => Eps
  | String c EmptyString => Chr c
  | String c s' => Cat (Chr c) (lit s')
  end.

(** Where a match attempt stands: whether no character has been passed yet
    since the start of the subject, what is left of the subject, and the
    text of group 1 if it has been closed. *)
Record mstate : Type := MS { at0 : bool; rest : string; cap : option string }.

(** The first [n] characters. *)
Fixpoint take (n : nat) (s : string) : string :=
  match n, s with
  | S n', String c s' => String c (take n' s')
  | _, _ => EmptyString
  end.

Section Matcher.
Context {A : Type}.
(** [re.IGNORECASE] *)
Variable ignorecase : bool.

Definition chr_eq (p c : ascii) : bool :=
  if ignorecase then Ascii.eqb (Py.to_lower p) (Py.to_lower c)
  else Ascii.eqb p c.

(** Greedy repetition of a class: the longest run first, then shorter
    ones, each followed by the continuation. *)
Fixpoint star (k : cclass) (b : bool) (g : option string)
         (kont : mstate -> option A) (s : string) : option A :=
  match s with
  | EmptyString => kont (MS b s g)
  | String c s' =>
      if in_class k c
      then match star k false g kont s' with
           | Some x => Some x
           | None => kont (MS b s g)
           end
      else kont (MS b s g)
  end.

(** Backtracking match of [r] at the current position, alternatives in
    order, then the continuation. *)
Fixpoint rmatch (r : regex) (kont : mstate -> option A) (st : mstate)
  : option A :=
  match r with
  | Eps => kont st
  | Chr p =>
      match rest st with
      | String c s' =>
          if chr_eq p c then kont (MS false s' (cap st)) else None
      | EmptyString => None
      end
  | Star k => star k (at0 st) (cap st) kont (rest st)
  | Plus k =>
      match rest st with
      | String c s' =>
          if in_class k c then star k false (cap st) kont s' else None
      | EmptyString => None
      end
  | Bol => if at0 st then kont st else None
  | Eol =>
      match rest st with
      | EmptyString => kont st
      | String c EmptyString =>
          if Ascii.eqb c Py.newline then kont st else None
      | _ => None
      end
  | Cat r1 r2 => rmatch r1 (rmatch r2 kont) st
  | Alt r1 r2 =>
      match rmatch r1 kont st with
      | Some x => Some x
      | None => rmatch r2 kont st
      end
  | Group r1 =>
      rmatch r1
        (fun st' =>
           kont (MS (at0 st') (rest st')
                    (Some (take (String.length (rest st)
                                 - String.length (rest st'))
                                (rest st)))))
        st
  end.
End Matcher.

(** One match attempt at the current position. *)
Definition match_here (ic : bool) (r : regex) (b : bool) (s : string)
  : option mstate :=
  rmatch ic r Some (MS b s None).

(** [re.search]: the leftmost position with a match; returns the text
    before the match and the state after it. *)
Fixpoint search_from (ic : bool) (r : regex) (b : bool) (s : string)
  : option (string * mstate) :=
  match match_here ic r b s with
  | Some st => Some (EmptyString, st)
  | None =>
      match s with
      | EmptyString => None
      | String c s' =>
          match search_from ic r false s' with
          | Some (pre, st) => Some (String c pre, st)
          | None => None
          end
      end
  end.

Definition search (ic : bool) (r : regex) (s : string)
  : option (string * mstate) :=
  search_from ic r true s.

(** [re.sub(r, repl, s)]: every match, leftmost first, is replaced.
    [skip] counts the characters of the current match still to drop.  No
    pattern of the sources matches the empty text; after an empty match the
    scan is taken to move one character on. *)
Fixpoint sub_go (ic : bool) (r : regex) (repl : string)
         (skip : nat) (b : bool) (s : string) : string :=
  match s with
  | EmptyString =>
      match skip with
      | O => match match_here ic r b s with
             | Some _ => repl
             | None => EmptyString
             end
      | S _ => EmptyString
      end
  | String c s' =>
      match skip with
      | S n => sub_go ic r repl n false s'
      | O =>
          match match_here ic r b s with
          | Some st =>
              match String.length s - String.length (rest st) with
              | O => repl ++ String c (sub_go ic r repl 0 false s')
              | S n => repl ++ sub_go ic r repl n false s'
              end
          | None => String c (sub_go ic r repl 0 false s')
          end
      end
  end.

Definition sub (ic : bool) (r : regex) (repl s : string) : string :=
  sub_go ic r repl 0 true s.

(** [t] is what remains of [s] after some prefix. *)
Definition is_suffix (t s : string) : Prop := exists pre, s = pre ++ t.

(** Every character of [s] is in the class [k]. *)
Definition all_in (k : cclass) (s : string) : Prop :=
  forall c, In c (list_ascii_of_string s) -> in_class k c = true.

End Re.

(** ** [ufc_scraper/utils.py] *)

Definition clean_text (text : option string) : string :=
  match text with
  | None => ""
  | Some t => Py.strip (Py.join " " (Py.split t))
  end.

(** [fighter-details/([a-zA-Z0-9]+)$] *)
Definition fighter_id_re : Re.regex :=
  Re.Cat (Re.lit "fighter-details/")
         (Re.Cat (Re.Group (Re.Plus Re.CAlnum)) Re.Eol).

Definition parse_fighter_id_from_url (fighter_url : option string)
  : option string :=
  match fighter_url with
  | None => None
  | Some url =>
      if negb (Py.truthy url) then None
      else match Re.search false fighter_id_re url with
           | Some (_, st) => Re.cap st
           | None => None
           end
  end.

(** [(Bout|Title Bout|Interim.*Title Bout|Catch Weight.*|The Ultimate Fighter.*Final|Tournament.*Final)] *)
Definition bout_kinds : Re.regex :=
  Re.Group
    (Re.Alt (Re.lit "Bout")
    (Re.Alt (Re.lit "Title Bout")
    (Re.Alt (Re.Cat (Re.lit "Interim")
               (Re.Cat (Re.Star Re.CDot) (Re.lit "Title Bout")))
    (Re.Alt (Re.Cat (Re.lit "Catch Weight") (Re.Star Re.CDot))
    (Re.Alt (Re.Cat (Re.lit "The Ultimate Fighter")
               (Re.Cat (Re.Star Re.CDot) (Re.lit "Final")))
            (Re.Cat (Re.lit "Tournament")
               (Re.Cat (Re.Star Re.CDot) (Re.lit "Final")))))))).

(** [\s+(...)$], the group being [bout_kinds] *)
Definition bout_suffix_re : Re.regex :=
  Re.Cat (Re.Plus Re.CSpace) (Re.Cat bout_kinds Re.Eol).

(** [^UFC\s+] *)
Definition ufc_prefix_re : Re.regex :=
  Re.Cat Re.Bol (Re.Cat (Re.lit "UFC") (Re.Plus Re.CSpace)).

Definition normalize_weight_class (wc_string : option string) : string :=
  match wc_string with
  | None => "Unknown"
  | Some wc0 =>
      let wc1 := clean_text (Some wc0) in
      let wc2 := Re.sub true bout_suffix_re "" wc1 in
      let wc3 := Re.sub true ufc_prefix_re "" wc2 in
      if Py.truthy wc3 then clean_text (Some wc3) else "Unknown"
  end.

(** [parse_height_to_cm]: ["F' I"] followed by a double quote, to
    centimetres.  The inner [option] is the feet and inches read, [None]
    when the function returns [None] before the conversion. *)
Definition height_parts (height_str : string) : option (Z * Z) :=
  let height_str := Py.replace_chr " " "" height_str in
  let parts := Py.split_on "'" (Py.replace_chr Py.dquote "" height_str) in
  match parts with
  | [p0; p1] =>
      match Py.int p0 with
      | None => None
      | Some feet =>
          if Py.truthy p1
          then match Py.int p1 with
               | None => None
               | Some inches => Some (feet, inches)
               end
          else Some (feet, 0%Z)
      end
  | [p0] =>
      if Py.truthy p0 then
        if Py.contains "'" height_str
           && negb (Py.contains (String Py.dquote "") height_str)
        then match Py.int p0 with
             | None => None
             | Some feet => Some (feet, 0%Z)
             end
        else if Py.contains (String Py.dquote "") height_str
        then match Py.int p0 with
             | None => None
             | Some inches => Some (0%Z, inches)
             end
        else None
      else None
  | _ => None
  end.

(** [round(total_inches * 2.54)] *)
Definition inches_to_cm (total_inches : Z) : Py.result Z :=
  match Py.float_of_int total_inches with
  | Py.Raises e => Py.Raises e
  | Py.Returns x => Py.round (PrimFloat.mul x Py.f2_54)
  end.

Definition parse_height_to_cm (height_str : option string)
  : Py.result (option Z) :=
  match height_str with
  | None => Py.Returns None
  | Some h =>
      if negb (Py.truthy h) || Py.contains "--" h then Py.Returns None
      else match height_parts h with
           | None => Py.Returns None
           | Some (feet, inches) =>
               match inches_to_cm (feet * 12 + inches) with
               | Py.Raises e => Py.Raises e
               | Py.Returns cm => Py.Returns (Some cm)
               end
           end
  end.

(** *** Notions used in the statements about [utils.py] *)

(** The text after the last slash, if there is a slash. *)
Fixpoint after_slash (s : string) : option string :=
  match s with
  | EmptyString => None
  | String c s' =>
      match after_slash s' with
      | Some t => Some t
      | None => if Ascii.eqb c "/" then Some s' else None
      end
  end.

Definition no_slash (s : string) : Prop :=
  forall c, In c (list_ascii_of_string s) -> c <> "/"%char.

(** [url] ends with a path segment that directly follows
    [fighter-details/]. *)
Definition has_fighter_segment (url : string) : Prop :=
  exists pre seg, url = pre ++ "fighter-details/" ++ seg /\
                  seg <> "" /\ no_slash seg.

(** A natural number in decimal. *)
Definition decimal (n : nat) : string :=
  NilEmpty.string_of_uint (Nat.to_uint n).

(** The text [F' I], closed by a double quote. *)
Definition height_text (feet inches : nat) : string :=
  decimal feet ++ "' " ++ decimal inches ++ String Py.dquote "".

(** [cm] is an integer nearest to [total_inches * 2.54]. *)
Definition nearest_cm (cm total_inches : Z) : Prop :=
  (Z.abs (100 * cm - 254 * total_inches) <= 50)%Z.

Definition height_ok (feet inches : nat) : bool :=
  match parse_height_to_cm (Some (height_text feet inches)) with
  | Py.Returns (Some cm) =>
      (Z.abs (100 * cm - 254 * (12 * Z.of_nat feet + Z.of_nat inches))
       <=? 50)%Z
  | _ => false
  end.

(** Division names, bout labels and spellings of the prefix on which the
    normaliser is evaluated. *)
Definition divisions : list string :=
  ["Strawweight"; "Flyweight"; "Bantamweight"; "Featherweight";
   "Lightweight"; "Welterweight"; "Middleweight"; "Light Heavyweight";
   "Heavyweight"; "Super Heavyweight"; "Open Weight";
   "Women's Strawweight"; "Women's Flyweight"; "Women's Bantamweight";
   "Women's Featherweight"].

Definition bout_labels : list string :=
  ["Bout"; "bout"; "BOUT"; "Title Bout"; "title bout"; "TITLE BOUT";
   "Interim Title Bout"; "interim title bout"; "Interim UFC Title Bout";
   "Catch Weight Bout"; "catch weight"; "Tournament Final";
   "Tournament Semi-Final"; "The Ultimate Fighter 5 Final";
   "the ultimate fighter: brazil final"].

Definition ufc_prefixes : list string := [""; "UFC "; "ufc "; "Ufc   "].

(** The label [label] and the prefix [pre] around the division [d] are
    stripped. *)
Definition strips_to (d label pre : string) : bool :=
  String.eqb (normalize_weight_class (Some (pre ++ d ++ " " ++ label))) d.

(** ** [ufc_scraper/config.py] *)

Definition FIGHTER_STATS_BASE_URL : string := "http://ufcstats.com".

(** ** [ufc_scraper/scraper.py]: [scrape_event_fights]

    The parsed document is an external value; an element is modelled by the
    answers to the queries the scraper makes on it. *)

Module Scraper.

(** An [a] element: [get_text()] and [get('href')]. *)
Record anchor : Type := Anchor { a_text : string; a_href : option string }.

(** A [td] child of a fight row. *)
Record cell : Type := Cell {
  (* select("a") *)
  anchors : list anchor;
  (* select_one("p:nth-of-type(1) i.b-fight-details__person-status"),
     as the value of its class attribute *)
  status_icon : option (list string);
  (* select_one("p.b-fight-details__table-text"), as its get_text() *)
  table_text : option string;
  (* get_text() *)
  text : string;
  (* get_text(separator=" ", strip=True) *)
  text_sep : string
}.

(** A [tr.b-fight-details__table-row[data-link]] element: the value of the
    attribute and [find_all("td", recursive=False)]. *)
Record row : Type := Row { data_link : string; cols : list cell }.

Record fight : Type := Fight {
  fighter1_name : string;
  fighter1_url : option string;
  fighter2_name : string;
  fighter2_url : option string;
  winner : string;
  method : string;
  round : string;
  time : string;
  weight_class : string;
  fight_details_url : option string;
  event_date : string
}.

Definition style_green : string := "b-fight-details__person-status_style_green".
Definition style_red : string := "b-fight-details__person-status_style_red".
Definition style_blue : string := "b-fight-details__person-status_style_blue".
Definition style_yellow : string := "b-fight-details__person-status_style_yellow".

(** [(BASE + href) if href and not href.startswith('http') else href] *)
Definition absolute_url (href : option string) : option string :=
  match href with
  | Some h =>
      if Py.truthy h && negb (Py.startswith "http" h)
      then Some (FIGHTER_STATS_BASE_URL ++ h)
      else href
  | None => None
  end.

(** Lines 92 to 105: the winner from the status icon of fighter 1. *)
Definition resolve_winner (fighter1_status_tag : option (list string))
           (fighter1_name fighter2_name : string) : string :=
  match fighter1_status_tag with
  | Some status_classes =>
      if bool_decide (style_green ∈ status_classes) then fighter1_name
      else if bool_decide (style_red ∈ status_classes) then fighter2_name
      else if bool_decide (style_blue ∈ status_classes) then "Draw"
      else if bool_decide (style_yellow ∈ status_classes) then "No Contest"
      else "N/A"
  | None => "N/A"
  end.

Definition tag_name (t : option anchor) : string :=
  match t with
  | Some a => clean_text (Some (a_text a))
  | None => "N/A"
  end.

Definition tag_href (t : option anchor) : option string :=
  match t with
  | Some a => a_href a
  | None => None
  end.

(** The body of the loop for one row: the record appended, if any. *)
Definition row_fight (event_date : string) (r : row) : option fight :=
  if negb (Py.truthy (data_link r)) then None
  else if (List.length (cols r) <? 10)%nat then None
  else
    c0 ← cols r !! 0;
    c1 ← cols r !! 1;
    c6 ← cols r !! 6;
    c7 ← cols r !! 7;
    c8 ← cols r !! 8;
    c9 ← cols r !! 9;
    let fighter_a_tags := anchors c1 in
    let fighter1_tag := fighter_a_tags !! 0 in
    let fighter2_tag := fighter_a_tags !! 1 in
    let fighter1_name := tag_name fighter1_tag in
    let fighter1_url := absolute_url (tag_href fighter1_tag) in
    let fighter2_name := tag_name fighter2_tag in
    let fighter2_url := absolute_url (tag_href fighter2_tag) in
    let winner :=
      resolve_winner (status_icon c0) fighter1_name fighter2_name in
    let weight_class_str :=
      match table_text c6 with
      | Some t => clean_text (Some t)
      | None => "Unknown"
      end in
    let normalized_wc := normalize_weight_class (Some weight_class_str) in
    Some {| fighter1_name := fighter1_name;
            fighter1_url := fighter1_url;
            fighter2_name := fighter2_name;
            fighter2_url := fighter2_url;
            winner := winner;
            method := clean_text (Some (text_sep c7));
            round := clean_text (Some (text c8));
            time := clean_text (Some (text c9));
            weight_class := normalized_wc;
            fight_details_url := absolute_url (Some (data_link r));
            event_date := event_date |}.

(** The loop over the selected rows, appending in document order. *)
Fixpoint scrape_rows (event_date : string) (fight_rows : list row)
  : list fight :=
  match fight_rows with
  | [] => []
  | r :: rows' =>
      match row_fight event_date r with
      | Some f => f :: scrape_rows event_date rows'
      | None => scrape_rows event_date rows'
      end
  end.

(** [soup] is [None] when the page could not be fetched, otherwise the rows
    that [select] returns. *)
Definition scrape_event_fights (soup : option (list row))
           (event_date : string) : list fight :=
  match soup with
  | None => []
  | Some fight_rows => scrape_rows event_date fight_rows
  end.

End Scraper.

(** ** [ufc_scraper/fighter_organizer.py]: [update_fighter_index] *)

Module Organizer.

(** A fight as the index builder reads it, through [dict.get]: a key that
    is absent or holds null reads as [None]. *)
Record fight_data : Type := FightData {
  weight_class : option string;
  fighter1_name : option string;
  fighter1_url : option string;
  fighter2_name : option string;
  fighter2_url : option string
}.

Definition of_fight (f : Scraper.fight) : fight_data :=
  {| weight_class := Some (Scraper.weight_class f);
     fighter1_name := Some (Scraper.fighter1_name f);
     fighter1_url := Scraper.fighter1_url f;
     fighter2_name := Some (Scraper.fighter2_name f);
     fighter2_url := Scraper.fighter2_url f |}.

(** An entry of the index, [{"name": ..., "url": ...}]. *)
Record entry : Type := Entry { name : string; url : string }.

#[global] Instance entry_eq_dec : EqDecision entry.
Proof. solve_decision. Defined.

(** The two dictionaries of the loop: [fighter_index] and
    [unique_fighters_in_class]. *)
Record state : Type := State {
  fighter_index : gmap string (list entry);
  unique_fighters_in_class : gmap string (gset (string * string))
}.

(** [wc = fight.get("weight_class", "Unknown")], then the fallback. *)
Definition fight_wc (f : fight_data) : string :=
  match weight_class f with
  | None => "Unknown"
  | Some wc => if String.eqb wc "N/A" || negb (Py.truthy wc)
               then "Unknown" else wc
  end.

Definition fighters_in_fight (f : fight_data)
  : list (option string * option string) :=
  [(fighter1_name f, fighter1_url f); (fighter2_name f, fighter2_url f)].

(** [fighter["name"] and fighter["name"] != "N/A" and fighter["url"]] *)
Definition accepted (fighter : option string * option string)
  : option (string * string) :=
  match fighter with
  | (Some n, Some u) =>
      if Py.truthy n && negb (String.eqb n "N/A") && Py.truthy u
      then Some (n, u) else None
  | _ => None
  end.

(** The body of the inner loop.  Reading [unique_fighters_in_class[wc]]
    creates the key, as a [defaultdict] does. *)
Definition add_fighter (wc : string) (st : state)
           (fighter : option string * option string) : state :=
  match accepted fighter with
  | None => st
  | Some fighter_tuple =>
      let seen : gset (string * string) :=
        default ∅ (unique_fighters_in_class st !! wc) in
      if bool_decide (fighter_tuple ∈ seen)
      then {| fighter_index := fighter_index st;
              unique_fighters_in_class :=
                <[wc := seen]> (unique_fighters_in_class st) |}
      else {| fighter_index :=
                <[wc := (default [] (fighter_index st !! wc)
                         ++ [Entry fighter_tuple.1 fighter_tuple.2])%list]>
                  (fighter_index st);
              unique_fighters_in_class :=
                <[wc := seen ∪ {[fighter_tuple]}]>
                  (unique_fighters_in_class st) |}
  end.

Definition add_fight (st : state) (f : fight_data) : state :=
  foldl (add_fighter (fight_wc f)) st (fighters_in_fight f).

Definition collect (all_fights_data : list fight_data) : state :=
  foldl add_fight (State ∅ ∅) all_fights_data.

(** [sorted(l, key=lambda x: x['name'])]: a stable sort on the name, names
    compared as Python compares [str], code point by code point. *)
Fixpoint insert_by_name (e : entry) (l : list entry) : list entry :=
  match l with
  | [] => [e]
  | x :: l' =>
      if String.leb (name e) (name x) then e :: x :: l'
      else x :: insert_by_name e l'
  end.

Definition sorted_by_name (l : list entry) : list entry :=
  foldr insert_by_name [] l.

Definition update_fighter_index (all_fights_data : list fight_data)
  : gmap string (list entry) :=
  sorted_by_name <$> fighter_index (collect all_fights_data).

(** *** Notions used in the statements below *)

(** [fighter_index[wc]] and [unique_fighters_in_class[wc]], read without
    creating the key. *)
Definition listed (st : state) (wc : string) : list entry :=
  default [] (fighter_index st !! wc).

Definition seen (st : state) (wc : string) : gset (string * string) :=
  default ∅ (unique_fighters_in_class st !! wc).

(** The loop invariant: per class, the list has no duplicate and the set
    holds exactly the pairs of the list. *)
Definition consistent (st : state) : Prop :=
  forall wc, NoDup (listed st wc) /\
             forall n u, (n, u) ∈ seen st wc <-> Entry n u ∈ listed st wc.

(** Order of two entries by name. *)
Definition name_le (a b : entry) : Prop :=
  String.leb (name a) (name b) = true.

(** [(n, u)] is an accepted participant of a fight of [fs] whose class
    is [wc]. *)
Definition participates (fs : list fight_data) (wc n u : string) : Prop :=
  exists f p, f ∈ fs /\ fight_wc f = wc /\ p ∈ fighters_in_fight f /\
              accepted p = Some (n, u).

End Organizer.

(** ** [app.py]: [predict] *)

Module App.

Section Predict.
(** The feature values and the two classifiers are external. *)
Variable feature : Type.

(** A loaded classifier: [predict] and [predict_proba] on the one-row
    frame; [None] stands for an exception raised by the library. *)
Record model : Type := Model {
  model_predict : list feature -> option Z;
  model_predict_proba : list feature -> option (list feature)
}.

Record PredictionRequest : Type := Request {
  r_fighter_name : string;
  b_fighter_name : string;
  features : list feature
}.

Record PredictionResponse : Type := Response {
  resp_r_fighter_name : string;
  resp_b_fighter_name : string;
  predicted_winner : string;
  winner_determination_class : string;
  confidence : feature;
  finish_prediction : string;
  note : string
}.

(** What the handler does: a response, or [HTTPException(status_code)]. *)
Inductive outcome : Type :=
| Ok (r : PredictionResponse)
| HTTPException (status_code : Z).

(** The module globals set at start-up. *)
Record globals : Type := Globals {
  model_fight_winner : option model;
  model_finish_prediction : option model;
  feature_names : list string
}.

Definition winner_class_map (c : Z) : option string :=
  if (c =? 0)%Z then Some "Red"
  else if (c =? 1)%Z then Some "Blue" else None.

Definition finish_map (c : Z) : option string :=
  if (c =? 0)%Z then Some "KO/TKO"
  else if (c =? 1)%Z then Some "Submission"
  else if (c =? 2)%Z then Some "Decision - Unanimous"
  else if (c =? 3)%Z then Some "Decision - Split"
  else if (c =? 4)%Z then Some "Decision - Majority"
  else if (c =? 5)%Z then Some "DQ" else None.

(** Formatting of an unknown class number and rounding of the confidence
    are left to the caller. *)
Variable unknown_class : Z -> string.
Variable unknown_finish : Z -> string.
Variable round4 : feature -> feature.

(** [winner_pred_proba[winner_pred_class]], negative indices counted from
    the end; [None] stands for [IndexError]. *)
Definition index (l : list feature) (i : Z) : option feature :=
  if (0 <=? i)%Z then l !! Z.to_nat i
  else if (- i <=? Z.of_nat (List.length l))%Z
       then l !! Z.to_nat (Z.of_nat (List.length l) + i)
       else None.

(** The [try] block: any exception becomes status 500. *)
Definition predict_body (winner finish : model)
           (request_data : PredictionRequest) : option PredictionResponse :=
  proba ← model_predict_proba winner (features request_data);
  winner_pred_class ← model_predict winner (features request_data);
  let predicted_winner_label :=
    default (unknown_class winner_pred_class)
            (winner_class_map winner_pred_class) in
  let predicted_winner_name :=
    if String.eqb predicted_winner_label "Red"
    then r_fighter_name request_data
    else if String.eqb predicted_winner_label "Blue"
         then b_fighter_name request_data
         else predicted_winner_label in
  conf ← index proba winner_pred_class;
  finish_pred_class ← model_predict finish (features request_data);
  Some {| resp_r_fighter_name := r_fighter_name request_data;
          resp_b_fighter_name := b_fighter_name request_data;
          predicted_winner := predicted_winner_name;
          winner_determination_class := predicted_winner_label;
          confidence := round4 conf;
          finish_prediction :=
            default (unknown_finish finish_pred_class)
                    (finish_map finish_pred_class);
          note := "Predictions based on XGBoost models." |}.

Definition predict (g : globals) (request_data : PredictionRequest)
  : outcome :=
  match model_fight_winner g, model_finish_prediction g with
  | Some winner, Some finish =>
      match feature_names g with
      | [] => HTTPException 503
      | _ :: _ =>
          if negb (List.length (features request_data)
                   =? List.length (feature_names g))%nat
          then HTTPException 400
          else match predict_body winner finish request_data with
               | Some r => Ok r
               | None => HTTPException 500
               end
      end
  | _, _ => HTTPException 503
  end.
End Predict.

End App.

(** ** Sample inputs *)

Module Samples.
Import Scraper.

Definition blank_cell : cell := Cell [] None None "" "".

Definition status_cell (classes : list string) : cell :=
  Cell [] (Some classes) None "" "".

Definition fighters_cell : cell :=
  Cell [Anchor "  Ann   Archer " (Some "/fighter-details/a1");
        Anchor "Bea Brook" (Some "http://ufcstats.com/fighter-details/b2")]
       None None "" "".

Definition text_cell (t : string) : cell := Cell [] None (Some t) t t.

Definition fight_row (classes : list string) : row :=
  Row "/fight-details/f1"
      [status_cell classes; fighters_cell; blank_cell; blank_cell;
       blank_cell; blank_cell; text_cell "UFC Lightweight Title Bout";
       text_cell "KO/TKO  Punch"; text_cell " 2 "; text_cell "3:14"].

(** A summary row with eight columns only. *)
Definition short_row : row :=
  Row "/fight-details/f2"
      [status_cell [style_green]; fighters_cell; blank_cell; blank_cell;
       blank_cell; blank_cell; text_cell "Flyweight Bout";
       text_cell "U-DEC"].

Definition won_fight : fight :=
  {| fighter1_name := "Ann Archer";
     fighter1_url := Some "http://ufcstats.com/fighter-details/a1";
     fighter2_name := "Bea Brook";
     fighter2_url := Some "http://ufcstats.com/fighter-details/b2";
     winner := "Ann Archer";
     method := "KO/TKO Punch";
     round := "2";
     time := "3:14";
     weight_class := "Lightweight";
     fight_details_url := Some "http://ufcstats.com/fight-details/f1";
     event_date := "May 01, 2021" |}.

Definition ann : option string * option string :=
  (Some "Ann Archer", Some "http://ufcstats.com/fighter-details/a1").
Definition bea : option string * option string :=
  (Some "Bea Brook", Some "http://ufcstats.com/fighter-details/b2").
Definition cyd : option string * option string :=
  (Some "Cyd Cole", Some "http://ufcstats.com/fighter-details/c3").
Definition unnamed : option string * option string := (Some "N/A", None).

Definition bout (wc : string) (p q : option string * option string)
  : Organizer.fight_data :=
  Organizer.FightData (Some wc) p.1 p.2 q.1 q.2.

(** Two lightweight fights that share one fighter, and one whose second
    corner could not be read. *)
Definition shared_fights : list Organizer.fight_data :=
  [bout "Lightweight" bea ann; bout "Lightweight" ann cyd].

Definition partial_fights : list Organizer.fight_data :=
  [bout "Lightweight" bea unnamed].

Definition lightweights : list Organizer.entry :=
  [Organizer.Entry "Ann Archer" "http://ufcstats.com/fighter-details/a1";
   Organizer.Entry "Bea Brook" "http://ufcstats.com/fighter-details/b2";
   Organizer.Entry "Cyd Cole" "http://ufcstats.com/fighter-details/c3"].

(** A classifier that always answers class 0 with probabilities 3 : 1. *)
Definition constant_model : App.model Z :=
  App.Model Z (fun _ => Some 0%Z) (fun _ => Some [3%Z; 1%Z]).

Definition loaded : App.globals Z :=
  App.Globals Z (Some constant_model) (Some constant_model)
              ["reach_diff"; "age_diff"].

Definition short_request : App.PredictionRequest Z :=
  App.Request Z "Ann Archer" "Bea Brook" [7%Z].

End Samples.

(** ** More of [ufc_scraper/utils.py] *)

Module Utils.

(** [parse_career_stat_value]: the piece after the first colon, cleaned.
    [stat_text.split(':')[1]] cannot fail behind the test [':' in
    stat_text]; the index is modelled all the same. *)
Definition parse_career_stat_value (stat_text : string) : Py.result string :=
  if Py.contains ":" stat_text
  then match Py.split_on ":" stat_text !! 1%nat with
       | Some piece => Py.Returns (clean_text (Some piece))
       | None => Py.Raises "IndexError"
       end
  else Py.Returns (clean_text (Some stat_text)).

(** *** Notions used in the statements *)

(** The text is what [clean_text] produces: words with one space between
    them.  [prev_space] tells whether the scan stands at the start or just
    behind a space. *)
Fixpoint tidy_after (prev_space : bool) (s : string) : bool :=
  match s with
  | EmptyString => negb prev_space
  | String c s' =>
      if Py.is_space c
      then Ascii.eqb c " " && negb prev_space && tidy_after true s'
      else tidy_after false s'
  end.

Definition tidy (s : string) : bool :=
  match s with
  | EmptyString => true
  | String _ _ => tidy_after true s
  end.

(** What follows the word being read: nothing, or a space and the joined
    rest. *)
Definition tail_of (ws : list string) : string :=
  match ws with [] => "" | _ => " " ++ Py.join " " ws end.

(** Every character of [s] is white space. *)
Definition blank (s : string) : Prop :=
  forall c, In c (list_ascii_of_string s) -> Py.is_space c = true.

Definition no_colon (s : string) : Prop :=
  forall c, In c (list_ascii_of_string s) -> c <> ":"%char.

(** [parse_height_to_cm] returns for [txt] an integer nearest to
    [total_inches * 2.54]. *)
Definition height_within (txt : string) (total_inches : Z) : bool :=
  match parse_height_to_cm (Some txt) with
  | Py.Returns (Some cm) =>
      (Z.abs (100 * cm - 254 * total_inches) <=? 50)%Z
  | _ => false
  end.

(** Feet alone, [F'], and inches alone, [I] closed by a double quote. *)
Definition feet_text (feet : nat) : string := decimal feet ++ "'".
Definition inches_text (inches : nat) : string :=
  decimal inches ++ String Py.dquote "".

End Utils.

(** ** More of [ufc_scraper/scraper.py] *)

(** *** [scrape_event_list] *)

Module EventList.

(** A [tr.b-statistics__table-row] element, by the three queries made on
    it: the link and the date of the first cell, the text of the second
    cell. *)
Record event_row : Type := EventRow {
  (* select_one("td:nth-child(1) a.b-link_style_black") *)
  event_link_tag : option Scraper.anchor;
  (* select_one("td:nth-child(1) span.b-statistics__date"), its get_text() *)
  date_tag : option string;
  (* select_one("td:nth-child(2)"), its get_text() *)
  location_tag_td : option string
}.

Record event : Type := Event {
  name : string;
  date : string;
  location : string;
  url : string
}.

(** The body of the loop for one row: the record appended, if any.  A row
    whose link has no [href], or an empty one, is passed over. *)
Definition row_event (r : event_row) : option event :=
  match event_link_tag r, date_tag r with
  | Some link, Some d =>
      let event_name := clean_text (Some (Scraper.a_text link)) in
      let event_date := clean_text (Some d) in
      let location :=
        match location_tag_td r with
        | Some t => clean_text (Some t)
        | None => "N/A"
        end in
      match Scraper.a_href link with
      | Some event_url =>
          if Py.truthy event_url
          then Some {| name := event_name;
                       date := event_date;
                       location := location;
                       url := if negb (Py.startswith "http" event_url)
                              then FIGHTER_STATS_BASE_URL ++ event_url
                              else event_url |}
          else None
      | None => None
      end
  | _, _ => None
  end.

Fixpoint scrape_rows (table_rows : list event_row) : list event :=
  match table_rows with
  | [] => []
  | r :: rows' =>
      match row_event r with
      | Some e => e :: scrape_rows rows'
      | None => scrape_rows rows'
      end
  end.

(** [soup] is [None] when the page could not be fetched. *)
Definition scrape_event_list (soup : option (list event_row)) : list event :=
  match soup with
  | None => []
  | Some table_rows => scrape_rows table_rows
  end.

(** The row gives an event. *)
Definition usable (r : event_row) : bool :=
  match event_link_tag r, date_tag r with
  | Some link, Some _ => Py.truthy_opt (Scraper.a_href link)
  | _, _ => false
  end.

End EventList.

(** *** The career statistics of [scrape_fighter_profile] (lines 181 to 205) *)

Module CareerStats.

(** A [div.b-list__info-box]: the text of its title, if it has one, and the
    texts [get_text(separator=": ", strip=True)] of its list items. *)
Record info_box : Type := InfoBox {
  title : option string;
  stat_items : list string
}.

Definition career_stats_map : list (string * string) :=
  [("SLpM", "slpm"); ("Str. Acc.", "str_acc"); ("SApM", "sapm");
   ("Str. Def", "str_def"); ("TD Avg.", "td_avg"); ("TD Acc.", "td_acc");
   ("TD Def.", "td_def"); ("Sub. Avg.", "sub_avg")].

(** [s.split(":", 1)] on a text that holds a colon: what is before the
    first colon and what is after it. *)
Fixpoint split_once (sep : ascii) (s : string) : option (string * string) :=
  match s with
  | EmptyString => None
  | String c s' =>
      if Ascii.eqb c sep then Some (EmptyString, s')
      else match split_once sep s' with
           | Some (a, b) => Some (String c a, b)
           | None => None
           end
  end.

(** The inner loop: the first key of the map that equals the label once
    the periods of both are dropped. *)
Definition stat_name_for (label : string) : option string :=
  let normalized_label := Py.replace_chr "." "" label in
  match find (fun kv => String.eqb normalized_label
                          (Py.replace_chr "." "" kv.1))
             career_stats_map with
  | Some kv => Some kv.2
  | None => None
  end.

(** One list item; [fighter_stats] holds the keys this part of the function
    writes. *)
Definition add_stat (fighter_stats : gmap string string) (item_text : string)
  : gmap string string :=
  if Py.contains ":" item_text
  then match split_once ":" item_text with
       | Some (l, v) =>
           let label := clean_text (Some l) in
           let value := clean_text (Some v) in
           match stat_name_for label with
           | Some stat_name => <[stat_name := value]> fighter_stats
           | None => fighter_stats
           end
       | None => fighter_stats
       end
  else fighter_stats.

(** The first box whose title holds the words "Career Statistics". *)
Definition career_stats_box (all_info_boxes : list info_box)
  : option info_box :=
  find (fun box => match title box with
                   | Some t => Py.contains "Career Statistics" t
                   | None => false
                   end) all_info_boxes.

Definition career_stats (all_info_boxes : list info_box)
  : gmap string string :=
  match career_stats_box all_info_boxes with
  | Some box => foldl add_stat ∅ (stat_items box)
  | None => ∅
  end.

Definition stat_names : list string := career_stats_map.*2.

End CareerStats.

(** *** Notions used in the statements about [scrape_event_fights] *)

Module ScraperSpec.

(** The row gives a fight: a non-empty link and ten columns at least. *)
Definition accepts (r : Scraper.row) : bool :=
  Py.truthy (Scraper.data_link r) && (10 <=? List.length (Scraper.cols r))%nat.

End ScraperSpec.

(** ** More of [ufc_scraper/fighter_organizer.py] *)

Module IndexQueries.
Import Organizer.

(** [data_manager.load_fighter_index()]: the stored index, or an empty one
    when there is no file or it cannot be read. *)
Definition load_fighter_index (stored : option (gmap string (list entry)))
  : gmap string (list entry) :=
  default ∅ stored.

(** [sorted] on strings.  The keys of a dictionary are distinct, so the
    result does not depend on the order in which they are listed. *)
Fixpoint insert_key (k : string) (l : list string) : list string :=
  match l with
  | [] => [k]
  | x :: l' =>
      if String.leb k x then k :: x :: l' else x :: insert_key k l'
  end.

Definition sorted_keys (l : list string) : list string :=
  foldr insert_key [] l.

Definition get_weight_classes (stored : option (gmap string (list entry)))
  : list string :=
  sorted_keys (map_to_list (load_fighter_index stored)).*1.

Definition get_fighters_by_weight_class
           (stored : option (gmap string (list entry)))
           (weight_class : string) : list entry :=
  default [] (load_fighter_index stored !! weight_class).

(** *** Notions used in the statements *)

(** No list of the index is empty. *)
Definition filled (st : state) : Prop :=
  forall wc l, fighter_index st !! wc = Some l -> l <> [].

(** Order of two class names. *)
Definition key_le (a b : string) : Prop := String.leb a b = true.

End IndexQueries.

(** ** [ufc_scraper/data_manager.py]: [get_fighter_last_fight_date] *)

Module DataManager.

(** A fight as the function reads it, through [dict.get]. *)
Record fight_view : Type := FightView {
  event_date : option string;
  fighter1_url : option string;
  fighter2_url : option string
}.

Section LastFightDate.
(** The [datetime] values and the three operations used on them:
    [strptime(s, "%B %d, %Y")], with [None] for [ValueError]; [a > b];
    [strftime("%Y-%m-%d")]. *)
Variable datetime : Type.
Variable strptime : string -> option datetime.
Variable later : datetime -> datetime -> bool.
Variable strftime : datetime -> string.

(** [fighter_url == fight.get("fighter1_url") or ... "fighter2_url"] *)
Definition is_participant (fighter_url : option string) (fight : fight_view)
  : bool :=
  bool_decide (fighter_url = fighter1_url fight)
  || bool_decide (fighter_url = fighter2_url fight).

(** The body of the loop. *)
Definition step (fighter_url : option string)
           (latest_date : option datetime) (fight : fight_view)
  : option datetime :=
  match event_date fight with
  | None => latest_date
  | Some fight_date_str =>
      if negb (Py.truthy fight_date_str) then latest_date
      else if is_participant fighter_url fight
      then match strptime fight_date_str with
           | Some current_fight_date =>
               match latest_date with
               | None => Some current_fight_date
               | Some l =>
                   if later current_fight_date l
                   then Some current_fight_date else latest_date
               end
           | None => latest_date
           end
      else latest_date
  end.

Definition get_fighter_last_fight_date (fighter_url : option string)
           (all_fights_data : list fight_view) : option string :=
  match foldl (step fighter_url) None all_fights_data with
  | Some latest_date => Some (strftime latest_date)
  | None => None
  end.

(** The date of a fight that counts for [fighter_url]: the fighter takes
    part and the date text is there and can be read. *)
Definition counted (fighter_url : option string) (fight : fight_view)
  : option datetime :=
  match event_date fight with
  | Some s =>
      if Py.truthy s && is_participant fighter_url fight
      then strptime s else None
  | None => None
  end.

(** [latest] is the latest date counted among [fights], if any counts. *)
Definition latest_of (fighter_url : option string)
           (fights : list fight_view) (latest : option datetime) : Prop :=
  match latest with
  | None => forall f, f ∈ fights -> counted fighter_url f = None
  | Some d =>
      (exists f, f ∈ fights /\ counted fighter_url f = Some d) /\
      forall f d', f ∈ fights -> counted fighter_url f = Some d' ->
                   later d' d = false
  end.

End LastFightDate.

End DataManager.

(** ** More sample inputs *)

Module MoreSamples.

(** A fight row whose second cell holds no link. *)
Definition linkless_row : Scraper.row :=
  Scraper.Row "/fight-details/f3"
    [Samples.status_cell [Scraper.style_red]; Samples.blank_cell;
     Samples.blank_cell; Samples.blank_cell; Samples.blank_cell;
     Samples.blank_cell; Samples.text_cell "Flyweight Bout";
     Samples.text_cell "U-DEC"; Samples.text_cell "3";
     Samples.text_cell "5:00"].

Definition linkless_fight : Scraper.fight :=
  {| Scraper.fighter1_name := "N/A";
     Scraper.fighter1_url := None;
     Scraper.fighter2_name := "N/A";
     Scraper.fighter2_url := None;
     Scraper.winner := "N/A";
     Scraper.method := "U-DEC";
     Scraper.round := "3";
     Scraper.time := "5:00";
     Scraper.weight_class := "Flyweight";
     Scraper.fight_details_url := Some "http://ufcstats.com/fight-details/f3";
     Scraper.event_date := "May 01, 2021" |}.

Definition event_rows : list EventList.event_row :=
  [EventList.EventRow
     (Some (Scraper.Anchor "  Fight Night:  Archer vs. Brook "
                           (Some "/event-details/e1")))
     (Some " May 01, 2021 ") (Some "  Las Vegas, Nevada, USA ");
   EventList.EventRow
     (Some (Scraper.Anchor "No link" None)) (Some "May 08, 2021") None;
   EventList.EventRow None None None].

(** Dates written as day numbers, for a run of the date fold. *)
Definition day_views : list DataManager.fight_view :=
  [DataManager.FightView (Some "12") (Some "u1") (Some "u2");
   DataManager.FightView (Some "30") (Some "u3") (Some "u1");
   DataManager.FightView (Some "45") (Some "u2") (Some "u3");
   DataManager.FightView (Some "soon") (Some "u1") (Some "u3");
   DataManager.FightView None (Some "u1") (Some "u2")].

Definition last_day (fighter_url : option string) : option string :=
  DataManager.get_fighter_last_fight_date Z Py.int Z.gtb
    (fun d => decimal (Z.to_nat d)) fighter_url day_views.

Definition full_request : App.PredictionRequest Z :=
  App.Request Z "Ann Archer" "Bea Brook" [7%Z; 2%Z].

Definition stat_boxes : list CareerStats.info_box :=
  [CareerStats.InfoBox None ["Height: 5' 11"];
   CareerStats.InfoBox (Some "  Career Statistics: ")
     ["SLpM: 5.25"; "Str. Acc.: 50%"; "Str. Def.: 61%"; "Wins: 3";
      "Sub. Avg.: 0.5"; "SLpM: 4.10"]].

End MoreSamples.

(** ** [main.py]: from the fetched event pages to the index

    Each event page, fetched or not, comes with the date of its event; the
    fights of all pages, in order, are handed to the index builder. *)

Module Pipeline.

Definition all_fights (pages : list (option (list Scraper.row) * string))
  : list Scraper.fight :=
  mjoin ((fun page => Scraper.scrape_event_fights page.1 page.2) <$> pages).

Definition index_of_pages (pages : list (option (list Scraper.row) * string))
  : gmap string (list Organizer.entry) :=
  Organizer.update_fighter_index (Organizer.of_fight <$> all_fights pages).

End Pipeline.

(** * Properties *)

Module PyFacts.
Import Py.

Lemma str_app_nil_r s : s ++ "" = s.
Proof. induction s; simpl; congruence. Qed.

Lemma str_app_assoc (a b c : string) : (a ++ b) ++ c = a ++ b ++ c.
Proof. induction a; simpl; congruence. Qed.

Lemma str_length_app (a b : string) :
  String.length (a ++ b) = (String.length a + String.length b)%nat.
Proof. induction a; simpl; congruence. Qed.

Lemma no_space_nil : no_space "".
Proof. intros c []. Qed.

Lemma no_space_cons c s :
  no_space (String c s) <-> is_space c = false /\ no_space s.
Proof.
  unfold no_space. simpl. split.
  - intros H. split; [apply H; by left|]. intros d Hd. apply H. by right.
  - intros [Hc Hs] d [<-|Hd]; auto.
Qed.

Lemma split_ws_shape s :
  no_space (split_ws s).1 /\ Forall word (split_ws s).2.
Proof.
  induction s as [|c s [IH1 IH2]]; simpl.
  - split; [apply no_space_nil|constructor].
  - destruct (split_ws s) as [w ws]. simpl in *.
    destruct (is_space c) eqn:E; simpl.
    + split; [apply no_space_nil|].
      destruct w; simpl; [assumption|]. constructor; [|assumption].
      split; [discriminate|assumption].
    + split; [|assumption]. by apply no_space_cons.
Qed.

Lemma split_words s : Forall word (split s).
Proof.
  unfold split. pose proof (split_ws_shape s) as [H1 H2].
  destruct (split_ws s) as [w ws]. simpl in *.
  destruct w; simpl; [assumption|]. constructor; [|assumption].
  split; [discriminate|assumption].
Qed.

Lemma split_ws_app w s :
  no_space w ->
  split_ws (w ++ s) = (w ++ (split_ws s).1, (split_ws s).2).
Proof.
  induction w as [|c w IH]; simpl; intros H.
  - by destruct (split_ws s).
  - apply no_space_cons in H as [Hc Hw]. rewrite (IH Hw). by rewrite Hc.
Qed.

Lemma split_app_space w s :
  word w -> split (w ++ String " " s) = w :: split s.
Proof.
  intros [Hne Hw]. unfold split. rewrite split_ws_app by assumption.
  simpl. destruct (split_ws s) as [w0 ws0]. simpl.
  rewrite str_app_nil_r. destruct w; [done|]. reflexivity.
Qed.

Lemma split_word w : word w -> split w = [w].
Proof.
  intros [Hne Hw]. unfold split.
  rewrite <- (str_app_nil_r w) at 1. rewrite split_ws_app by assumption.
  simpl. rewrite str_app_nil_r. destruct w; [done|]. reflexivity.
Qed.

Lemma split_join ws : Forall word ws -> split (join " " ws) = ws.
Proof.
  induction 1 as [|w ws Hw Hws IH]; [reflexivity|].
  destruct ws as [|w' ws]; [by apply split_word|].
  change (join " " (w :: w' :: ws)) with (w ++ String " " (join " " (w' :: ws))).
  rewrite split_app_space by assumption. by rewrite IH.
Qed.

Lemma rstrip_cons c s :
  is_space c = false -> rstrip (String c s) = String c (rstrip s).
Proof. intros H. simpl. rewrite H. by destruct (rstrip s). Qed.

Lemma rstrip_no_space w : no_space w -> rstrip w = w.
Proof.
  induction w as [|c w IH]; [reflexivity|].
  intros [Hc Hw]%no_space_cons. rewrite rstrip_cons by assumption.
  by rewrite IH.
Qed.

Lemma rstrip_app a b : rstrip b = b -> b <> "" -> rstrip (a ++ b) = a ++ b.
Proof.
  intros Hb Hne. induction a as [|c a IH]; simpl; [assumption|].
  rewrite IH. destruct (a ++ b) eqn:E; [|reflexivity].
  destruct a; simpl in E; [congruence|discriminate].
Qed.

Lemma join_nonempty w ws : word w -> join " " (w :: ws) <> "".
Proof.
  intros [Hne _]. destruct ws; simpl; destruct w; simpl; congruence.
Qed.

Lemma rstrip_join ws : Forall word ws -> rstrip (join " " ws) = join " " ws.
Proof.
  induction 1 as [|w ws Hw Hws IH]; [reflexivity|].
  destruct ws as [|w' ws]; [apply rstrip_no_space, Hw|].
  change (join " " (w :: w' :: ws)) with (w ++ " " ++ join " " (w' :: ws)).
  rewrite <- str_app_assoc. apply rstrip_app; [assumption|].
  apply join_nonempty. by inversion Hws.
Qed.

Lemma lstrip_head_ok s : head_ok s -> lstrip s = s.
Proof. destruct s; simpl; [reflexivity|]. by intros ->. Qed.

Lemma head_ok_join ws : Forall word ws -> head_ok (join " " ws).
Proof.
  intros H. destruct H as [|w ws [Hne Hw] Hws]; [exact I|].
  destruct w as [|c w]; [done|]. apply no_space_cons in Hw as [Hc _].
  destruct ws; simpl; assumption.
Qed.

Lemma strip_join ws : Forall word ws -> strip (join " " ws) = join " " ws.
Proof.
  intros H. unfold strip. rewrite lstrip_head_ok by by apply head_ok_join.
  by apply rstrip_join.
Qed.

End PyFacts.

Module CleanTextFacts.
Import Py PyFacts.

Lemma clean_text_join s : clean_text (Some s) = join " " (split s).
Proof. simpl. apply strip_join, split_words. Qed.

Lemma clean_text_idem s :
  clean_text (Some (clean_text (Some s))) = clean_text (Some s).
Proof.
  rewrite !clean_text_join. rewrite split_join by apply split_words.
  reflexivity.
Qed.

Lemma clean_text_head_ok s : head_ok (clean_text (Some s)).
Proof. rewrite clean_text_join. apply head_ok_join, split_words. Qed.

(** Text that starts with a visible character keeps it. *)
Lemma clean_text_cons c s :
  is_space c = false ->
  exists s', clean_text (Some (String c s)) = String c s'.
Proof.
  intros Hc. rewrite clean_text_join. unfold split. simpl.
  destruct (split_ws s) as [w ws]. rewrite Hc. simpl.
  destruct ws; simpl; eauto.
Qed.

End CleanTextFacts.

Module ReFacts.
Import Py PyFacts Re.

Lemma is_suffix_refl s : is_suffix s s.
Proof. by exists "". Qed.

Lemma is_suffix_cons c t s : is_suffix t s -> is_suffix t (String c s).
Proof. intros [pre ->]. by exists (String c pre). Qed.

Lemma is_suffix_trans a b c : is_suffix a b -> is_suffix b c -> is_suffix a c.
Proof. intros [p ->] [q ->]. exists (q ++ p). by rewrite str_app_assoc. Qed.

Lemma is_suffix_length t s :
  is_suffix t s -> (String.length t <= String.length s)%nat.
Proof. intros [pre ->]. rewrite str_length_app. lia. Qed.

Section Generic.
Context {A : Type}.
Variable ic : bool.

Lemma star_cont k (kont : mstate -> option A) s : forall b g x,
  star k b g kont s = Some x ->
  exists st', kont st' = Some x /\ is_suffix (rest st') s /\ cap st' = g.
Proof.
  induction s as [|c s IH]; simpl; intros b g x H.
  - eexists. split; [exact H|]. split; [apply is_suffix_refl|reflexivity].
  - destruct (in_class k c).
    + destruct (star k false g kont s) as [y|] eqn:E.
      * injection H as <-. destruct (IH _ _ _ E) as (st' & ? & ? & ?).
        exists st'. split; [assumption|]. split; [|assumption].
        by apply is_suffix_cons.
      * eexists. split; [exact H|]. split; [apply is_suffix_refl|reflexivity].
    + eexists. split; [exact H|]. split; [apply is_suffix_refl|reflexivity].
Qed.

Lemma rmatch_cont r : forall (kont : mstate -> option A) st x,
  rmatch ic r kont st = Some x ->
  exists st', kont st' = Some x /\ is_suffix (rest st') (rest st).
Proof.
  induction r as [|p|k|k| | |r1 IH1 r2 IH2|r1 IH1 r2 IH2|r IH];
    simpl; intros kont st x H.
  - exists st. split; [assumption|apply is_suffix_refl].
  - destruct (rest st) as [|c s'] eqn:E; [discriminate|].
    destruct (chr_eq ic p c); [|discriminate].
    eexists. split; [exact H|]. simpl. apply is_suffix_cons, is_suffix_refl.
  - destruct (star_cont _ _ _ _ _ _ H) as (st' & ? & ? & ?). eauto.
  - destruct (rest st) as [|c s'] eqn:E; [discriminate|].
    destruct (in_class k c); [|discriminate].
    destruct (star_cont _ _ _ _ _ _ H) as (st' & ? & ? & ?).
    exists st'. split; [assumption|]. by apply is_suffix_cons.
  - destruct (at0 st); [|discriminate].
    exists st. split; [assumption|apply is_suffix_refl].
  - exists st. split; [|apply is_suffix_refl].
    destruct (rest st) as [|c [|]]; try discriminate; [assumption|].
    destruct (Ascii.eqb c newline); [assumption|discriminate].
  - destruct (IH1 _ _ _ H) as (st1 & H1 & S1).
    destruct (IH2 _ _ _ H1) as (st2 & H2 & S2).
    exists st2. split; [assumption|]. by eapply is_suffix_trans.
  - destruct (rmatch ic r1 kont st) as [y|] eqn:E.
    + injection H as <-. eauto.
    + eauto.
  - destruct (IH _ _ _ H) as (st1 & H1 & S1).
    eexists. split; [exact H1|]. exact S1.
Qed.
End Generic.

Lemma match_here_suffix ic r b s st :
  match_here ic r b s = Some st -> is_suffix (rest st) s.
Proof.
  intros H. apply rmatch_cont in H as (st' & [= ->] & H). exact H.
Qed.

Lemma sub_go_skip ic r repl pre : forall s b,
  sub_go ic r repl (String.length pre) b (pre ++ s) =
  sub_go ic r repl 0 (b && negb (truthy pre)) s.
Proof.
  induction pre as [|c pre IH]; intros s b; simpl.
  - by rewrite andb_true_r.
  - rewrite IH. by rewrite andb_false_r.
Qed.

Lemma sub_go_cons ic r repl b c s :
  sub_go ic r repl 0 b (String c s) =
  match match_here ic r b (String c s) with
  | Some st =>
      match (String.length (String c s) - String.length (rest st))%nat with
      | O => repl ++ String c (sub_go ic r repl 0 false s)
      | S n => repl ++ sub_go ic r repl n false s
      end
  | None => String c (sub_go ic r repl 0 false s)
  end.
Proof. reflexivity. Qed.

(** After a match that is not empty the scan resumes where it ended. *)
Lemma sub_go_match ic r repl b s st :
  match_here ic r b s = Some st ->
  rest st <> s ->
  sub_go ic r repl 0 b s = repl ++ sub_go ic r repl 0 false (rest st).
Proof.
  intros H Hne. destruct (match_here_suffix _ _ _ _ _ H) as [pre E].
  destruct pre as [|c pre]; [simpl in E; congruence|].
  simpl in E. subst s. rewrite sub_go_cons, H.
  assert (L : (String.length (String c (pre ++ rest st))
               - String.length (rest st))%nat = S (String.length pre)).
  { simpl. rewrite str_length_app. lia. }
  rewrite L. by rewrite sub_go_skip.
Qed.

Lemma sub_go_no_match ic r repl : forall s b,
  search_from ic r b s = None -> sub_go ic r repl 0 b s = s.
Proof.
  induction s as [|c s IH]; intros b; simpl.
  - by destruct (match_here ic r b "").
  - destruct (match_here ic r b (String c s)); [discriminate|].
    destruct (search_from ic r false s) as [[]|] eqn:E; [discriminate|].
    intros _. by rewrite IH.
Qed.

Lemma search_from_sound ic r : forall s b pre st,
  search_from ic r b s = Some (pre, st) ->
  exists s1, s = pre ++ s1 /\
             match_here ic r (b && negb (truthy pre)) s1 = Some st.
Proof.
  induction s as [|c s IH]; intros b pre st; simpl.
  - destruct (match_here ic r b "") eqn:E; [|discriminate].
    intros [= <- <-]. exists "". by rewrite andb_true_r.
  - destruct (match_here ic r b (String c s)) eqn:E.
    + intros [= <- <-]. exists (String c s). by rewrite andb_true_r.
    + destruct (search_from ic r false s) as [[p st']|] eqn:E'; [|discriminate].
      intros [= <- <-]. destruct (IH _ _ _ E') as (s1 & -> & H1).
      exists s1. split; [reflexivity|]. by rewrite andb_false_r.
Qed.

Lemma search_from_complete ic r pre : forall s b,
  is_Some (match_here ic r (b && negb (truthy pre)) s) ->
  is_Some (search_from ic r b (pre ++ s)).
Proof.
  induction pre as [|c pre IH]; intros s b; simpl.
  - rewrite andb_true_r. intros [st H].
    destruct s; simpl; rewrite H; eauto.
  - rewrite andb_false_r. intros H.
    destruct (match_here ic r b (String c (pre ++ s))); [eauto|].
    destruct (IH s false) as [[p st] ->]; [|eauto].
    destruct pre; simpl; exact H.
Qed.

Lemma star_total k s : forall b g, is_Some (star k b g Some s).
Proof.
  induction s as [|c s IH]; simpl; intros b g; [eauto|].
  destruct (in_class k c); [|eauto].
  destruct (IH false g) as [st ->]. eauto.
Qed.

(** Greedy repetition followed by nothing else stops at the first character
    outside the class. *)
Lemma star_greedy k s : forall b g st,
  star k b g Some s = Some st ->
  cap st = g /\
  match rest st with
  | EmptyString => True
  | String c _ => in_class k c = false
  end.
Proof.
  induction s as [|c s IH]; simpl; intros b g st.
  - intros [= <-]. by split.
  - destruct (in_class k c) eqn:E.
    + destruct (star k false g Some s) eqn:E'.
      * intros [= <-]. eauto.
      * destruct (star_total k s false g) as [? ?]. congruence.
    + intros [= <-]. simpl. by split.
Qed.

Lemma star_all (A : Type) k (kont : mstate -> option A) w g x :
  (forall c, In c (list_ascii_of_string w) -> in_class k c = true) ->
  kont (MS false "" g) = Some x ->
  star k false g kont w = Some x.
Proof.
  induction w as [|c w IH]; simpl; intros Hw Hk; [assumption|].
  rewrite (Hw c) by by left. rewrite IH; auto.
Qed.

End ReFacts.

Module NormalizeFacts.
Import Py PyFacts CleanTextFacts Re ReFacts.

Lemma rmatch_Cat (A : Type) ic r1 r2 (kont : mstate -> option A) st :
  rmatch ic (Cat r1 r2) kont st = rmatch ic r1 (rmatch ic r2 kont) st.
Proof. reflexivity. Qed.

(** A match of the suffix pattern starts on white space and runs to the end
    of the text, or to a final line feed. *)
Lemma suffix_match_shape b s st :
  match_here true bout_suffix_re b s = Some st ->
  (exists c s', s = String c s' /\ is_space c = true) /\
  (rest st = "" \/ rest st = String newline "").
Proof.
  unfold match_here, bout_suffix_re. rewrite rmatch_Cat. simpl rest.
  destruct s as [|c s']; [discriminate|].
  change (rmatch true (Plus CSpace) ?k (MS b (String c s') None))
    with (if is_space c then star CSpace false None k s' else None).
  destruct (is_space c) eqn:Hc; [|discriminate].
  intros H. split; [eauto|].
  apply star_cont in H as (st1 & H & _).
  rewrite rmatch_Cat in H.
  apply rmatch_cont in H as (st2 & H & _).
  simpl in H. destruct (rest st2) as [|d [|]] eqn:E; try discriminate.
  - injection H as <-. by left.
  - destruct (Ascii.eqb_spec d newline); [|discriminate].
    injection H as <-. right. congruence.
Qed.

Lemma suffix_no_match_visible b c s :
  is_space c = false -> match_here true bout_suffix_re b (String c s) = None.
Proof.
  intros Hc. unfold match_here, bout_suffix_re. rewrite rmatch_Cat.
  change (rmatch true (Plus CSpace) ?k (MS b (String c s) None))
    with (if is_space c then star CSpace false None k s else None).
  by rewrite Hc.
Qed.

Lemma sub_suffix_cons b c s :
  is_space c = false ->
  sub_go true bout_suffix_re "" 0 b (String c s) =
  String c (sub_go true bout_suffix_re "" 0 false s).
Proof.
  intros Hc. rewrite sub_go_cons. by rewrite suffix_no_match_visible.
Qed.

Lemma sub_suffix_head_ok s :
  head_ok s -> head_ok (Re.sub true bout_suffix_re "" s).
Proof.
  unfold Re.sub. destruct s as [|c s]; intros Hc.
  - exact I.
  - simpl in Hc. rewrite sub_suffix_cons by assumption. exact Hc.
Qed.

Lemma prefix_no_match_later s : match_here true ufc_prefix_re false s = None.
Proof. reflexivity. Qed.

Lemma sub_prefix_later s : sub_go true ufc_prefix_re "" 0 false s = s.
Proof.
  induction s as [|c s IH]; [reflexivity|].
  rewrite sub_go_cons, prefix_no_match_later. by rewrite IH.
Qed.

(** The prefix pattern takes all the white space that follows [UFC]. *)
Lemma prefix_match_shape s st :
  match_here true ufc_prefix_re true s = Some st ->
  head_ok (rest st) /\ rest st <> s.
Proof.
  unfold match_here, ufc_prefix_re. simpl.
  destruct s as [|c1 [|c2 [|c3 [|c4 s4]]]]; simpl; try discriminate;
    repeat match goal with
           | |- context [if ?x then _ else _] =>
               destruct x eqn:?; try discriminate
           end.
  intros H. split.
  - apply star_greedy in H as [_ H].
    unfold head_ok. destruct (rest st); [exact I|exact H].
  - apply star_cont in H as (st' & [= ->] & Hs & _).
    apply is_suffix_length in Hs. intros E.
    apply (f_equal String.length) in E. simpl in E. lia.
Qed.

Lemma sub_prefix_head_ok s :
  head_ok s -> head_ok (Re.sub true ufc_prefix_re "" s).
Proof.
  intros Hs. unfold Re.sub.
  destruct (match_here true ufc_prefix_re true s) as [st|] eqn:E.
  - destruct (prefix_match_shape _ _ E) as [Hh Hne].
    rewrite (sub_go_match _ _ _ _ _ _ E Hne). simpl.
    by rewrite sub_prefix_later.
  - destruct s as [|c s]; [exact I|].
    rewrite sub_go_cons, E, sub_prefix_later. exact Hs.
Qed.

Lemma head_ok_clean_text s :
  head_ok s -> truthy s = true -> clean_text (Some s) <> "".
Proof.
  destruct s as [|c s]; [discriminate|]. simpl head_ok. intros Hc _.
  destruct (clean_text_cons c s Hc) as [s' ->]. discriminate.
Qed.

(** What [normalize_weight_class] returns is the fallback or the cleaning of
    a text that starts with a visible character. *)
Lemma normalize_cases wc :
  normalize_weight_class wc = "Unknown" \/
  exists s, head_ok s /\ truthy s = true /\
            normalize_weight_class wc = clean_text (Some s).
Proof.
  destruct wc as [wc|]; [|by left]. unfold normalize_weight_class.
  set (wc3 := Re.sub true ufc_prefix_re ""
                (Re.sub true bout_suffix_re "" (clean_text (Some wc)))).
  destruct (truthy wc3) eqn:E; [|by left].
  right. exists wc3. split; [|by split].
  apply sub_prefix_head_ok, sub_suffix_head_ok, clean_text_head_ok.
Qed.

Lemma normalize_nonempty wc : normalize_weight_class wc <> "".
Proof.
  destruct (normalize_cases wc) as [->|(s & Hh & Ht & ->)]; [discriminate|].
  by apply head_ok_clean_text.
Qed.

Lemma normalize_clean wc :
  clean_text (Some (normalize_weight_class wc)) = normalize_weight_class wc.
Proof.
  destruct (normalize_cases wc) as [->|(s & Hh & Ht & ->)]; [reflexivity|].
  apply clean_text_idem.
Qed.

(** A text that is clean and matches neither pattern is returned as it is. *)
Lemma normalize_fixed t :
  clean_text (Some t) = t -> t <> "" ->
  Re.search true bout_suffix_re t = None ->
  Re.search true ufc_prefix_re t = None ->
  normalize_weight_class (Some t) = t.
Proof.
  intros Hc Hne H1 H2. unfold normalize_weight_class, Re.sub.
  rewrite Hc. rewrite (sub_go_no_match _ _ _ _ _ H1).
  rewrite (sub_go_no_match _ _ _ _ _ H2).
  destruct t; [done|]. simpl truthy. cbv iota. exact Hc.
Qed.

End NormalizeFacts.

Module FighterIdFacts.
Import Py PyFacts Re ReFacts NormalizeFacts.

Lemma all_in_nil k : all_in k "".
Proof. intros c []. Qed.

Lemma all_in_cons k c s : all_in k (String c s) <-> in_class k c = true /\ all_in k s.
Proof.
  unfold all_in. simpl. split.
  - intros H. split; [apply H; by left|]. intros d Hd. apply H. by right.
  - intros [Hc Hs] d [<-|Hd]; auto.
Qed.

Lemma take_app a b : take (String.length a) (a ++ b) = a.
Proof. induction a; simpl; [by destruct b|congruence]. Qed.

Lemma star_sound (A : Type) k (kont : mstate -> option A) s : forall b g x,
  star k b g kont s = Some x ->
  exists pre s', s = pre ++ s' /\ all_in k pre /\
                 kont (MS (b && negb (truthy pre)) s' g) = Some x.
Proof.
  induction s as [|c s IH]; simpl; intros b g x H.
  - exists "", "". rewrite andb_true_r. auto using all_in_nil.
  - destruct (in_class k c) eqn:Hc.
    + destruct (star k false g kont s) as [y|] eqn:E.
      * injection H as <-. destruct (IH _ _ _ E) as (pre & s' & -> & Hp & Hk).
        exists (String c pre), s'. split; [reflexivity|].
        split; [by apply all_in_cons|]. simpl in *. by rewrite andb_false_r.
      * exists "", (String c s). rewrite andb_true_r. auto using all_in_nil.
    + exists "", (String c s). rewrite andb_true_r. auto using all_in_nil.
Qed.

Lemma rmatch_lit (A : Type) p : forall (kont : mstate -> option A) st x,
  p <> "" ->
  rmatch false (lit p) kont st = Some x ->
  exists s', rest st = p ++ s' /\ kont (MS false s' (cap st)) = Some x.
Proof.
  induction p as [|c p IH]; intros kont st x Hne; [done|].
  destruct p as [|d p].
  - simpl. destruct (rest st) as [|e s']; [discriminate|].
    destruct (Ascii.eqb_spec c e) as [->|]; [|discriminate]. eauto.
  - change (lit (String c (String d p))) with (Cat (Chr c) (lit (String d p))).
    rewrite rmatch_Cat. simpl rmatch at 1.
    destruct (rest st) as [|e s']; [discriminate|].
    unfold chr_eq. destruct (Ascii.eqb_spec c e) as [->|]; [|discriminate].
    intros H. apply IH in H as (s'' & E & H); [|discriminate].
    simpl in E. subst s'. exists s''. split; [reflexivity|exact H].
Qed.

Lemma rmatch_Plus (A : Type) ic k (kont : mstate -> option A) st :
  rmatch ic (Plus k) kont st =
  match rest st with
  | String c s' =>
      if in_class k c then star k false (cap st) kont s' else None
  | EmptyString => None
  end.
Proof. reflexivity. Qed.

Lemma rmatch_Group (A : Type) ic r (kont : mstate -> option A) st :
  rmatch ic (Group r) kont st =
  rmatch ic r
    (fun st' =>
       kont (MS (at0 st') (rest st')
               (Some (take (String.length (rest st)
                            - String.length (rest st'))%nat (rest st)))))
    st.
Proof. reflexivity. Qed.

(** A match of the identifier pattern: the literal, a run of letters and
    digits, then the end of the text or a final line feed. *)
Lemma fighter_id_match_shape b s st :
  match_here false fighter_id_re b s = Some st ->
  exists id nl, s = "fighter-details/" ++ id ++ nl /\ cap st = Some id /\
                id <> "" /\ all_in CAlnum id /\
                (nl = "" \/ nl = String newline "").
Proof.
  unfold match_here, fighter_id_re. rewrite rmatch_Cat. intros H.
  apply rmatch_lit in H as (s1 & E & H); [|done].
  simpl in E. subst s. rewrite rmatch_Cat, rmatch_Group, rmatch_Plus in H.
  cbn [rest cap at0] in H.
  destruct s1 as [|c s1]; [discriminate|].
  destruct (in_class CAlnum c) eqn:Hc; [|discriminate].
  apply star_sound in H as (pre & s' & -> & Hp & H).
  exists (String c pre), s'.
  assert (T : take (String.length (String c (pre ++ s')) - String.length s')
                (String c (pre ++ s')) = String c pre).
  { change (String c (pre ++ s')) with (String c pre ++ s').
    rewrite str_length_app.
    replace (String.length (String c pre) + String.length s'
             - String.length s')%nat
      with (String.length (String c pre)) by lia.
    apply take_app. }
  cbn [rest cap at0] in H. rewrite T in H.
  assert (Hid : all_in CAlnum (String c pre)) by by apply all_in_cons.
  destruct s' as [|d [|]]; simpl in H; try discriminate.
  - injection H as <-. simpl. repeat split; auto.
  - destruct (Ascii.eqb_spec d newline) as [->|]; [|discriminate].
    injection H as <-. simpl. repeat split; auto.
Qed.

Lemma take_all s : take (String.length s) s = s.
Proof. induction s; simpl; congruence. Qed.

Lemma rmatch_lit_app (A : Type) p : forall (kont : mstate -> option A) b s g,
  p <> "" ->
  rmatch false (lit p) kont (MS b (p ++ s) g) = kont (MS false s g).
Proof.
  induction p as [|c p IH]; intros kont b s g Hne; [done|].
  destruct p as [|d p].
  - simpl. by rewrite Ascii.eqb_refl.
  - change (lit (String c (String d p))) with (Cat (Chr c) (lit (String d p))).
    change (String c (String d p) ++ s) with (String c (String d p ++ s)).
    rewrite rmatch_Cat. cbn [rmatch rest cap at0]. unfold chr_eq.
    rewrite Ascii.eqb_refl. by rewrite IH.
Qed.

Lemma fighter_id_match_here b id :
  id <> "" -> all_in CAlnum id ->
  match_here false fighter_id_re b ("fighter-details/" ++ id)
  = Some (MS false "" (Some id)).
Proof.
  intros Hne Hid. destruct id as [|c id]; [done|].
  pose proof Hid as [Hc Hid']%all_in_cons.
  unfold match_here, fighter_id_re.
  rewrite rmatch_Cat, rmatch_lit_app by done.
  rewrite rmatch_Cat, rmatch_Group, rmatch_Plus. cbn [rest cap at0].
  rewrite Hc. erewrite star_all; [reflexivity|exact Hid'|].
  cbn [rest cap at0]. simpl rmatch.
  by rewrite take_all.
Qed.

Lemma after_slash_app a b :
  after_slash b = None -> after_slash (a ++ String "/" b) = Some b.
Proof.
  intros Hb. induction a as [|c a IH]; simpl.
  - by rewrite Hb.
  - by rewrite IH.
Qed.

Lemma after_slash_none s : no_slash s <-> after_slash s = None.
Proof.
  induction s as [|c s IH]; simpl.
  - split; [reflexivity|]. intros _ c [].
  - split.
    + intros H. assert (no_slash s) as ->%IH by (intros d Hd; apply H; by right).
      destruct (Ascii.eqb_spec c "/"); [|reflexivity].
      exfalso. apply (H c); [by left|assumption].
    + destruct (after_slash s); [discriminate|].
      destruct (Ascii.eqb_spec c "/"); [discriminate|].
      intros _ d [<-|Hd]; [assumption|]. by apply IH.
Qed.

Lemma alnum_no_slash s : all_in CAlnum s -> no_slash s.
Proof. intros H c Hc ->. specialize (H _ Hc). discriminate. Qed.

Lemma no_slash_app a b : no_slash a -> no_slash b -> no_slash (a ++ b).
Proof.
  intros Ha Hb. induction a as [|c a IH]; simpl; [assumption|].
  intros d [<-|Hd].
  - apply Ha. by left.
  - apply IH; [|assumption]. intros e He. apply Ha. by right.
Qed.

Lemma all_in_app_r k a b : all_in k (a ++ b) -> all_in k b.
Proof.
  induction a as [|c a IH]; simpl; [auto|].
  intros H. apply IH. intros d Hd. apply H. by right.
Qed.

Lemma parse_fighter_id_sound url id :
  parse_fighter_id_from_url (Some url) = Some id ->
  exists pre nl, url = pre ++ "fighter-details/" ++ id ++ nl /\
                 id <> "" /\ all_in CAlnum id /\
                 (nl = "" \/ nl = String newline "").
Proof.
  unfold parse_fighter_id_from_url.
  destruct (negb (truthy url)); [discriminate|].
  destruct (Re.search false fighter_id_re url) as [[pre st]|] eqn:E;
    [|discriminate].
  intros Hc. apply search_from_sound in E as (s1 & -> & H).
  apply fighter_id_match_shape in H as (id' & nl & -> & Hcap & ? & ? & ?).
  assert (id' = id) as -> by congruence. eauto 10.
Qed.

Lemma parse_fighter_id_complete pre id :
  id <> "" -> all_in CAlnum id ->
  parse_fighter_id_from_url (Some (pre ++ "fighter-details/" ++ id)) = Some id.
Proof.
  intros Hne Hid.
  destruct (parse_fighter_id_from_url (Some (pre ++ "fighter-details/" ++ id)))
    as [id'|] eqn:E.
  - apply parse_fighter_id_sound in E as (pre' & nl & E & _ & Hid' & Hnl).
    apply (f_equal after_slash) in E.
    change ("fighter-details/" ++ ?x) with ("fighter-details" ++ String "/" x) in E.
    rewrite <- !str_app_assoc in E.
    rewrite !after_slash_app in E.
    + injection E as E. destruct Hnl as [->| ->].
      * rewrite str_app_nil_r in E. congruence.
      * exfalso. rewrite E in Hid. apply all_in_app_r in Hid.
        specialize (Hid newline (or_introl eq_refl)). discriminate.
    + apply after_slash_none, no_slash_app; [by apply alnum_no_slash|].
      destruct Hnl as [->| ->]; intros c; simpl; [tauto|].
      intros [<-|[]]. discriminate.
    + by apply after_slash_none, alnum_no_slash.
  - exfalso. revert E. unfold parse_fighter_id_from_url.
    assert (truthy (pre ++ "fighter-details/" ++ id) = true) as ->.
    { destruct pre; reflexivity. }
    simpl negb. cbv iota. unfold Re.search.
    destruct (search_from_complete false fighter_id_re pre
                ("fighter-details/" ++ id) true) as [[p st] E].
    { rewrite fighter_id_match_here by assumption. eauto. }
    rewrite E. intros Hcap.
    apply search_from_sound in E as (s1 & E1 & H).
    apply fighter_id_match_shape in H as (id' & nl & _ & Hc & _).
    congruence.
Qed.

Lemma parse_fighter_id_segment url id :
  parse_fighter_id_from_url (Some url) = Some id -> has_fighter_segment url.
Proof.
  intros (pre & nl & -> & Hne & Hid & Hnl)%parse_fighter_id_sound.
  exists pre, (id ++ nl). split; [reflexivity|]. split.
  - destruct id; [done|discriminate].
  - apply no_slash_app; [by apply alnum_no_slash|].
    destruct Hnl as [->| ->]; intros c; simpl; [tauto|].
    intros [<-|[]]. discriminate.
Qed.

End FighterIdFacts.

Module ScraperFacts.
Import Scraper.

Lemma row_fight_short date r :
  (List.length (cols r) < 10)%nat -> row_fight date r = None.
Proof.
  intros H. unfold row_fight.
  destruct (negb (Py.truthy (data_link r))); [reflexivity|].
  destruct (Nat.ltb_spec (List.length (cols r)) 10); [reflexivity|lia].
Qed.

Lemma row_fight_inv date r f :
  row_fight date r = Some f ->
  exists c0 c1,
    cols r !! 0%nat = Some c0 /\ cols r !! 1%nat = Some c1 /\
    fighter1_name f = tag_name (anchors c1 !! 0%nat) /\
    fighter2_name f = tag_name (anchors c1 !! 1%nat) /\
    winner f = resolve_winner (status_icon c0) (fighter1_name f) (fighter2_name f).
Proof.
  unfold row_fight.
  destruct (negb (Py.truthy (data_link r))); [discriminate|].
  destruct (List.length (cols r) <? 10)%nat; [discriminate|].
  destruct (cols r !! 0%nat) as [c0|]; [|discriminate].
  destruct (cols r !! 1%nat) as [c1|]; [|discriminate].
  destruct (cols r !! 6%nat) as [c6|]; [|discriminate].
  destruct (cols r !! 7%nat) as [c7|]; [|discriminate].
  destruct (cols r !! 8%nat) as [c8|]; [|discriminate].
  destruct (cols r !! 9%nat) as [c9|]; [|discriminate].
  simpl. intros [= <-]. exists c0, c1. simpl. auto.
Qed.

Lemma row_fight_total date r :
  Py.truthy (data_link r) = true -> (10 <= List.length (cols r))%nat ->
  is_Some (row_fight date r).
Proof.
  intros Hl Hn. unfold row_fight. rewrite Hl. simpl.
  destruct (Nat.ltb_spec (List.length (cols r)) 10); [lia|].
  destruct (lookup_lt_is_Some_2 (cols r) 0%nat) as [c0 ->]; [lia|].
  destruct (lookup_lt_is_Some_2 (cols r) 1%nat) as [c1 ->]; [lia|].
  destruct (lookup_lt_is_Some_2 (cols r) 6%nat) as [c6 ->]; [lia|].
  destruct (lookup_lt_is_Some_2 (cols r) 7%nat) as [c7 ->]; [lia|].
  destruct (lookup_lt_is_Some_2 (cols r) 8%nat) as [c8 ->]; [lia|].
  destruct (lookup_lt_is_Some_2 (cols r) 9%nat) as [c9 ->]; [lia|].
  simpl. eauto.
Qed.

Lemma scrape_rows_app date l1 l2 :
  scrape_rows date (l1 ++ l2) = (scrape_rows date l1 ++ scrape_rows date l2)%list.
Proof.
  induction l1 as [|r l1 IH]; simpl; [reflexivity|].
  destruct (row_fight date r); simpl; rewrite IH; reflexivity.
Qed.

Lemma scrape_rows_elem date rows f :
  f ∈ scrape_rows date rows -> exists r, r ∈ rows /\ row_fight date r = Some f.
Proof.
  induction rows as [|r rows IH]; simpl.
  - intros H. inversion H.
  - destruct (row_fight date r) as [f'|] eqn:E.
    + intros [->|H]%elem_of_cons.
      * exists r. split; [left|assumption].
      * destruct (IH H) as (r' & ? & ?). exists r'. split; [by right|assumption].
    + intros H. destruct (IH H) as (r' & ? & ?). exists r'. split; [by right|assumption].
Qed.

Lemma resolve_winner_cases st n1 n2 :
  let w := resolve_winner st n1 n2 in
  w = n1 \/ w = n2 \/ w = "Draw" \/ w = "No Contest" \/ w = "N/A".
Proof.
  unfold resolve_winner. destruct st as [cls|]; [|tauto].
  repeat case_bool_decide; tauto.
Qed.

End ScraperFacts.

Module OrganizerFacts.
Import Organizer.

Lemma consistent_empty : consistent (State ∅ ∅).
Proof.
  intros wc. unfold listed, seen. simpl. rewrite !lookup_empty. simpl.
  split; [constructor|]. intros n u. split; intros H.
  - by apply not_elem_of_empty in H.
  - by apply not_elem_of_nil in H.
Qed.

Lemma listed_add_fighter wc st p wc' :
  consistent st ->
  listed (add_fighter wc st p) wc' =
  match accepted p with
  | Some (n, u) =>
      if decide (wc' = wc /\ Entry n u ∉ listed st wc)
      then (listed st wc ++ [Entry n u])%list else listed st wc'
  | None => listed st wc'
  end.
Proof.
  intros Hc. unfold add_fighter.
  destruct (accepted p) as [[n u]|]; [|reflexivity].
  fold (seen st wc). fold (listed st wc).
  destruct (Hc wc) as [_ Hs].
  case_bool_decide as Hin.
  - unfold listed at 1. simpl. fold (listed st wc').
    apply Hs in Hin. case_decide as Hd; [|reflexivity]. tauto.
  - unfold listed at 1. simpl.
    rewrite Hs in Hin.
    case_decide as Hd.
    + destruct Hd as [-> _]. by rewrite lookup_insert_eq.
    + destruct (decide (wc' = wc)) as [->|Hne]; [tauto|].
      by rewrite lookup_insert_ne.
Qed.

Lemma seen_add_fighter wc st p wc' :
  seen (add_fighter wc st p) wc' =
  match accepted p with
  | Some t => if decide (wc' = wc) then seen st wc ∪ {[t]} else seen st wc'
  | None => seen st wc'
  end.
Proof.
  unfold add_fighter.
  destruct (accepted p) as [t|]; [|reflexivity].
  fold (seen st wc).
  case_bool_decide as Hin; unfold seen at 1; simpl.
  - case_decide as Hd.
    + subst. rewrite lookup_insert_eq. simpl. symmetry.
      rewrite (union_comm_L (seen st wc)).
      apply subseteq_union_1_L, singleton_subseteq_l, Hin.
    + by rewrite lookup_insert_ne.
  - case_decide as Hd.
    + subst. by rewrite lookup_insert_eq.
    + by rewrite lookup_insert_ne.
Qed.

Lemma consistent_add_fighter wc st p :
  consistent st -> consistent (add_fighter wc st p).
Proof.
  intros Hc wc'. rewrite listed_add_fighter by assumption.
  rewrite seen_add_fighter.
  destruct (accepted p) as [[n u]|]; [|apply Hc].
  destruct (Hc wc') as [Hnd Hs]. destruct (Hc wc) as [Hnd0 Hs0].
  case_decide as Hd.
  - destruct Hd as [-> Hnot]. rewrite decide_True by reflexivity. split.
    + apply NoDup_app. split; [assumption|]. split; [|apply NoDup_singleton].
      intros x Hx Hx'. apply list_elem_of_singleton in Hx'. by subst.
    + intros n' u'. rewrite elem_of_union, elem_of_app, Hs0.
      rewrite elem_of_singleton, list_elem_of_singleton.
      split; (intros [?|E]; [by left|right]); congruence.
  - split; [assumption|]. intros n' u'.
    case_decide as Hw; [|apply Hs]. subst wc'.
    rewrite elem_of_union, elem_of_singleton, Hs.
    split; [|by left]. intros [?|[= -> ->]]; [assumption|].
    destruct (decide (Entry n u ∈ listed st wc)); [assumption|]. tauto.
Qed.

Lemma elem_of_listed_add_fighter wc st p wc' n u :
  consistent st ->
  Entry n u ∈ listed (add_fighter wc st p) wc' <->
  Entry n u ∈ listed st wc' \/ (wc' = wc /\ accepted p = Some (n, u)).
Proof.
  intros Hc. rewrite listed_add_fighter by assumption.
  destruct (accepted p) as [[n0 u0]|].
  - case_decide as Hd.
    + destruct Hd as [-> Hnot]. rewrite elem_of_app, list_elem_of_singleton.
      split; (intros [?|E]; [by left|right]).
      * by inversion E.
      * destruct E as [_ [= -> ->]]. reflexivity.
    + split; [by left|]. intros [?|[-> [= -> ->]]]; [assumption|].
      destruct (decide (Entry n u ∈ listed st wc)); [assumption|]. tauto.
  - split; [by left|]. intros [?|[_ ?]]; [assumption|discriminate].
Qed.

Lemma add_fighters_spec wc ps : forall st,
  consistent st ->
  consistent (foldl (add_fighter wc) st ps) /\
  forall wc' n u,
    Entry n u ∈ listed (foldl (add_fighter wc) st ps) wc' <->
    Entry n u ∈ listed st wc' \/
    (wc' = wc /\ exists p, p ∈ ps /\ accepted p = Some (n, u)).
Proof.
  induction ps as [|p ps IH]; intros st Hc; simpl.
  - split; [assumption|]. intros. split; [by left|].
    intros [?|(_ & p & Hp & _)]; [assumption|]. by apply not_elem_of_nil in Hp.
  - destruct (IH (add_fighter wc st p)) as [Hc' Hm];
      [by apply consistent_add_fighter|].
    split; [assumption|]. intros wc' n u. rewrite Hm.
    rewrite elem_of_listed_add_fighter by assumption.
    split.
    + intros [[?|[-> Ha]]|(-> & q & Hq & Ha)].
      * by left.
      * right. split; [reflexivity|]. exists p. split; [left|assumption].
      * right. split; [reflexivity|]. exists q. split; [by right|assumption].
    + intros [?|(-> & q & Hq & Ha)].
      * left. by left.
      * apply elem_of_cons in Hq as [->|Hq].
        -- left. right. by split.
        -- right. split; [reflexivity|]. by exists q.
Qed.

Lemma collect_spec fs : forall st,
  consistent st ->
  consistent (foldl add_fight st fs) /\
  forall wc n u,
    Entry n u ∈ listed (foldl add_fight st fs) wc <->
    Entry n u ∈ listed st wc \/ participates fs wc n u.
Proof.
  induction fs as [|f fs IH]; intros st Hc; simpl.
  - split; [assumption|]. intros. split; [by left|].
    intros [?|(f & p & Hf & _)]; [assumption|]. by apply not_elem_of_nil in Hf.
  - destruct (add_fighters_spec (fight_wc f) (fighters_in_fight f) st Hc)
      as [Hc1 Hm1].
    destruct (IH (add_fight st f) Hc1) as [Hc2 Hm2].
    split; [assumption|]. intros wc n u. rewrite Hm2.
    unfold add_fight at 1. rewrite Hm1. unfold participates. split.
    + intros [[?|(-> & p & Hp & Ha)]|(g & p & Hg & Hw & Hp & Ha)].
      * by left.
      * right. exists f, p. split; [left|]. auto.
      * right. exists g, p. split; [by right|]. auto.
    + intros [?|(g & p & Hg & Hw & Hp & Ha)].
      * left. by left.
      * apply elem_of_cons in Hg as [->|Hg].
        -- left. right. split; [by symmetry|]. by exists p.
        -- right. exists g, p. auto.
Qed.

Lemma insert_by_name_perm e l : insert_by_name e l ≡ₚ e :: l.
Proof.
  induction l as [|x l IH]; simpl; [reflexivity|].
  destruct (String.leb (name e) (name x)); [reflexivity|].
  rewrite IH. apply Permutation_swap.
Qed.

Lemma sorted_by_name_perm l : sorted_by_name l ≡ₚ l.
Proof.
  induction l as [|x l IH]; simpl; [reflexivity|].
  rewrite insert_by_name_perm. by constructor.
Qed.

Lemma insert_by_name_hd x e l :
  name_le x e -> HdRel name_le x l -> HdRel name_le x (insert_by_name e l).
Proof.
  intros Hxe Hl. destruct l as [|y l]; simpl; [by constructor|].
  destruct (String.leb (name e) (name y)); constructor; [assumption|].
  by inversion Hl.
Qed.

Lemma insert_by_name_sorted e l :
  Sorted name_le l -> Sorted name_le (insert_by_name e l).
Proof.
  induction 1 as [|x l Hs IH Hhd]; simpl; [repeat constructor|].
  destruct (String.leb (name e) (name x)) eqn:E.
  - constructor; [by constructor|]. by constructor.
  - constructor; [assumption|]. apply insert_by_name_hd; [|assumption].
    unfold name_le. destruct (String.leb_total (name x) (name e)); congruence.
Qed.

Lemma sorted_by_name_sorted l : Sorted name_le (sorted_by_name l).
Proof.
  induction l; simpl; [constructor|]. by apply insert_by_name_sorted.
Qed.

Lemma accepted_Some p n u :
  accepted p = Some (n, u) ->
  p = (Some n, Some u) /\ n <> "" /\ n <> "N/A" /\ u <> "".
Proof.
  destruct p as [[n0|] [u0|]]; simpl; try discriminate.
  destruct (Py.truthy n0) eqn:En; [|discriminate].
  destruct (String.eqb_spec n0 "N/A"); [discriminate|].
  destruct (Py.truthy u0) eqn:Eu; [|discriminate].
  simpl. intros [= -> ->]. repeat split; try assumption.
  - intros ->. discriminate.
  - intros ->. discriminate.
Qed.

Lemma index_lookup fs wc l :
  update_fighter_index fs !! wc = Some l ->
  NoDup l /\ Sorted name_le l /\
  forall n u, Entry n u ∈ l <-> participates fs wc n u.
Proof.
  unfold update_fighter_index. rewrite lookup_fmap.
  destruct (fighter_index (collect fs) !! wc) as [l0|] eqn:E; [|discriminate].
  simpl. intros [= <-].
  destruct (collect_spec fs (State ∅ ∅) consistent_empty) as [Hc Hm].
  fold (collect fs) in Hc, Hm.
  assert (Hl : listed (collect fs) wc = l0) by (unfold listed; by rewrite E).
  split; [|split].
  - rewrite sorted_by_name_perm. destruct (Hc wc) as [Hnd _]. by rewrite Hl in Hnd.
  - apply sorted_by_name_sorted.
  - intros n u. rewrite sorted_by_name_perm, <- Hl, Hm.
    split; [|by right]. intros [H|?]; [|assumption].
    unfold listed in H. simpl in H. rewrite lookup_empty in H.
    by apply not_elem_of_nil in H.
Qed.

Lemma index_complete fs wc n u :
  participates fs wc n u ->
  exists l, update_fighter_index fs !! wc = Some l /\ Entry n u ∈ l.
Proof.
  intros Hp.
  destruct (collect_spec fs (State ∅ ∅) consistent_empty) as [Hc Hm].
  fold (collect fs) in Hc, Hm.
  assert (H : Entry n u ∈ listed (collect fs) wc) by (apply Hm; by right).
  unfold update_fighter_index. rewrite lookup_fmap.
  unfold listed in H.
  destruct (fighter_index (collect fs) !! wc) as [l0|] eqn:E; simpl in *.
  - eexists. split; [reflexivity|]. by rewrite sorted_by_name_perm.
  - by apply not_elem_of_nil in H.
Qed.

End OrganizerFacts.

Module ShrinkFacts.
Import Py PyFacts CleanTextFacts Re ReFacts NormalizeFacts.

Lemma join_length ws :
  ws <> [] -> S (String.length (join " " ws)) = weight ws.
Proof.
  induction ws as [|w ws IH]; [done|]. intros _.
  destruct ws as [|w' ws]; [simpl; lia|].
  change (join " " (w :: w' :: ws)) with (w ++ " " ++ join " " (w' :: ws)).
  rewrite !str_length_app. specialize (IH ltac:(done)).
  change (weight (w :: w' :: ws)) with (S (String.length w + weight (w' :: ws))).
  change (String.length " ") with 1%nat. lia.
Qed.

Lemma split_ws_weight s :
  (String.length (split_ws s).1 + weight (split_ws s).2
   <= String.length s)%nat.
Proof.
  induction s as [|c s IH]; simpl; [lia|].
  destruct (split_ws s) as [w ws]. simpl in IH.
  destruct (is_space c); simpl; [|lia].
  destruct w; simpl in *; lia.
Qed.

Lemma clean_text_length s :
  (String.length (clean_text (Some s)) <= String.length s)%nat.
Proof.
  rewrite clean_text_join. unfold split.
  pose proof (split_ws_weight s) as H.
  destruct (split_ws s) as [w ws]. simpl in H.
  destruct w as [|c w]; simpl truthy; cbv iota.
  - destruct ws as [|w' ws]; [simpl; lia|].
    pose proof (join_length (w' :: ws) ltac:(done)) as J. simpl in H.
    change (weight (w' :: ws)) with (S (String.length w' + weight ws)) in J.
    lia.
  - pose proof (join_length (String c w :: ws) ltac:(done)) as J.
    change (weight (String c w :: ws))
      with (S (String.length (String c w) + weight ws)) in J.
    lia.
Qed.

Lemma sub_go_length ic r : forall s n b,
  (String.length (sub_go ic r "" n b s) <= String.length s)%nat.
Proof.
  induction s as [|c s IH]; intros n b.
  - simpl. destruct n; [|simpl; lia].
    destruct (match_here ic r b ""); simpl; lia.
  - destruct n as [|n].
    + rewrite sub_go_cons.
      destruct (match_here ic r b (String c s)) as [st|].
      * destruct (String.length (String c s) - String.length (rest st))%nat;
          simpl; [specialize (IH 0%nat false)|specialize (IH n false)]; lia.
      * simpl. specialize (IH 0%nat false). lia.
    + simpl. specialize (IH n false). lia.
Qed.

Lemma is_suffix_nil t : is_suffix t "" -> t = "".
Proof. intros [pre E]. destruct pre; simpl in E; [congruence|discriminate]. Qed.

Lemma is_suffix_shorter t s :
  is_suffix t s -> t <> s -> (String.length t < String.length s)%nat.
Proof.
  intros [pre ->] Hne. rewrite str_length_app.
  destruct pre; [done|]. simpl. lia.
Qed.

(** Up to the leftmost match the text is copied; after a match that is not
    empty the scan resumes behind it. *)
Lemma sub_go_search ic r : forall s b pre st,
  search_from ic r b s = Some (pre, st) ->
  (forall s1, s = pre ++ s1 -> rest st <> s1) ->
  sub_go ic r "" 0 b s = pre ++ sub_go ic r "" 0 false (rest st).
Proof.
  induction s as [|c s IH]; intros b pre st.
  - simpl. destruct (match_here ic r b "") eqn:E; [|discriminate].
    intros [= <- <-] Hne. exfalso. apply (Hne ""); [reflexivity|].
    apply is_suffix_nil. by eapply match_here_suffix.
  - cbn [search_from].
    destruct (match_here ic r b (String c s)) as [st'|] eqn:E.
    + intros [= <- <-] Hne.
      apply (sub_go_match ic r "" b (String c s) st' E).
      by apply Hne.
    + destruct (search_from ic r false s) as [[p st']|] eqn:E';
        [|discriminate].
      intros [= <- <-] Hne. rewrite sub_go_cons, E.
      rewrite (IH false p st' E'); [reflexivity|].
      intros s1 ->. by apply Hne.
Qed.

Lemma sub_go_shrinks ic r b s pre st :
  search_from ic r b s = Some (pre, st) ->
  (forall b' s1, match_here ic r b' s1 = Some st -> rest st <> s1) ->
  (String.length (sub_go ic r "" 0 b s) < String.length s)%nat.
Proof.
  intros E Hne.
  destruct (search_from_sound _ _ _ _ _ _ E) as (s1 & -> & H1).
  rewrite (sub_go_search _ _ _ _ _ _ E).
  - rewrite !str_length_app.
    pose proof (sub_go_length ic r (rest st) 0 false).
    pose proof (is_suffix_shorter _ _ (match_here_suffix _ _ _ _ _ H1)
                  (Hne _ _ H1)).
    lia.
  - intros s2 E2. apply String.app_inj in E2. subst s2. by eapply Hne.
Qed.

Lemma suffix_match_nonempty b s st :
  match_here true bout_suffix_re b s = Some st -> rest st <> s.
Proof.
  unfold match_here, bout_suffix_re. rewrite rmatch_Cat. simpl rest.
  destruct s as [|c s']; [discriminate|].
  change (rmatch true (Plus CSpace) ?k (MS b (String c s') None))
    with (if is_space c then star CSpace false None k s' else None).
  destruct (is_space c); [|discriminate]. intros H.
  apply star_cont in H as (st1 & H & S1 & _).
  apply rmatch_cont in H as (st2 & [= ->] & S2).
  pose proof (is_suffix_length _ _ (is_suffix_trans _ _ _ S2 S1)) as L.
  intros E. apply (f_equal String.length) in E. simpl in E. lia.
Qed.

Lemma prefix_match_nonempty b s st :
  match_here true ufc_prefix_re b s = Some st -> rest st <> s.
Proof.
  destruct b; [apply prefix_match_shape|].
  by rewrite prefix_no_match_later.
Qed.

(** When one of the two patterns still matches, normalising changes the
    text. *)
Lemma normalize_changes t :
  Re.search true bout_suffix_re t <> None \/
  Re.search true ufc_prefix_re t <> None ->
  normalize_weight_class (Some t) <> t.
Proof.
  intros Hm E.
  assert (Ht : clean_text (Some t) = t).
  { rewrite <- E. apply normalize_clean. }
  revert E. unfold normalize_weight_class. rewrite Ht.
  set (wc2 := Re.sub true bout_suffix_re "" t).
  set (wc3 := Re.sub true ufc_prefix_re "" wc2).
  assert (L : (String.length wc3 < String.length t)%nat).
  { pose proof (sub_go_length true bout_suffix_re t 0 true) as L2.
    pose proof (sub_go_length true ufc_prefix_re wc2 0 true) as L3.
    fold (Re.sub true bout_suffix_re "" t) in L2. fold wc2 in L2.
    fold (Re.sub true ufc_prefix_re "" wc2) in L3. fold wc3 in L3.
    destruct (Re.search true bout_suffix_re t) as [[pre st]|] eqn:E1.
    - pose proof (sub_go_shrinks _ _ _ _ _ _ E1) as S.
      fold (Re.sub true bout_suffix_re "" t) in S. fold wc2 in S.
      specialize (S (fun b' s1 => suffix_match_nonempty b' s1 st)). lia.
    - destruct Hm as [Hm|Hm]; [done|].
      assert (wc2 = t) as E2 by by apply sub_go_no_match.
      destruct (Re.search true ufc_prefix_re t) as [[pre st]|] eqn:E3;
        [|done].
      pose proof (sub_go_shrinks _ _ _ _ _ _ E3) as S.
      fold (Re.sub true ufc_prefix_re "" t) in S.
      specialize (S (fun b' s1 => prefix_match_nonempty b' s1 st)).
      subst wc3. rewrite E2 in *. lia. }
  destruct (truthy wc3) eqn:T.
  - intros E. pose proof (clean_text_length wc3) as C. rewrite E in C. lia.
  - intros <-. destruct Hm as [Hm|Hm]; apply Hm; reflexivity.
Qed.

End ShrinkFacts.

(** ** The text normalisers *)

Module PrefixFacts.
Import Py PyFacts CleanTextFacts Re ReFacts NormalizeFacts.

(** Cleaning keeps a leading run of visible characters. *)
Lemma clean_text_visible_prefix p s :
  no_space p -> p <> "" ->
  exists s', clean_text (Some (p ++ s)) = p ++ s'.
Proof.
  intros Hp Hne. rewrite clean_text_join. unfold split.
  rewrite split_ws_app by assumption.
  destruct (split_ws s) as [w ws]. simpl fst. simpl snd.
  assert (truthy (p ++ w) = true) as -> by (destruct p; [done|reflexivity]).
  destruct ws as [|w' ws].
  - by exists w.
  - exists (w ++ " " ++ join " " (w' :: ws)).
    change (join " " ((p ++ w) :: w' :: ws))
      with ((p ++ w) ++ " " ++ join " " (w' :: ws)).
    by rewrite str_app_assoc.
Qed.

Lemma sub_suffix_visible_prefix p : forall b s,
  no_space p ->
  exists s', sub_go true bout_suffix_re "" 0 b (p ++ s) = p ++ s'.
Proof.
  induction p as [|c p IH]; intros b s Hp.
  - by eexists.
  - apply no_space_cons in Hp as [Hc Hp].
    change (String c p ++ s) with (String c (p ++ s)).
    rewrite sub_suffix_cons by assumption.
    destruct (IH false s Hp) as [s' ->]. by exists s'.
Qed.

Lemma womens_no_space : no_space "Women's".
Proof. intros c H. simpl in H. intuition subst; reflexivity. Qed.

(** The qualifier [Women's] at the start of the text stays at the start of
    the result. *)
Lemma normalize_keeps_womens s :
  exists r, normalize_weight_class (Some ("Women's" ++ s)) = "Women's" ++ r.
Proof.
  unfold normalize_weight_class.
  destruct (clean_text_visible_prefix "Women's" s womens_no_space) as [s1 ->];
    [done|].
  unfold Re.sub.
  destruct (sub_suffix_visible_prefix "Women's" true s1 womens_no_space)
    as [s2 ->].
  change ("Women's" ++ s2) with (String "W" ("omen's" ++ s2)).
  rewrite sub_go_cons.
  change (match_here true ufc_prefix_re true (String "W" ("omen's" ++ s2)))
    with (@None mstate).
  rewrite sub_prefix_later. simpl truthy. cbv iota.
  change (String "W" ("omen's" ++ s2)) with ("Women's" ++ s2).
  apply clean_text_visible_prefix; [apply womens_no_space|done].
Qed.

(** Text without a visible character normalises to the fallback. *)
Lemma normalize_blank s :
  clean_text (Some s) = "" -> normalize_weight_class (Some s) = "Unknown".
Proof. unfold normalize_weight_class. intros ->. reflexivity. Qed.

Lemma strip_prefix_app p s : strip_prefix p (p ++ s) = Some s.
Proof.
  induction p as [|c p IH]; simpl; [reflexivity|].
  by rewrite Ascii.eqb_refl.
Qed.

Lemma contains_app p pre s : contains p (pre ++ p ++ s) = true.
Proof.
  induction pre as [|c pre IH].
  - change ("" ++ p ++ s) with (p ++ s).
    destruct (p ++ s) eqn:E; simpl; unfold startswith;
      rewrite <- E, strip_prefix_app; reflexivity.
  - change (String c pre ++ p ++ s) with (String c (pre ++ p ++ s)).
    simpl. rewrite IH. apply orb_true_r.
Qed.

Lemma forallb_elem {A} (f : A -> bool) l x :
  forallb f l = true -> x ∈ l -> f x = true.
Proof.
  intros H Hx. apply list_elem_of_In in Hx.
  rewrite forallb_forall in H. auto.
Qed.

Lemma forallb3_elem {A B C} (f : A -> B -> C -> bool) la lb lc a b c :
  forallb (fun a => forallb (fun b => forallb (f a b) lc) lb) la = true ->
  a ∈ la -> b ∈ lb -> c ∈ lc -> f a b c = true.
Proof.
  intros H Ha Hb Hc.
  apply (forallb_elem _ _ a) in H; [|assumption].
  apply (forallb_elem _ _ b) in H; [|assumption].
  by apply (forallb_elem _ _ c) in H.
Qed.

Lemma divisions_checked :
  forallb (fun d => forallb (fun label => forallb (strips_to d label)
                                            ufc_prefixes) bout_labels)
          divisions = true.
Proof. vm_compute. reflexivity. Qed.

Lemma heights_checked :
  forallb (fun f => forallb (height_ok f) (seq 0 100)) (seq 0 100) = true.
Proof. vm_compute. reflexivity. Qed.

End PrefixFacts.

Section Normalisers.
Import Py PyFacts CleanTextFacts Re ReFacts NormalizeFacts FighterIdFacts.
Import PrefixFacts ShrinkFacts.

(** C2, as the code has it: normalising a second time changes nothing exactly
    when the first result no longer ends in a bout label and no longer
    starts with the UFC prefix; one call removes one of each at most. *)
Theorem normalize_idempotent_iff_stripped wc :
  normalize_weight_class (Some (normalize_weight_class wc))
  = normalize_weight_class wc
  <->
  Re.search true bout_suffix_re (normalize_weight_class wc) = None /\
  Re.search true ufc_prefix_re (normalize_weight_class wc) = None.
Proof.
  split.
  - intros E.
    destruct (Re.search true bout_suffix_re (normalize_weight_class wc))
      eqn:E1;
      [exfalso; apply (normalize_changes (normalize_weight_class wc));
       [left; congruence|exact E]|].
    destruct (Re.search true ufc_prefix_re (normalize_weight_class wc))
      eqn:E2;
      [exfalso; apply (normalize_changes (normalize_weight_class wc));
       [right; congruence|exact E]|].
    by split.
  - intros [H1 H2].
    apply normalize_fixed; auto using normalize_clean, normalize_nonempty.
Qed.

Lemma normalize_idempotent_iff_stripped_witness :
  normalize_weight_class
    (Some (normalize_weight_class (Some "UFC Lightweight Title Bout")))
  = normalize_weight_class (Some "UFC Lightweight Title Bout").
Proof.
  apply normalize_idempotent_iff_stripped; split; vm_compute; reflexivity.
Defined.

(** C2 as stated fails: one call removes one bout label only. *)
Lemma normalize_twice_differs :
  normalize_weight_class
    (Some (normalize_weight_class (Some "Lightweight Bout Bout")))
  <> normalize_weight_class (Some "Lightweight Bout Bout").
Proof. vm_compute. discriminate. Qed.

(** C5: ["5' 11"] with its closing double quote is 180 cm, a text holding
    ["--"] gives [None], and feet and inches written in decimal give an
    integer nearest to the inches times 2.54. *)
Theorem parse_height_rounds_inches :
  parse_height_to_cm (Some ("5' 11" ++ String dquote ""))
  = Returns (Some 180%Z) /\
  parse_height_to_cm (Some "--") = Returns None /\
  (forall s, contains "--" s = true ->
             parse_height_to_cm (Some s) = Returns None) /\
  (forall feet inches, (feet < 100)%nat -> (inches < 100)%nat ->
     exists cm,
       parse_height_to_cm (Some (height_text feet inches))
       = Returns (Some cm) /\
       nearest_cm cm (12 * Z.of_nat feet + Z.of_nat inches)).
Proof.
  split; [vm_compute; reflexivity|]. split; [vm_compute; reflexivity|].
  split.
  - intros s Hs. unfold parse_height_to_cm. rewrite Hs.
    by rewrite orb_true_r.
  - intros feet inches Hf Hi.
    pose proof heights_checked as H.
    apply (forallb_elem _ _ feet) in H; [|apply list_elem_of_In, in_seq; lia].
    apply (forallb_elem _ _ inches) in H; [|apply list_elem_of_In, in_seq; lia].
    unfold height_ok in H.
    destruct (parse_height_to_cm (Some (height_text feet inches)))
      as [[cm|]|]; try discriminate.
    exists cm. split; [reflexivity|]. unfold nearest_cm. lia.
Qed.

Lemma parse_height_rounds_inches_witness :
  exists cm,
    parse_height_to_cm (Some (height_text 5 11)) = Returns (Some cm) /\
    nearest_cm cm 71.
Proof.
  destruct parse_height_rounds_inches as (_ & _ & _ & H).
  apply (H 5%nat 11%nat); lia.
Defined.

(** C6: the two examples; a bout label after a division name is dropped
    whatever its case, with or without the UFC prefix; a leading [Women's]
    stays; the result is never empty, the fallback being "Unknown". *)
Theorem normalize_strips_labels_and_prefix :
  normalize_weight_class (Some "Women's Strawweight Bout")
  = "Women's Strawweight" /\
  normalize_weight_class (Some "UFC Lightweight Title Bout")
  = "Lightweight" /\
  (forall d label pre,
     d ∈ divisions -> label ∈ bout_labels -> pre ∈ ufc_prefixes ->
     normalize_weight_class (Some (pre ++ d ++ " " ++ label)) = d) /\
  (forall s, exists r,
     normalize_weight_class (Some ("Women's" ++ s)) = "Women's" ++ r) /\
  (forall wc, normalize_weight_class wc <> "") /\
  (forall s, clean_text (Some s) = "" ->
             normalize_weight_class (Some s) = "Unknown") /\
  normalize_weight_class None = "Unknown".
Proof.
  split; [vm_compute; reflexivity|]. split; [vm_compute; reflexivity|].
  split; [|split; [|split; [|split]]].
  - intros d label pre Hd Hl Hp. apply String.eqb_eq.
    exact (forallb3_elem strips_to _ _ _ d label pre divisions_checked
             Hd Hl Hp).
  - apply normalize_keeps_womens.
  - apply normalize_nonempty.
  - apply normalize_blank.
  - reflexivity.
Qed.

Lemma normalize_strips_labels_and_prefix_witness :
  normalize_weight_class (Some ("ufc " ++ "Light Heavyweight" ++ " " ++ "TITLE BOUT"))
  = "Light Heavyweight".
Proof.
  destruct normalize_strips_labels_and_prefix as (_ & _ & H & _).
  apply H; repeat constructor.
Defined.

(** C7: the identifier after [fighter-details/] is returned when it is a
    run of letters and digits ending the URL, and the result is [None] for
    every URL that does not end with a path segment after
    [fighter-details/]. *)
Theorem fighter_id_is_trailing_segment :
  parse_fighter_id_from_url (Some "http://site/fighter-details/abc123")
  = Some "abc123" /\
  (forall pre id,
     id <> "" -> all_in CAlnum id ->
     parse_fighter_id_from_url (Some (pre ++ "fighter-details/" ++ id))
     = Some id) /\
  (forall url,
     ~ has_fighter_segment url ->
     parse_fighter_id_from_url (Some url) = None) /\
  parse_fighter_id_from_url None = None.
Proof.
  split; [vm_compute; reflexivity|]. split; [|split; [|reflexivity]].
  - intros pre id. apply parse_fighter_id_complete.
  - intros url Hno.
    destruct (parse_fighter_id_from_url (Some url)) as [id|] eqn:E;
      [|reflexivity].
    exfalso. apply Hno. by apply parse_fighter_id_segment in E.
Qed.

Lemma fighter_id_is_trailing_segment_witness :
  parse_fighter_id_from_url (Some ("http://site/" ++ "fighter-details/" ++ "abc123"))
  = Some "abc123" /\
  parse_fighter_id_from_url (Some "http://site/fighters/abc123") = None.
Proof.
  destruct fighter_id_is_trailing_segment as (_ & Hid & Hnone & _). split.
  - apply Hid; [discriminate|].
    intros c H. simpl in H. intuition subst; reflexivity.
  - apply Hnone. intros (pre & seg & E & _).
    apply (f_equal (contains "fighter-details/")) in E.
    rewrite contains_app in E. vm_compute in E. discriminate.
Defined.

End Normalisers.

(** ** Winner resolution and row filtering *)

Section FightRows.
Import Scraper ScraperFacts.

(** C1: the winner of a scraped fight is read off the CSS classes of the
    status icon of fighter 1, in the order green, red, blue, yellow; without
    a matching class, or without the icon, it is "N/A". *)
Theorem winner_follows_status_classes date r f c0 :
  row_fight date r = Some f ->
  cols r !! 0%nat = Some c0 ->
  match status_icon c0 with
  | Some classes =>
      (style_green ∈ classes -> winner f = fighter1_name f) /\
      (style_green ∉ classes -> style_red ∈ classes ->
       winner f = fighter2_name f) /\
      (style_green ∉ classes -> style_red ∉ classes ->
       style_blue ∈ classes -> winner f = "Draw") /\
      (style_green ∉ classes -> style_red ∉ classes ->
       style_blue ∉ classes -> style_yellow ∈ classes ->
       winner f = "No Contest") /\
      (style_green ∉ classes -> style_red ∉ classes ->
       style_blue ∉ classes -> style_yellow ∉ classes ->
       winner f = "N/A")
  | None => winner f = "N/A"
  end.
Proof.
  intros Hf H0.
  destruct (row_fight_inv _ _ _ Hf) as (c0' & c1 & H0' & _ & _ & _ & Hw).
  assert (c0' = c0) as -> by congruence.
  rewrite Hw. unfold resolve_winner.
  destruct (status_icon c0) as [classes|]; [|reflexivity].
  repeat case_bool_decide; repeat split; intros; tauto.
Qed.

Lemma winner_follows_status_classes_witness :
  winner Samples.won_fight = fighter1_name Samples.won_fight.
Proof.
  pose proof (winner_follows_status_classes "May 01, 2021"
                (Samples.fight_row [style_green]) Samples.won_fight
                (Samples.status_cell [style_green]) eq_refl eq_refl) as H.
  simpl in H. destruct H as [H _]. apply H. constructor.
Defined.

(** C4: a row with fewer than ten columns yields no record: the output is
    the one obtained without the row. *)
Theorem short_row_is_skipped date before r after :
  (List.length (cols r) < 10)%nat ->
  row_fight date r = None /\
  scrape_event_fights (Some (before ++ r :: after)%list) date
  = scrape_event_fights (Some (before ++ after)%list) date.
Proof.
  intros H. pose proof (row_fight_short date r H) as E.
  split; [assumption|]. simpl.
  rewrite !scrape_rows_app. simpl. by rewrite E.
Qed.

Lemma short_row_is_skipped_witness :
  scrape_event_fights
    (Some [Samples.fight_row [style_green]; Samples.short_row]) "May 01, 2021"
  = scrape_event_fights (Some [Samples.fight_row [style_green]]) "May 01, 2021".
Proof.
  apply (short_row_is_skipped "May 01, 2021"
           [Samples.fight_row [style_green]] Samples.short_row []).
  simpl. lia.
Defined.

(** C8: the winner of every scraped fight is the name of fighter 1, the
    name of fighter 2, "Draw", "No Contest" or "N/A". *)
Theorem winner_is_name_or_sentinel soup date f :
  f ∈ scrape_event_fights soup date ->
  winner f = fighter1_name f \/ winner f = fighter2_name f \/
  winner f = "Draw" \/ winner f = "No Contest" \/ winner f = "N/A".
Proof.
  destruct soup as [rows|]; simpl.
  - intros (r & _ & Hf)%scrape_rows_elem.
    destruct (row_fight_inv _ _ _ Hf) as (c0 & c1 & _ & _ & _ & _ & ->).
    apply resolve_winner_cases.
  - intros H. by apply not_elem_of_nil in H.
Qed.

Lemma winner_is_name_or_sentinel_witness :
  winner Samples.won_fight = fighter1_name Samples.won_fight \/
  winner Samples.won_fight = fighter2_name Samples.won_fight \/
  winner Samples.won_fight = "Draw" \/
  winner Samples.won_fight = "No Contest" \/
  winner Samples.won_fight = "N/A".
Proof.
  apply (winner_is_name_or_sentinel
           (Some [Samples.fight_row [style_green]]) "May 01, 2021").
  vm_compute. constructor.
Defined.

End FightRows.

(** ** The prediction handler *)

Section PredictGuards.
Import App.
Variable feature : Type.
Variable unknown_class unknown_finish : Z -> string.
Variable round4 : feature -> feature.

(** C9: with both models and a non-empty feature-name list loaded, a
    feature vector of another length is answered by status 400; a response
    is produced only for a vector of exactly that length. *)
Theorem predict_rejects_length_mismatch
        (g : globals feature) (request_data : PredictionRequest feature)
        (winner finish : model feature) :
  model_fight_winner feature g = Some winner ->
  model_finish_prediction feature g = Some finish ->
  feature_names feature g <> [] ->
  (List.length (features feature request_data)
   <> List.length (feature_names feature g) ->
   predict feature unknown_class unknown_finish round4 g request_data
   = HTTPException feature 400) /\
  (forall r,
     predict feature unknown_class unknown_finish round4 g request_data
     = Ok feature r ->
     List.length (features feature request_data)
     = List.length (feature_names feature g)).
Proof.
  intros Hw Hf Hn. unfold predict. rewrite Hw, Hf.
  destruct (feature_names feature g) as [|n ns] eqn:E; [done|].
  destruct (Nat.eqb_spec (List.length (features feature request_data))
              (List.length (n :: ns))) as [Heq|Hne]; simpl negb; cbv iota.
  - split; [intros H; by destruct H|]. intros; exact Heq.
  - split; [reflexivity|]. intros r H. discriminate.
Qed.

End PredictGuards.

Lemma predict_rejects_length_mismatch_witness :
  App.predict Z (fun _ => "?") (fun _ => "?") (fun x => x)
              Samples.loaded Samples.short_request
  = App.HTTPException Z 400.
Proof.
  apply (predict_rejects_length_mismatch Z (fun _ => "?") (fun _ => "?")
           (fun x => x) Samples.loaded Samples.short_request
           Samples.constant_model Samples.constant_model);
    [reflexivity|reflexivity|discriminate|simpl; lia].
Defined.

(** ** The fighter index *)

Module IndexFacts.
Import Organizer OrganizerFacts.

Lemma name_le_trans a b c : name_le a b -> name_le b c -> name_le a c.
Proof.
  unfold name_le. intros H1%Is_true_true H2%Is_true_true.
  apply Is_true_true.
  exact (transitivity (R := String.le) H1 H2).
Qed.

Lemma sorted_by_name_strongly l : StronglySorted name_le (sorted_by_name l).
Proof.
  apply Sorted_StronglySorted; [|apply sorted_by_name_sorted].
  intros a b c. apply name_le_trans.
Qed.

Lemma accepted_None p :
  p.1 = None \/ p.1 = Some "N/A" \/ p.1 = Some "" \/
  p.2 = None \/ p.2 = Some "" ->
  accepted p = None.
Proof.
  destruct p as [[n|] [u|]]; simpl; try reflexivity.
  intros [|[[= ->]|[[= ->]|[|[= ->]]]]]; try discriminate; try reflexivity.
  by destruct (Py.truthy n && negb (n =? "N/A")).
Qed.

Lemma index_entry_origin fs wc l e :
  update_fighter_index fs !! wc = Some l -> e ∈ l ->
  name e <> "" /\ name e <> "N/A" /\ url e <> "" /\
  exists f, f ∈ fs /\ fight_wc f = wc /\
            (Some (name e), Some (url e)) ∈ fighters_in_fight f.
Proof.
  intros Hl He. destruct (index_lookup _ _ _ Hl) as (_ & _ & Hm).
  destruct e as [n u]. apply Hm in He as (f & p & Hf & Hw & Hp & Ha).
  apply accepted_Some in Ha as (-> & ? & ? & ?).
  simpl. repeat split; try assumption. by exists f.
Qed.

Lemma fight_wc_spec f wc :
  fight_wc f = wc <->
  (weight_class f = Some wc /\ wc <> "" /\ wc <> "N/A" \/
   wc = "Unknown" /\
   (weight_class f = None \/ weight_class f = Some "" \/
    weight_class f = Some "N/A")).
Proof.
  unfold fight_wc. destruct (weight_class f) as [w|].
  - destruct (String.eqb_spec w "N/A") as [->|Hne]; simpl.
    + split; [intros <-; right; auto|].
      intros [([= <-] & _ & H)|[-> _]]; [by destruct H|reflexivity].
    + destruct w as [|a w]; simpl.
      * split; [intros <-; right; auto|].
        intros [([= <-] & H & _)|[-> _]]; [by destruct H|reflexivity].
      * split; [intros <-; left; by repeat split|].
        intros [([= <-] & _)|[-> [|[|]]]]; [reflexivity|congruence..].
  - split; [intros <-; right; auto|].
    intros [([=] & _)|[-> _]]. reflexivity.
Qed.

Lemma accepted_spec p n u :
  accepted p = Some (n, u) <->
  p = (Some n, Some u) /\ n <> "" /\ n <> "N/A" /\ u <> "".
Proof.
  split; [apply accepted_Some|].
  intros (-> & Hn & Hna & Hu). unfold accepted.
  destruct (String.eqb_spec n "N/A") as [|_]; [done|].
  destruct n as [|a n]; [done|]. destruct u as [|b u]; [done|].
  reflexivity.
Qed.

Lemma participates_spec fs wc n u :
  participates fs wc n u <->
  exists f,
    f ∈ fs /\
    (weight_class f = Some wc /\ wc <> "" /\ wc <> "N/A" \/
     wc = "Unknown" /\
     (weight_class f = None \/ weight_class f = Some "" \/
      weight_class f = Some "N/A")) /\
    (fighter1_name f = Some n /\ fighter1_url f = Some u \/
     fighter2_name f = Some n /\ fighter2_url f = Some u) /\
    n <> "" /\ n <> "N/A" /\ u <> "".
Proof.
  unfold participates. split.
  - intros (f & p & Hf & Hw & Hp & Ha). exists f.
    apply fight_wc_spec in Hw. apply accepted_spec in Ha as (-> & Hrest).
    split; [assumption|]. split; [assumption|]. split; [|assumption].
    unfold fighters_in_fight in Hp.
    apply elem_of_cons in Hp as [[= <- <-]|Hp]; [by left|].
    apply list_elem_of_singleton in Hp as [= <- <-]. by right.
  - intros (f & Hf & Hw & Hc & Hrest). apply fight_wc_spec in Hw.
    exists f, (Some n, Some u). split; [assumption|]. split; [assumption|].
    split; [|by apply accepted_spec].
    unfold fighters_in_fight.
    destruct Hc as [[<- <-]|[<- <-]]; [left|right; left].
Qed.

Lemma filled_add_fighter wc st p : IndexQueries.filled st -> IndexQueries.filled (add_fighter wc st p).
Proof.
  intros Hf. unfold add_fighter.
  destruct (accepted p) as [t|]; [|assumption].
  case_bool_decide; [exact Hf|].
  intros wc' l. simpl.
  destruct (decide (wc = wc')) as [->|Hne].
  - rewrite lookup_insert_eq. intros [= <-].
    by destruct (default [] (fighter_index st !! wc')).
  - rewrite lookup_insert_ne by assumption. apply Hf.
Qed.

Lemma filled_collect fs : IndexQueries.filled (collect fs).
Proof.
  unfold collect.
  assert (H : IndexQueries.filled (State ∅ ∅)).
  { intros wc l. simpl. by rewrite lookup_empty. }
  revert H. generalize (State ∅ ∅).
  induction fs as [|f fs IH]; intros st Hst; simpl; [assumption|].
  apply IH. unfold add_fight.
  generalize (fighters_in_fight f). intros ps. revert st Hst.
  induction ps as [|p ps IHp]; intros st Hst; simpl; [assumption|].
  apply IHp. by apply filled_add_fighter.
Qed.

Lemma index_list_nonempty fs wc l :
  update_fighter_index fs !! wc = Some l -> l <> [].
Proof.
  unfold update_fighter_index. rewrite lookup_fmap.
  destruct (fighter_index (collect fs) !! wc) as [l0|] eqn:E; [|discriminate].
  simpl. intros [= <-] Hnil.
  apply (filled_collect fs wc l0 E). apply Permutation_nil_r. rewrite <- Hnil.
  symmetry. apply sorted_by_name_perm.
Qed.

End IndexFacts.

Section FighterIndex.
Import Organizer OrganizerFacts IndexFacts.

(** C3: the built index groups the fighters by the weight class of their
    fights.  Every list of the index is non-empty, free of duplicate
    (name, URL) pairs and sorted by name; a pair is in the list of a class
    exactly when some fight of the collection has that class in its
    [weight_class] field (a missing, empty or "N/A" field counts as
    "Unknown") and has the pair in one of its two corners, with a name that
    is neither empty nor "N/A" and a URL that is not empty.  For two
    Lightweight fights that share one fighter the index is the one list of
    the three distinct fighters, in the order of their names. *)
Theorem index_lists_are_distinct_and_sorted fs :
  (forall wc l,
     update_fighter_index fs !! wc = Some l ->
     l <> [] /\ NoDup l /\ StronglySorted name_le l) /\
  (forall wc n u,
     (exists l, update_fighter_index fs !! wc = Some l /\ Entry n u ∈ l) <->
     (exists f,
        f ∈ fs /\
        (weight_class f = Some wc /\ wc <> "" /\ wc <> "N/A" \/
         wc = "Unknown" /\
         (weight_class f = None \/ weight_class f = Some "" \/
          weight_class f = Some "N/A")) /\
        (fighter1_name f = Some n /\ fighter1_url f = Some u \/
         fighter2_name f = Some n /\ fighter2_url f = Some u) /\
        n <> "" /\ n <> "N/A" /\ u <> "")) /\
  update_fighter_index Samples.shared_fights
  = {[ "Lightweight" := Samples.lightweights ]}.
Proof.
  split; [|split].
  - intros wc l Hl. destruct (index_lookup _ _ _ Hl) as (Hnd & _ & _).
    split; [by eapply index_list_nonempty|]. split; [assumption|].
    revert Hl. unfold update_fighter_index. rewrite lookup_fmap.
    destruct (fighter_index (collect fs) !! wc); simpl; [|discriminate].
    intros [= <-]. apply sorted_by_name_strongly.
  - intros wc n u. rewrite <- participates_spec. split.
    + intros (l & Hl & He).
      destruct (index_lookup _ _ _ Hl) as (_ & _ & Hm). by apply Hm.
    + apply index_complete.
  - vm_compute. reflexivity.
Qed.

Lemma index_lists_are_distinct_and_sorted_witness :
  exists l,
    update_fighter_index Samples.shared_fights !! "Lightweight" = Some l /\
    Entry "Cyd Cole" "http://ufcstats.com/fighter-details/c3" ∈ l /\
    NoDup l /\ StronglySorted name_le l.
Proof.
  destruct (index_lists_are_distinct_and_sorted Samples.shared_fights)
    as (Hlist & Hin & _).
  destruct (proj2 (Hin "Lightweight" "Cyd Cole"
                       "http://ufcstats.com/fighter-details/c3"))
    as (l & Hl & He).
  - exists (Samples.bout "Lightweight" Samples.ann Samples.cyd).
    split; [right; left|].
    split; [left; repeat split; discriminate|].
    split; [right; split; reflexivity|].
    repeat split; discriminate.
  - exists l. destruct (Hlist _ _ Hl) as (_ & Hnd & Hs). by repeat split.
Defined.

(** C10: a participant whose name is missing or "N/A", or whose URL is
    null, is turned down by the guard and has no entry in any list of the
    index, while the accepted participants of the same fight are listed
    under the class of the fight. *)
Theorem index_leaves_out_unusable_participants fs f p :
  f ∈ fs -> p ∈ fighters_in_fight f ->
  p.1 = None \/ p.1 = Some "N/A" \/ p.2 = None ->
  accepted p = None /\
  (forall wc l e,
     update_fighter_index fs !! wc = Some l -> e ∈ l ->
     (Some (name e), Some (url e)) <> p /\
     name e <> "" /\ name e <> "N/A" /\ url e <> "") /\
  (forall q n u,
     q ∈ fighters_in_fight f -> accepted q = Some (n, u) ->
     exists l, update_fighter_index fs !! fight_wc f = Some l /\
               Entry n u ∈ l).
Proof.
  intros Hf Hp Hbad. split; [|split].
  - apply accepted_None. tauto.
  - intros wc l e Hl He.
    destruct (index_entry_origin _ _ _ _ Hl He) as (H1 & H2 & H3 & _).
    split; [|auto]. intros <-. simpl in Hbad.
    destruct Hbad as [|[[= E]|]]; congruence.
  - intros q n u Hq Ha. apply index_complete. by exists f, q.
Qed.

Lemma index_leaves_out_unusable_participants_witness :
  exists l, update_fighter_index Samples.partial_fights
              !! "Lightweight" = Some l /\
            Entry "Bea Brook" "http://ufcstats.com/fighter-details/b2" ∈ l.
Proof.
  destruct (index_leaves_out_unusable_participants Samples.partial_fights
              (Samples.bout "Lightweight" Samples.bea Samples.unnamed)
              Samples.unnamed) as (_ & _ & H).
  - constructor.
  - right. constructor.
  - right. left. reflexivity.
  - apply (H Samples.bea); [constructor|reflexivity].
Defined.

End FighterIndex.

Example index_of_shared_fights :
  Organizer.update_fighter_index Samples.shared_fights
  = {[ "Lightweight" := Samples.lightweights ]}.
Proof. vm_compute. reflexivity. Qed.

(** ** More on the text helpers *)

Module TidyFacts.
Import Py PyFacts CleanTextFacts Utils.

Lemma tidy_after_word w : forall b r,
  no_space w -> w <> "" -> tidy_after b (w ++ r) = tidy_after false r.
Proof.
  induction w as [|c w IH]; intros b r Hw Hne; [done|].
  apply no_space_cons in Hw as [Hc Hw].
  change (String c w ++ r) with (String c (w ++ r)). simpl. rewrite Hc.
  destruct w as [|d w]; [reflexivity|]. by apply IH.
Qed.

Lemma tidy_after_join ws :
  Forall word ws -> ws <> [] -> tidy_after true (join " " ws) = true.
Proof.
  induction 1 as [|w ws [Hne Hw] Hws IH]; [done|]. intros _.
  destruct ws as [|w' ws].
  - simpl. rewrite <- (str_app_nil_r w). by rewrite tidy_after_word.
  - change (join " " (w :: w' :: ws))
      with (w ++ String " " (join " " (w' :: ws))).
    rewrite tidy_after_word by assumption. simpl. by apply IH.
Qed.

Lemma tidy_join ws : Forall word ws -> tidy (join " " ws) = true.
Proof.
  intros H. destruct ws as [|w ws]; [reflexivity|].
  pose proof (tidy_after_join (w :: ws) H ltac:(done)) as T.
  unfold tidy. destruct (join " " (w :: ws)); [reflexivity|exact T].
Qed.

Lemma join_cons w ws : join " " (w :: ws) = w ++ tail_of ws.
Proof.
  destruct ws as [|w' ws]; simpl; [by rewrite str_app_nil_r|reflexivity].
Qed.

(** A tidy text is its words joined by single spaces. *)
Lemma tidy_after_split s : forall b,
  tidy_after b s = true ->
  s = (split_ws s).1 ++ tail_of (split_ws s).2 /\
  (b = true -> s <> "" /\ (split_ws s).1 <> "").
Proof.
  induction s as [|c s IH]; intros b; simpl.
  - destruct b; [discriminate|]. intros _. split; [reflexivity|done].
  - destruct (is_space c) eqn:Hc.
    + intros H. apply andb_prop in H as [H Hs].
      apply andb_prop in H as [Heq Hb].
      apply Ascii.eqb_eq in Heq. subst c.
      destruct b; [discriminate|].
      destruct (IH true Hs) as [E [Hne Hw]]; [reflexivity|].
      destruct (split_ws s) as [w ws]. simpl in *.
      split; [|done].
      destruct w as [|d w]; [done|]. simpl truthy. cbv iota.
      change (tail_of (String d w :: ws))
        with (" " ++ join " " (String d w :: ws)).
      rewrite join_cons. rewrite E at 1. reflexivity.
    + intros Hs. destruct (IH false Hs) as [E _].
      destruct (split_ws s) as [w ws]. simpl in *.
      split; [by rewrite <- E|done].
Qed.

Lemma tidy_fixed s : tidy s = true -> clean_text (Some s) = s.
Proof.
  destruct s as [|c s]; [reflexivity|]. unfold tidy. intros H.
  destruct (tidy_after_split _ _ H) as [E [_ Hw]]; [reflexivity|].
  rewrite clean_text_join. unfold split.
  destruct (split_ws (String c s)) as [w ws]. simpl in *.
  destruct w as [|d w]; [done|]. simpl truthy. cbv iota.
  rewrite join_cons. by rewrite <- E.
Qed.

Lemma clean_text_tidy s : tidy (clean_text (Some s)) = true.
Proof. rewrite clean_text_join. apply tidy_join, split_words. Qed.

Lemma split_ws_blank s : blank s <-> split s = [].
Proof.
  unfold split. induction s as [|c s IH]; simpl.
  - split; [reflexivity|]. intros _ c [].
  - destruct (split_ws s) as [w ws]. destruct (is_space c) eqn:Hc; simpl.
    + split.
      * intros H. apply IH. intros d Hd. apply H. by right.
      * intros H. intros d [<-|Hd]; [assumption|].
        revert d Hd. apply IH. exact H.
    + split; [|discriminate]. intros H.
      specialize (H c (or_introl eq_refl)). congruence.
Qed.

Lemma join_empty ws : Forall word ws -> join " " ws = "" -> ws = [].
Proof.
  intros H E. destruct H as [|w ws [Hne _] _]; [reflexivity|].
  rewrite join_cons in E. destruct w; [done|discriminate].
Qed.

End TidyFacts.

Module MoreNormalizeFacts.
Import Py PyFacts CleanTextFacts Re ReFacts NormalizeFacts ShrinkFacts.
Import Utils TidyFacts.

Lemma suffix_search_no_space w : forall b,
  no_space w -> search_from true bout_suffix_re b w = None.
Proof.
  induction w as [|c w IH]; intros b Hw.
  - reflexivity.
  - apply no_space_cons in Hw as [Hc Hw]. cbn [search_from].
    rewrite suffix_no_match_visible by assumption. by rewrite IH.
Qed.

Lemma prefix_search_later s : search_from true ufc_prefix_re false s = None.
Proof.
  induction s as [|c s IH]; [reflexivity|].
  cbn [search_from]. rewrite prefix_no_match_later. by rewrite IH.
Qed.

(** The prefix pattern needs a white-space character in fourth place. *)
Lemma prefix_match_space s st :
  match_here true ufc_prefix_re true s = Some st ->
  exists c1 c2 c3 c4 s4,
    s = String c1 (String c2 (String c3 (String c4 s4))) /\
    is_space c4 = true.
Proof.
  unfold match_here, ufc_prefix_re. simpl.
  destruct s as [|c1 [|c2 [|c3 [|c4 s4]]]]; simpl; try discriminate;
    repeat match goal with
           | |- context [if ?x then _ else _] =>
               destruct x eqn:?; try discriminate
           end.
  intros _. eauto 10.
Qed.

Lemma prefix_search_no_space w :
  no_space w -> Re.search true ufc_prefix_re w = None.
Proof.
  intros Hw. unfold Re.search.
  destruct (match_here true ufc_prefix_re true w) as [st|] eqn:E.
  - exfalso. apply prefix_match_space in E as (c1 & c2 & c3 & c4 & s4 & -> & H).
    do 3 (apply no_space_cons in Hw as [_ Hw]).
    apply no_space_cons in Hw as [Hc _]. congruence.
  - destruct w as [|c w]; cbn [search_from]; rewrite E; [reflexivity|].
    by rewrite prefix_search_later.
Qed.

Lemma word_clean w : word w -> clean_text (Some w) = w.
Proof.
  intros Hw. rewrite clean_text_join, split_word by assumption. reflexivity.
Qed.

Lemma normalize_length s :
  normalize_weight_class (Some s) = "Unknown" \/
  (String.length (normalize_weight_class (Some s)) <= String.length s)%nat.
Proof.
  unfold normalize_weight_class.
  set (wc1 := clean_text (Some s)).
  set (wc2 := Re.sub true bout_suffix_re "" wc1).
  set (wc3 := Re.sub true ufc_prefix_re "" wc2).
  destruct (truthy wc3); [right|by left].
  pose proof (clean_text_length s). pose proof (clean_text_length wc3).
  pose proof (sub_go_length true bout_suffix_re wc1 0 true) as L2.
  pose proof (sub_go_length true ufc_prefix_re wc2 0 true) as L3.
  fold (Re.sub true bout_suffix_re "" wc1) in L2.
  fold (Re.sub true ufc_prefix_re "" wc2) in L3.
  fold wc1 in H. fold wc2 in L2, L3. fold wc3 in L3. lia.
Qed.

End MoreNormalizeFacts.

Module MoreFighterIdFacts.
Import Py PyFacts Re ReFacts NormalizeFacts FighterIdFacts.

(** Greedy repetition over a run of the class that stops at a character
    outside it. *)
Lemma star_run (A : Type) k (kont : mstate -> option A) w r g x :
  all_in k w ->
  match r with
  | EmptyString => True
  | String c _ => in_class k c = false
  end ->
  kont (MS false r g) = Some x ->
  star k false g kont (w ++ r) = Some x.
Proof.
  intros Hw Hr Hk. induction w as [|c w IH].
  - change ("" ++ r) with r. destruct r as [|d r]; simpl; [assumption|].
    by rewrite Hr.
  - apply all_in_cons in Hw as [Hc Hw].
    change (String c w ++ r) with (String c (w ++ r)). simpl.
    rewrite Hc, IH; auto.
Qed.

Lemma fighter_id_match_line_feed b id :
  id <> "" -> all_in CAlnum id ->
  match_here false fighter_id_re b
    ("fighter-details/" ++ id ++ String newline "")
  = Some (MS false (String newline "") (Some id)).
Proof.
  intros Hne Hid. destruct id as [|c id]; [done|].
  pose proof Hid as [Hc Hid']%all_in_cons.
  unfold match_here, fighter_id_re.
  rewrite rmatch_Cat, rmatch_lit_app by done.
  change (String c id ++ String newline "")
    with (String c (id ++ String newline "")).
  rewrite rmatch_Cat, rmatch_Group, rmatch_Plus. cbn [rest cap at0].
  rewrite Hc. erewrite star_run; [reflexivity|exact Hid'|reflexivity|].
  cbn [rest cap at0]. simpl rmatch.
  rewrite Nat.sub_0_r, str_length_app.
  change (String.length (String newline "")) with 1%nat.
  rewrite Nat.add_1_r. cbn [take]. by rewrite take_app.
Qed.

Lemma app_inj_r (a b c : string) : a ++ c = b ++ c -> a = b.
Proof.
  revert b. induction a as [|x a IH]; intros [|y b] E.
  - reflexivity.
  - exfalso. apply (f_equal String.length) in E. simpl in E.
    rewrite str_length_app in E. lia.
  - exfalso. apply (f_equal String.length) in E. simpl in E.
    rewrite str_length_app in E. lia.
  - simpl in E. injection E as -> E. f_equal. by apply IH.
Qed.

Lemma parse_fighter_id_line_feed pre id :
  id <> "" -> all_in CAlnum id ->
  parse_fighter_id_from_url
    (Some (pre ++ "fighter-details/" ++ id ++ String newline ""))
  = Some id.
Proof.
  intros Hne Hid.
  set (url := pre ++ "fighter-details/" ++ id ++ String newline "").
  destruct (parse_fighter_id_from_url (Some url)) as [id'|] eqn:E.
  - apply parse_fighter_id_sound in E as (pre' & nl & E & _ & Hid' & Hnl).
    unfold url in E. apply (f_equal after_slash) in E.
    change ("fighter-details/" ++ ?x) with ("fighter-details" ++ String "/" x)
      in E.
    rewrite <- !str_app_assoc in E.
    rewrite !after_slash_app in E.
    + injection E as E. destruct Hnl as [->| ->].
      * exfalso. rewrite str_app_nil_r in E. rewrite <- E in Hid'.
        apply all_in_app_r in Hid'.
        specialize (Hid' newline (or_introl eq_refl)). discriminate.
      * apply app_inj_r in E. congruence.
    + apply after_slash_none, no_slash_app; [by apply alnum_no_slash|].
      destruct Hnl as [->| ->]; intros c; simpl; [tauto|].
      intros [<-|[]]. discriminate.
    + apply after_slash_none, no_slash_app; [by apply alnum_no_slash|].
      intros c; simpl. intros [<-|[]]. discriminate.
  - exfalso. revert E. unfold parse_fighter_id_from_url.
    assert (truthy url = true) as -> by (unfold url; destruct pre; reflexivity).
    simpl negb. cbv iota. unfold Re.search, url.
    destruct (search_from_complete false fighter_id_re pre
                ("fighter-details/" ++ id ++ String newline "") true)
      as [[p st] E].
    { rewrite fighter_id_match_line_feed by assumption. eauto. }
    rewrite E. intros Hcap.
    apply search_from_sound in E as (s1 & E1 & H).
    apply fighter_id_match_shape in H as (id' & nl & _ & Hc & _).
    congruence.
Qed.

End MoreFighterIdFacts.

Module CharFacts.
Import Py PyFacts.

Lemma contains_chr c s :
  contains (String c "") s = true <-> In c (list_ascii_of_string s).
Proof.
  induction s as [|x s IH].
  - simpl. split; [discriminate|tauto].
  - change (contains (String c "") (String x s))
      with (startswith (String c "") (String x s) || contains (String c "") s).
    unfold startswith. simpl. destruct (Ascii.eqb_spec c x) as [->|Hne].
    + simpl. split; auto.
    + simpl. rewrite IH. split; [auto|]. intros [E|H]; [congruence|assumption].
Qed.

Lemma contains_chr_false c s :
  contains (String c "") s = false <-> ~ In c (list_ascii_of_string s).
Proof.
  rewrite <- contains_chr. destruct (contains (String c "") s); split;
    congruence.
Qed.

Lemma split_chr_no_sep c s :
  ~ In c (list_ascii_of_string s) -> split_chr c s = (s, []).
Proof.
  induction s as [|x s IH]; simpl; [reflexivity|]. intros H.
  rewrite IH by tauto. destruct (Ascii.eqb_spec x c) as [->|]; [|reflexivity].
  exfalso. apply H. by left.
Qed.

Lemma split_on_no_sep c s :
  ~ In c (list_ascii_of_string s) -> split_on c s = [s].
Proof. intros H. unfold split_on. by rewrite split_chr_no_sep. Qed.

Lemma split_on_app c a r :
  ~ In c (list_ascii_of_string a) ->
  split_on c (a ++ String c r) = a :: split_on c r.
Proof.
  unfold split_on. induction a as [|x a IH]; intros H.
  - change ("" ++ String c r) with (String c r). simpl.
    destruct (split_chr c r). by rewrite Ascii.eqb_refl.
  - change (String x a ++ String c r) with (String x (a ++ String c r)).
    simpl. simpl in H.
    destruct (split_chr c (a ++ String c r)) as [w ws] eqn:E.
    destruct (split_chr c r) as [w' ws'].
    assert (Ha : ~ In c (list_ascii_of_string a)) by tauto.
    specialize (IH Ha). injection IH as -> ->.
    destruct (Ascii.eqb_spec x c) as [->|]; [tauto|reflexivity].
Qed.

Lemma replace_chr_In x d s :
  In x (list_ascii_of_string (replace_chr d "" s)) ->
  In x (list_ascii_of_string s) /\ x <> d.
Proof.
  induction s as [|c s IH]; simpl; [tauto|].
  destruct (Ascii.eqb_spec c d) as [->|Hne]; simpl.
  - intros H. destruct (IH H). auto.
  - intros [<-|H]; [auto|]. destruct (IH H). auto.
Qed.

Lemma split_on_two c s :
  In c (list_ascii_of_string s) -> exists p0 p1 ps, split_on c s = p0 :: p1 :: ps.
Proof.
  unfold split_on. induction s as [|x s IH]; simpl; [tauto|].
  destruct (split_chr c s) as [w ws] eqn:E.
  destruct (Ascii.eqb_spec x c) as [->|Hne].
  - intros _. eauto.
  - intros [E'|H]; [congruence|].
    destruct (IH H) as (p0 & p1 & ps & [= -> ->]). eauto.
Qed.

End CharFacts.

Module HeightFacts.
Import Py PyFacts CharFacts Utils.

Lemma height_parts_no_marks s :
  contains "'" s = false -> contains (String dquote "") s = false ->
  height_parts s = None.
Proof.
  intros H1 H2. apply contains_chr_false in H1, H2.
  unfold height_parts.
  set (h := replace_chr " " "" s).
  assert (Hh1 : ~ In "'"%char (list_ascii_of_string h)).
  { intros H. apply replace_chr_In in H as [H _]. auto. }
  assert (Hh2 : ~ In dquote (list_ascii_of_string h)).
  { intros H. apply replace_chr_In in H as [H _]. auto. }
  rewrite split_on_no_sep.
  - destruct (truthy (replace_chr dquote "" h)); [|reflexivity].
    apply contains_chr_false in Hh1, Hh2. rewrite Hh1, Hh2. reflexivity.
  - intros H. apply replace_chr_In in H as [H _]. auto.
Qed.

Lemma height_within_spec txt n :
  height_within txt n = true ->
  exists cm, parse_height_to_cm (Some txt) = Returns (Some cm) /\
             nearest_cm cm n.
Proof.
  unfold height_within.
  destruct (parse_height_to_cm (Some txt)) as [[cm|]|]; try discriminate.
  intros H. exists cm. split; [reflexivity|]. unfold nearest_cm. lia.
Qed.

Lemma feet_checked :
  forallb (fun f => height_within (feet_text f) (12 * Z.of_nat f))
          (seq 0 100) = true.
Proof. vm_compute. reflexivity. Qed.

Lemma inches_checked :
  forallb (fun i => height_within (inches_text i) (Z.of_nat i))
          (seq 0 300) = true.
Proof. vm_compute. reflexivity. Qed.

End HeightFacts.

Module StatValueFacts.
Import Py PyFacts CharFacts CleanTextFacts Utils.

Lemma stat_value_returns s : exists v, parse_career_stat_value s = Returns v.
Proof.
  unfold parse_career_stat_value.
  destruct (contains ":" s) eqn:E; [|eauto].
  apply contains_chr in E. apply split_on_two in E as (p0 & p1 & ps & ->).
  simpl. eauto.
Qed.

Lemma stat_value_first_piece a b r :
  no_colon a -> no_colon b ->
  (r = "" \/ exists r', r = String ":" r') ->
  parse_career_stat_value (a ++ ":" ++ b ++ r)
  = Returns (clean_text (Some b)).
Proof.
  intros Ha Hb Hr. unfold parse_career_stat_value.
  change (a ++ ":" ++ b ++ r) with (a ++ String ":" (b ++ r)).
  assert (contains ":" (a ++ String ":" (b ++ r)) = true) as ->.
  { apply contains_chr. clear. induction a; simpl; auto. }
  rewrite split_on_app by (intros H; by apply Ha in H).
  destruct Hr as [->|[r' ->]].
  - rewrite str_app_nil_r.
    rewrite split_on_no_sep by (intros H; by apply Hb in H). reflexivity.
  - rewrite split_on_app by (intros H; by apply Hb in H). reflexivity.
Qed.

End StatValueFacts.

(** ** More on the scraper *)

Module MoreScraperFacts.
Import Py PyFacts CleanTextFacts NormalizeFacts Utils TidyFacts.
Import Scraper ScraperFacts ScraperSpec.

Lemma row_fight_accepts date r :
  is_Some (row_fight date r) <-> accepts r = true.
Proof.
  unfold accepts. split.
  - intros [f Hf]. revert Hf. unfold row_fight.
    destruct (truthy (data_link r)); [|discriminate].
    cbn [negb andb].
    destruct (Nat.ltb_spec (List.length (cols r)) 10); [discriminate|].
    intros _. apply Nat.leb_le. lia.
  - intros [Hl Hn%Nat.leb_le]%andb_prop. by apply row_fight_total.
Qed.

Lemma fight_rows_length date rows :
  List.length (scrape_rows date rows) = List.length (List.filter accepts rows).
Proof.
  induction rows as [|r rows IH]; [reflexivity|]. simpl.
  pose proof (row_fight_accepts date r) as H.
  destruct (row_fight date r) as [f|]; destruct (accepts r).
  - simpl. by rewrite IH.
  - destruct H as [H _]. specialize (H ltac:(eauto)). discriminate.
  - destruct H as [_ H]. destruct (H eq_refl). discriminate.
  - exact IH.
Qed.

Lemma absolute_url_base h :
  startswith "http" (FIGHTER_STATS_BASE_URL ++ h) = true.
Proof. reflexivity. Qed.

Lemma absolute_url_cases h u :
  absolute_url h = Some u -> u = "" \/ startswith "http" u = true.
Proof.
  unfold absolute_url. destruct h as [h|]; [|discriminate].
  destruct h as [|c h]; simpl truthy; cbv iota.
  - simpl. intros [= <-]. by left.
  - simpl andb. destruct (startswith "http" (String c h)) eqn:E; simpl.
    + intros [= <-]. by right.
    + intros [= <-]. right. apply absolute_url_base.
Qed.

Lemma absolute_url_idem h : absolute_url (absolute_url h) = absolute_url h.
Proof.
  destruct (absolute_url h) as [u|] eqn:E; [|reflexivity].
  destruct (absolute_url_cases _ _ E) as [->|H]; [reflexivity|].
  unfold absolute_url. rewrite H. by rewrite andb_false_r.
Qed.

Lemma absolute_url_link h :
  truthy h = true ->
  exists u, absolute_url (Some h) = Some u /\ startswith "http" u = true.
Proof.
  intros Hl. unfold absolute_url. rewrite Hl. simpl andb.
  destruct (startswith "http" h) eqn:E; simpl; eauto.
Qed.

Lemma tag_name_tidy t : tidy (tag_name t) = true.
Proof. destruct t; simpl tag_name; [apply clean_text_tidy|reflexivity]. Qed.

Lemma normalize_tidy wc : tidy (normalize_weight_class wc) = true.
Proof. rewrite <- normalize_clean. apply clean_text_tidy. Qed.

(** Every field of a record, from the row it was read from. *)
Lemma row_fight_fields date r f :
  row_fight date r = Some f ->
  exists c0 c1 c6 c7 c8 c9,
    cols r !! 0%nat = Some c0 /\ cols r !! 1%nat = Some c1 /\
    cols r !! 6%nat = Some c6 /\ cols r !! 7%nat = Some c7 /\
    cols r !! 8%nat = Some c8 /\ cols r !! 9%nat = Some c9 /\
    f = {| fighter1_name := tag_name (anchors c1 !! 0%nat);
           fighter1_url := absolute_url (tag_href (anchors c1 !! 0%nat));
           fighter2_name := tag_name (anchors c1 !! 1%nat);
           fighter2_url := absolute_url (tag_href (anchors c1 !! 1%nat));
           winner := resolve_winner (status_icon c0)
                       (tag_name (anchors c1 !! 0%nat))
                       (tag_name (anchors c1 !! 1%nat));
           method := clean_text (Some (text_sep c7));
           round := clean_text (Some (text c8));
           time := clean_text (Some (text c9));
           weight_class :=
             normalize_weight_class
               (Some match table_text c6 with
                     | Some t => clean_text (Some t)
                     | None => "Unknown"
                     end);
           fight_details_url := absolute_url (Some (data_link r));
           event_date := date |} /\
    truthy (data_link r) = true.
Proof.
  unfold row_fight.
  destruct (truthy (data_link r)) eqn:Hl; [|discriminate]. simpl negb.
  cbv iota.
  destruct (List.length (cols r) <? 10)%nat; [discriminate|].
  destruct (cols r !! 0%nat) as [c0|]; [|discriminate].
  destruct (cols r !! 1%nat) as [c1|]; [|discriminate].
  destruct (cols r !! 6%nat) as [c6|]; [|discriminate].
  destruct (cols r !! 7%nat) as [c7|]; [|discriminate].
  destruct (cols r !! 8%nat) as [c8|]; [|discriminate].
  destruct (cols r !! 9%nat) as [c9|]; [|discriminate].
  simpl. intros [= <-]. exists c0, c1, c6, c7, c8, c9. auto 10.
Qed.

End MoreScraperFacts.

Module EventListFacts.
Import Py PyFacts CleanTextFacts Utils TidyFacts EventList.

Lemma row_event_usable r : is_Some (row_event r) <-> usable r = true.
Proof.
  unfold row_event, usable.
  destruct (event_link_tag r) as [link|], (date_tag r) as [d|];
    try (split; [intros [? ?]; discriminate|discriminate]).
  destruct (Scraper.a_href link) as [u|]; simpl;
    [|split; [intros [? ?]; discriminate|discriminate]].
  destruct (truthy u); split; eauto; try discriminate.
  intros [? ?]; discriminate.
Qed.

Lemma row_event_fields r e :
  row_event r = Some e ->
  startswith "http" (url e) = true /\
  tidy (name e) = true /\ tidy (date e) = true /\ tidy (location e) = true.
Proof.
  unfold row_event.
  destruct (event_link_tag r) as [link|]; [|discriminate].
  destruct (date_tag r) as [d|]; [|discriminate].
  destruct (Scraper.a_href link) as [u|]; [|discriminate].
  destruct (truthy u); [|discriminate]. intros [= <-]. simpl.
  split; [|split; [|split]]; try apply clean_text_tidy.
  - destruct (startswith "http" u) eqn:E; simpl; [assumption|reflexivity].
  - destruct (location_tag_td r); [apply clean_text_tidy|reflexivity].
Qed.

Lemma event_rows_elem rows e :
  e ∈ scrape_rows rows -> exists r, r ∈ rows /\ row_event r = Some e.
Proof.
  induction rows as [|r rows IH]; simpl.
  - intros H. by apply not_elem_of_nil in H.
  - destruct (row_event r) as [e'|] eqn:E.
    + intros [->|H]%elem_of_cons.
      * exists r. split; [left|assumption].
      * destruct (IH H) as (r' & ? & ?). exists r'. split; [by right|done].
    + intros H. destruct (IH H) as (r' & ? & ?).
      exists r'. split; [by right|done].
Qed.

Lemma event_rows_length rows :
  List.length (scrape_rows rows) = List.length (List.filter usable rows).
Proof.
  induction rows as [|r rows IH]; [reflexivity|]. simpl.
  pose proof (row_event_usable r) as H.
  destruct (row_event r) as [e|]; destruct (usable r).
  - simpl. by rewrite IH.
  - destruct H as [H _]. specialize (H ltac:(eauto)). discriminate.
  - destruct H as [_ H]. destruct (H eq_refl). discriminate.
  - exact IH.
Qed.

Lemma event_rows_app l1 l2 :
  scrape_rows (l1 ++ l2) = (scrape_rows l1 ++ scrape_rows l2)%list.
Proof.
  induction l1 as [|r l1 IH]; simpl; [reflexivity|].
  destruct (row_event r); simpl; by rewrite IH.
Qed.

End EventListFacts.

Module CareerStatsFacts.
Import Py PyFacts CharFacts CleanTextFacts Utils TidyFacts CareerStats.

Lemma replace_chr_absent d s :
  ~ In d (list_ascii_of_string s) -> replace_chr d "" s = s.
Proof.
  induction s as [|c s IH]; simpl; [reflexivity|]. intros H.
  destruct (Ascii.eqb_spec c d) as [->|]; [tauto|]. rewrite IH; tauto.
Qed.

Lemma replace_chr_idem d s :
  replace_chr d "" (replace_chr d "" s) = replace_chr d "" s.
Proof.
  apply replace_chr_absent. intros H. apply replace_chr_In in H as [_ H].
  congruence.
Qed.

Lemma stat_name_for_periods label :
  stat_name_for (replace_chr "." "" label) = stat_name_for label.
Proof. unfold stat_name_for. by rewrite replace_chr_idem. Qed.

Lemma stat_name_for_listed label n :
  stat_name_for label = Some n -> n ∈ stat_names.
Proof.
  unfold stat_name_for.
  destruct (find _ career_stats_map) as [kv|] eqn:E; [|discriminate].
  intros [= <-]. apply find_some in E as [E _].
  apply list_elem_of_In in E. unfold stat_names.
  apply list_elem_of_fmap. by exists kv.
Qed.

Lemma add_stat_lookup st item k v :
  add_stat st item !! k = Some v ->
  st !! k = Some v \/ (k ∈ stat_names /\ tidy v = true).
Proof.
  unfold add_stat. destruct (contains ":" item); [|by left].
  destruct (split_once ":" item) as [[l x]|]; [|by left].
  destruct (stat_name_for (clean_text (Some l))) as [n|] eqn:E; [|by left].
  destruct (decide (n = k)) as [->|Hne].
  - rewrite lookup_insert_eq. intros [= <-]. right.
    split; [by eapply stat_name_for_listed|apply clean_text_tidy].
  - rewrite lookup_insert_ne by assumption. by left.
Qed.

Lemma add_stats_lookup items : forall st k v,
  foldl add_stat st items !! k = Some v ->
  st !! k = Some v \/ (k ∈ stat_names /\ tidy v = true).
Proof.
  induction items as [|item items IH]; intros st k v; simpl; [by left|].
  intros H. apply IH in H as [H|H]; [|by right].
  by apply add_stat_lookup in H.
Qed.

Lemma split_once_app l v :
  no_colon l -> split_once ":" (l ++ String ":" v) = Some (l, v).
Proof.
  induction l as [|c l IH]; intros Hl.
  - reflexivity.
  - change (String c l ++ String ":" v) with (String c (l ++ String ":" v)).
    simpl. destruct (Ascii.eqb_spec c ":") as [->|].
    + exfalso. by apply (Hl ":"%char); [left|].
    + rewrite IH; [reflexivity|]. intros d Hd. apply Hl. by right.
Qed.

Lemma add_stat_sets st l v n :
  no_colon l ->
  stat_name_for (clean_text (Some l)) = Some n ->
  add_stat st (l ++ String ":" v) !! n = Some (clean_text (Some v)).
Proof.
  intros Hl Hn. unfold add_stat.
  assert (contains ":" (l ++ String ":" v) = true) as ->.
  { apply contains_chr. clear. induction l; simpl; auto. }
  rewrite split_once_app by assumption. rewrite Hn.
  apply lookup_insert_eq.
Qed.

End CareerStatsFacts.

(** ** More on the fighter index *)

Module MoreOrganizerFacts.
Import Py Organizer OrganizerFacts IndexFacts IndexQueries.

Lemma get_fighters_spec fs wc :
  let l := get_fighters_by_weight_class (Some (update_fighter_index fs)) wc in
  NoDup l /\ StronglySorted name_le l /\
  forall n u, Entry n u ∈ l <-> participates fs wc n u.
Proof.
  unfold get_fighters_by_weight_class, load_fighter_index. simpl.
  destruct (update_fighter_index fs !! wc) as [l|] eqn:E; simpl.
  - destruct (index_lookup _ _ _ E) as (Hnd & _ & Hm).
    split; [assumption|]. split; [|assumption].
    revert E. unfold update_fighter_index. rewrite lookup_fmap.
    destruct (fighter_index (collect fs) !! wc); simpl; [|discriminate].
    intros [= <-]. apply sorted_by_name_strongly.
  - split; [constructor|]. split; [constructor|]. intros n u. split.
    + intros H. by apply not_elem_of_nil in H.
    + intros H. apply index_complete in H as (l & Hl & _). congruence.
Qed.

Lemma participates_perm fs fs' wc n u :
  fs ≡ₚ fs' -> participates fs wc n u -> participates fs' wc n u.
Proof.
  intros Hp (f & p & Hf & H). exists f, p. split; [|assumption].
  by rewrite <- Hp.
Qed.

Lemma fight_wc_proper f : fight_wc f <> "" /\ fight_wc f <> "N/A".
Proof.
  unfold fight_wc. destruct (weight_class f) as [wc|]; [|by split].
  destruct (String.eqb_spec wc "N/A") as [->|Hne]; simpl; [by split|].
  destruct wc; simpl; [by split|]. split; [discriminate|assumption].
Qed.

Lemma index_key fs wc :
  is_Some (update_fighter_index fs !! wc) <->
  exists n u, participates fs wc n u.
Proof.
  split.
  - intros [l Hl]. destruct (index_lookup _ _ _ Hl) as (_ & _ & Hm).
    revert Hl. unfold update_fighter_index. rewrite lookup_fmap.
    destruct (fighter_index (collect fs) !! wc) as [l0|] eqn:E;
      [|discriminate].
    simpl. intros [= <-].
    pose proof (filled_collect fs wc l0 E) as Hne.
    destruct l0 as [|[n u] l0]; [done|].
    exists n, u. apply Hm. rewrite sorted_by_name_perm. left.
  - intros (n & u & H). apply index_complete in H as (l & Hl & _). eauto.
Qed.


Lemma listed_eq st st' wc :
  fighter_index st' = fighter_index st -> listed st' wc = listed st wc.
Proof. unfold listed. by intros ->. Qed.

Lemma add_fighter_again wc st p :
  consistent st ->
  (forall n u, accepted p = Some (n, u) -> Entry n u ∈ listed st wc) ->
  fighter_index (add_fighter wc st p) = fighter_index st.
Proof.
  intros Hc Hp. unfold add_fighter.
  destruct (accepted p) as [[n u]|]; [|reflexivity].
  fold (seen st wc). destruct (Hc wc) as [_ Hs].
  rewrite bool_decide_eq_true_2; [reflexivity|].
  apply Hs, Hp. reflexivity.
Qed.

Lemma add_fighters_again wc ps : forall st,
  consistent st ->
  (forall p n u, p ∈ ps -> accepted p = Some (n, u) ->
                 Entry n u ∈ listed st wc) ->
  fighter_index (foldl (add_fighter wc) st ps) = fighter_index st.
Proof.
  induction ps as [|p ps IH]; intros st Hc Hp; simpl; [reflexivity|].
  assert (E : fighter_index (add_fighter wc st p) = fighter_index st).
  { apply add_fighter_again; [assumption|]. intros n u. apply Hp. left. }
  rewrite IH; [assumption|by apply consistent_add_fighter|].
  intros q n u Hq Ha. rewrite (listed_eq _ _ _ E). apply (Hp q); [by right|done].
Qed.

Lemma collect_again fs : forall st,
  consistent st ->
  (forall f p n u, f ∈ fs -> p ∈ fighters_in_fight f ->
                   accepted p = Some (n, u) ->
                   Entry n u ∈ listed st (fight_wc f)) ->
  fighter_index (foldl add_fight st fs) = fighter_index st.
Proof.
  induction fs as [|f fs IH]; intros st Hc Hp; simpl; [reflexivity|].
  assert (E : fighter_index (add_fight st f) = fighter_index st).
  { apply add_fighters_again; [assumption|]. intros p n u. apply Hp. left. }
  rewrite IH; [assumption| |].
  - by apply add_fighters_spec.
  - intros g p n u Hg Hq Ha. rewrite (listed_eq _ _ _ E).
    apply (Hp g p); [by right|done..].
Qed.

Lemma update_again fs fs' :
  fs' ⊆ fs -> update_fighter_index (fs ++ fs') = update_fighter_index fs.
Proof.
  intros Hsub. unfold update_fighter_index, collect. rewrite foldl_app.
  fold (collect fs).
  destruct (collect_spec fs (State ∅ ∅) consistent_empty) as [Hc Hm].
  fold (collect fs) in Hc, Hm.
  rewrite collect_again; [reflexivity|assumption|].
  intros f p n u Hf Hp Ha. apply Hm. right. exists f, p. auto.
Qed.

Lemma insert_key_perm k l : insert_key k l ≡ₚ k :: l.
Proof.
  induction l as [|x l IH]; simpl; [reflexivity|].
  destruct (String.leb k x); [reflexivity|].
  rewrite IH. apply Permutation_swap.
Qed.

Lemma sorted_keys_perm l : sorted_keys l ≡ₚ l.
Proof.
  induction l as [|x l IH]; simpl; [reflexivity|].
  rewrite insert_key_perm. by constructor.
Qed.

Lemma insert_key_sorted k l :
  Sorted key_le l -> Sorted key_le (insert_key k l).
Proof.
  induction 1 as [|x l Hs IH Hhd]; simpl; [repeat constructor|].
  destruct (String.leb k x) eqn:E.
  - constructor; [by constructor|]. by constructor.
  - constructor; [assumption|].
    assert (Hxk : key_le x k).
    { unfold key_le. destruct (String.leb_total x k); congruence. }
    destruct l as [|y l]; simpl; [by constructor|].
    destruct (String.leb k y); constructor; [assumption|].
    by inversion Hhd.
Qed.

Lemma sorted_keys_sorted l : StronglySorted key_le (sorted_keys l).
Proof.
  apply Sorted_StronglySorted.
  - intros a b c. unfold key_le. intros H1%Is_true_true H2%Is_true_true.
    apply Is_true_true. exact (transitivity (R := String.le) H1 H2).
  - induction l; simpl; [constructor|]. by apply insert_key_sorted.
Qed.

Lemma get_weight_classes_spec idx :
  let l := get_weight_classes (Some idx) in
  NoDup l /\ StronglySorted key_le l /\
  forall wc, wc ∈ l <-> is_Some (idx !! wc).
Proof.
  unfold get_weight_classes, load_fighter_index. simpl.
  split; [|split].
  - rewrite sorted_keys_perm. apply NoDup_fst_map_to_list.
  - apply sorted_keys_sorted.
  - intros wc. rewrite sorted_keys_perm, list_elem_of_fmap. split.
    + intros ([k v] & -> & H). apply elem_of_map_to_list in H. eauto.
    + intros [v H]. exists (wc, v). split; [reflexivity|].
      by apply elem_of_map_to_list.
Qed.

End MoreOrganizerFacts.

(** ** The latest fight of a fighter *)

Module DataManagerFacts.
Import Py DataManager.

Section LastFightDate.
Variable datetime : Type.
Variable strptime : string -> option datetime.
Variable later : datetime -> datetime -> bool.

#[local] Abbreviation counted := (counted datetime strptime).
#[local] Abbreviation step := (step datetime strptime later).
#[local] Abbreviation latest_of := (latest_of datetime strptime later).

Hypothesis later_trans :
  forall a b c, later a b = true -> later b c = true -> later a c = true.
Hypothesis later_irrefl : forall a, later a a = false.

Lemma step_counted url acc f :
  step url acc f =
  match counted url f with
  | None => acc
  | Some d =>
      match acc with
      | None => Some d
      | Some l => if later d l then Some d else acc
      end
  end.
Proof.
  unfold DataManager.step, DataManager.counted.
  destruct (event_date f) as [s|]; [|reflexivity].
  destruct (truthy s); simpl; [|reflexivity].
  destruct (is_participant url f); [|reflexivity].
  destruct (strptime s); reflexivity.
Qed.

Lemma latest_of_step url pre acc f :
  latest_of url pre acc -> latest_of url (pre ++ [f]) (step url acc f).
Proof.
  intros H. rewrite step_counted.
  destruct (counted url f) as [d|] eqn:Ef.
  - destruct acc as [l|]; simpl in H.
    + destruct H as [(g & Hg & Eg) Hmax].
      destruct (later d l) eqn:Edl; simpl.
      * split; [exists f; split; [apply elem_of_app; right; left|done]|].
        intros h d' [Hh|Hh%list_elem_of_singleton]%elem_of_app Eh.
        -- specialize (Hmax h d' Hh Eh).
           destruct (later d' d) eqn:E; [|reflexivity].
           rewrite (later_trans _ _ _ E Edl) in Hmax. discriminate.
        -- subst h. assert (d' = d) as -> by congruence. apply later_irrefl.
      * split; [exists g; split; [apply elem_of_app; by left|done]|].
        intros h d' [Hh|Hh%list_elem_of_singleton]%elem_of_app Eh.
        -- by apply (Hmax h).
        -- subst h. congruence.
    + simpl. split; [exists f; split; [apply elem_of_app; right; left|done]|].
      intros h d' [Hh|Hh%list_elem_of_singleton]%elem_of_app Eh.
      * rewrite (H h Hh) in Eh. discriminate.
      * subst h. assert (d' = d) as -> by congruence. apply later_irrefl.
  - destruct acc as [l|]; simpl in *.
    + destruct H as [(g & Hg & Eg) Hmax].
      split; [exists g; split; [apply elem_of_app; by left|done]|].
      intros h d' [Hh|Hh%list_elem_of_singleton]%elem_of_app Eh.
      * by apply (Hmax h).
      * subst h. congruence.
    + intros h [Hh|Hh%list_elem_of_singleton]%elem_of_app.
      * by apply H.
      * by subst h.
Qed.

Lemma latest_of_foldl url fights : forall pre acc,
  latest_of url pre acc ->
  latest_of url (pre ++ fights) (foldl (step url) acc fights).
Proof.
  induction fights as [|f fights IH]; intros pre acc H; simpl.
  - by rewrite app_nil_r.
  - replace (pre ++ f :: fights)%list with ((pre ++ [f]) ++ fights)%list
      by (by rewrite <- app_assoc).
    apply IH. by apply latest_of_step.
Qed.

Lemma latest_of_all url fights :
  latest_of url fights (foldl (step url) None fights).
Proof.
  apply (latest_of_foldl url fights [] None). simpl.
  intros f Hf. by apply not_elem_of_nil in Hf.
Qed.

End LastFightDate.

End DataManagerFacts.

(** * Further properties *)

Section MoreText.
Import Py PyFacts CleanTextFacts Re ReFacts NormalizeFacts ShrinkFacts.
Import FighterIdFacts Utils TidyFacts MoreNormalizeFacts MoreFighterIdFacts.
Import CharFacts HeightFacts StatValueFacts PrefixFacts.

(** X1: cleaning a text that is already clean changes nothing. *)
Theorem clean_text_idempotent text :
  clean_text (Some (clean_text text)) = clean_text text.
Proof.
  destruct text as [t|]; [apply clean_text_idem|reflexivity].
Qed.

(** X2: the result of [clean_text] is words separated by single spaces, and
    the texts that [clean_text] leaves as they are are exactly those. *)
Theorem clean_text_fixed_points :
  (forall text, tidy (clean_text text) = true) /\
  (forall s, clean_text (Some s) = s <-> tidy s = true).
Proof.
  split.
  - intros [t|]; [apply clean_text_tidy|reflexivity].
  - intros s. split; [|apply tidy_fixed].
    intros <-. apply clean_text_tidy.
Qed.

(** X3: cleaning keeps the words of the text, in order, and never makes the
    text longer. *)
Theorem clean_text_keeps_words s :
  Py.split (clean_text (Some s)) = Py.split s /\
  (String.length (clean_text (Some s)) <= String.length s)%nat.
Proof.
  split; [|apply clean_text_length].
  rewrite clean_text_join. apply split_join, split_words.
Qed.

(** X4: the result is empty exactly for a text made of white space only. *)
Theorem clean_text_empty_iff_blank s :
  clean_text (Some s) = "" <-> blank s.
Proof.
  rewrite clean_text_join, split_ws_blank. split.
  - apply join_empty, split_words.
  - by intros ->.
Qed.

(** X5: the normalised weight class depends on the words of the text only,
    not on the white space between and around them. *)
Theorem normalize_ignores_spacing s1 s2 :
  Py.split s1 = Py.split s2 ->
  normalize_weight_class (Some s1) = normalize_weight_class (Some s2).
Proof.
  intros H. unfold normalize_weight_class.
  by rewrite !clean_text_join, H.
Qed.

Lemma normalize_ignores_spacing_witness :
  normalize_weight_class (Some "   UFC   Lightweight    Title  Bout ")
  = normalize_weight_class (Some "UFC Lightweight Title Bout").
Proof. apply normalize_ignores_spacing. vm_compute. reflexivity. Defined.

(** X6: a normalised weight class is a clean text: words separated by
    single spaces, which [clean_text] returns unchanged. *)
Theorem normalize_result_is_tidy wc :
  tidy (normalize_weight_class wc) = true /\
  clean_text (Some (normalize_weight_class wc)) = normalize_weight_class wc.
Proof.
  split; [|apply normalize_clean].
  rewrite <- normalize_clean. apply clean_text_tidy.
Qed.

(** X7: normalising never adds text: the result is the fallback "Unknown"
    or is no longer than the input. *)
Theorem normalize_never_longer s :
  normalize_weight_class (Some s) = "Unknown" \/
  (String.length (normalize_weight_class (Some s)) <= String.length s)%nat.
Proof. apply normalize_length. Qed.

(** X8: a text of one word is returned as it is, also the words "Bout" and
    "UFC": the label needs white space before it and the prefix white space
    after it. *)
Theorem normalize_keeps_single_word w :
  word w -> normalize_weight_class (Some w) = w.
Proof.
  intros Hw. pose proof Hw as [Hne Hns].
  apply normalize_fixed; [by apply word_clean|assumption| |].
  - by apply suffix_search_no_space.
  - by apply prefix_search_no_space.
Qed.

Lemma normalize_keeps_single_word_witness :
  normalize_weight_class (Some "Bout") = "Bout".
Proof.
  apply normalize_keeps_single_word. split; [discriminate|].
  intros c H. simpl in H. intuition subst; reflexivity.
Defined.

(** X9: an identifier that is returned is a non-empty run of ASCII letters
    and digits that follows [fighter-details/] and ends the URL, one final
    line feed apart. *)
Theorem fighter_id_shape url id :
  parse_fighter_id_from_url (Some url) = Some id ->
  id <> "" /\ all_in CAlnum id /\
  exists pre nl, url = pre ++ "fighter-details/" ++ id ++ nl /\
                 (nl = "" \/ nl = String newline "").
Proof.
  intros (pre & nl & E & Hne & Hid & Hnl)%parse_fighter_id_sound.
  split; [assumption|]. split; [assumption|]. eauto.
Qed.

Lemma fighter_id_shape_witness :
  "abc123" <> "" /\ all_in CAlnum "abc123" /\
  exists pre nl,
    "http://site/fighter-details/abc123"
    = pre ++ "fighter-details/" ++ "abc123" ++ nl /\
    (nl = "" \/ nl = String newline "").
Proof.
  apply (fighter_id_shape "http://site/fighter-details/abc123").
  vm_compute. reflexivity.
Defined.

(** X10: one line feed after the identifier is passed over. *)
Theorem fighter_id_ignores_final_line_feed pre id :
  id <> "" -> all_in CAlnum id ->
  parse_fighter_id_from_url
    (Some (pre ++ "fighter-details/" ++ id ++ String newline ""))
  = Some id.
Proof. apply parse_fighter_id_line_feed. Qed.

Lemma fighter_id_ignores_final_line_feed_witness :
  parse_fighter_id_from_url
    (Some ("http://site/" ++ "fighter-details/" ++ "abc123"
           ++ String newline ""))
  = Some "abc123".
Proof.
  apply fighter_id_ignores_final_line_feed; [discriminate|].
  intros c H. simpl in H. intuition subst; reflexivity.
Defined.

(** X11: feet alone, [F'], count twelve inches each, and inches alone,
    closed by the double quote, count as they are. *)
Theorem height_feet_or_inches_alone :
  (forall feet, (feet < 100)%nat ->
     exists cm, parse_height_to_cm (Some (feet_text feet))
                = Returns (Some cm) /\
                nearest_cm cm (12 * Z.of_nat feet)) /\
  (forall inches, (inches < 300)%nat ->
     exists cm, parse_height_to_cm (Some (inches_text inches))
                = Returns (Some cm) /\
                nearest_cm cm (Z.of_nat inches)).
Proof.
  split.
  - intros feet H. apply height_within_spec.
    pose proof feet_checked as C.
    apply (forallb_elem _ _ feet) in C; [assumption|].
    apply list_elem_of_In, in_seq. lia.
  - intros inches H. apply height_within_spec.
    pose proof inches_checked as C.
    apply (forallb_elem _ _ inches) in C; [assumption|].
    apply list_elem_of_In, in_seq. lia.
Qed.

Lemma height_feet_or_inches_alone_witness :
  (exists cm, parse_height_to_cm (Some (feet_text 6)) = Returns (Some cm) /\
              nearest_cm cm 72) /\
  (exists cm, parse_height_to_cm (Some (inches_text 71))
              = Returns (Some cm) /\ nearest_cm cm 71).
Proof.
  destruct height_feet_or_inches_alone as [Hf Hi].
  split; [apply (Hf 6%nat)|apply (Hi 71%nat)]; lia.
Defined.

(** X12: a text with neither the foot mark nor the double quote gives
    [None], whatever digits it holds. *)
Theorem height_needs_a_mark s :
  contains "'" s = false -> contains (String dquote "") s = false ->
  parse_height_to_cm (Some s) = Returns None.
Proof.
  intros H1 H2. unfold parse_height_to_cm.
  destruct (negb (truthy s) || contains "--" s); [reflexivity|].
  by rewrite height_parts_no_marks.
Qed.

Lemma height_needs_a_mark_witness :
  parse_height_to_cm (Some "180") = Returns None.
Proof. apply height_needs_a_mark; reflexivity. Defined.

(** X13: [parse_career_stat_value] never raises; on a text with a colon it
    gives the cleaned piece between the first colon and the next one, so what
    follows a second colon is lost; without a colon the whole text, cleaned. *)
Theorem stat_value_between_colons :
  (forall s, exists v, parse_career_stat_value s = Returns v) /\
  (forall a b, no_colon a -> no_colon b ->
     parse_career_stat_value (a ++ ":" ++ b)
     = Returns (clean_text (Some b))) /\
  (forall a b c, no_colon a -> no_colon b ->
     parse_career_stat_value (a ++ ":" ++ b ++ ":" ++ c)
     = Returns (clean_text (Some b))) /\
  (forall s, no_colon s ->
     parse_career_stat_value s = Returns (clean_text (Some s))).
Proof.
  split; [apply stat_value_returns|]. split; [|split].
  - intros a b Ha Hb. rewrite <- (str_app_nil_r b) at 1.
    apply stat_value_first_piece; auto.
  - intros a b c Ha Hb. apply stat_value_first_piece; eauto.
  - intros s Hs. unfold parse_career_stat_value.
    assert (contains ":" s = false) as ->; [|reflexivity].
    apply contains_chr_false. intros H. by apply Hs in H.
Qed.

Lemma stat_value_between_colons_witness :
  parse_career_stat_value ("Last round" ++ ":" ++ " 3" ++ ":" ++ "14")
  = Returns "3".
Proof.
  destruct stat_value_between_colons as (_ & _ & H & _).
  apply (H "Last round" " 3" "14");
    intros c Hc; simpl in Hc; intuition subst; discriminate.
Defined.

End MoreText.

Section MoreScraping.
Import Py PyFacts CleanTextFacts NormalizeFacts Utils TidyFacts.
Import Scraper ScraperFacts ScraperSpec MoreScraperFacts.

(** X14: a row gives a record exactly when its link is not empty and it has
    ten columns at least, no row makes the function fail, and the records
    come in the order of the rows: the output for two lists of rows one
    after the other is the two outputs one after the other. *)
Theorem fight_rows_accepted date :
  (forall r, is_Some (row_fight date r) <-> accepts r = true) /\
  (forall rows,
     List.length (scrape_event_fights (Some rows) date)
     = List.length (List.filter accepts rows)) /\
  (forall rows1 rows2,
     scrape_event_fights (Some (rows1 ++ rows2)%list) date
     = (scrape_event_fights (Some rows1) date
        ++ scrape_event_fights (Some rows2) date)%list).
Proof.
  split; [intros r; apply row_fight_accepts|].
  split; [apply fight_rows_length|apply scrape_rows_app].
Qed.

(** X15: every record carries the date handed in, an absolute address of
    the fight page, clean texts in its name, method, round and time fields,
    and a weight class that is clean and not empty. *)
Theorem fight_record_fields soup date f :
  f ∈ scrape_event_fights soup date ->
  event_date f = date /\
  (exists u, fight_details_url f = Some u /\ startswith "http" u = true) /\
  tidy (fighter1_name f) = true /\ tidy (fighter2_name f) = true /\
  tidy (method f) = true /\ tidy (round f) = true /\ tidy (time f) = true /\
  tidy (weight_class f) = true /\ weight_class f <> "".
Proof.
  destruct soup as [rows|]; simpl;
    [|intros H; by apply not_elem_of_nil in H].
  intros (r & _ & Hf)%scrape_rows_elem.
  apply row_fight_fields in Hf
    as (c0 & c1 & c6 & c7 & c8 & c9 & _ & _ & _ & _ & _ & _ & -> & Hl).
  cbn [event_date fight_details_url fighter1_name fighter2_name method
       round time weight_class].
  split; [reflexivity|]. split; [by apply absolute_url_link|].
  repeat split; try apply tag_name_tidy; try apply clean_text_tidy.
  - apply normalize_tidy.
  - apply normalize_nonempty.
Qed.

Lemma fight_record_fields_witness :
  event_date Samples.won_fight = "May 01, 2021" /\
  (exists u, fight_details_url Samples.won_fight = Some u /\
             startswith "http" u = true) /\
  tidy (fighter1_name Samples.won_fight) = true /\
  tidy (fighter2_name Samples.won_fight) = true /\
  tidy (method Samples.won_fight) = true /\
  tidy (round Samples.won_fight) = true /\
  tidy (time Samples.won_fight) = true /\
  tidy (weight_class Samples.won_fight) = true /\
  weight_class Samples.won_fight <> "".
Proof.
  apply (fight_record_fields (Some [Samples.fight_row [style_green]])).
  vm_compute. constructor.
Defined.

(** X16: making an address absolute a second time changes nothing; an
    address that comes out is empty or starts with "http"; no address comes
    out only when none went in. *)
Theorem absolute_url_is_stable href :
  absolute_url (absolute_url href) = absolute_url href /\
  (forall u, absolute_url href = Some u ->
             u = "" \/ startswith "http" u = true) /\
  (absolute_url href = None <-> href = None).
Proof.
  split; [apply absolute_url_idem|]. split; [apply absolute_url_cases|].
  unfold absolute_url. destruct href as [h|]; [|tauto].
  destruct (truthy h && negb (startswith "http" h)); split; discriminate.
Qed.

(** X17: when the fighters' cell holds no link both names are "N/A", both
    addresses are missing and the winner is "N/A", "Draw" or "No Contest";
    with one link only, this holds of fighter 2. *)
Theorem missing_fighter_links date r f c1 :
  row_fight date r = Some f ->
  cols r !! 1%nat = Some c1 ->
  (List.length (anchors c1) <= 1)%nat ->
  fighter2_name f = "N/A" /\ fighter2_url f = None /\
  (anchors c1 = [] ->
   fighter1_name f = "N/A" /\ fighter1_url f = None /\
   (winner f = "N/A" \/ winner f = "Draw" \/ winner f = "No Contest")).
Proof.
  intros Hf H1 Hlen.
  apply row_fight_fields in Hf
    as (c0 & c1' & c6 & c7 & c8 & c9 & _ & H1' & _ & _ & _ & _ & -> & _).
  assert (c1' = c1) as -> by congruence. simpl.
  assert (E2 : anchors c1 !! 1%nat = None)
    by (apply lookup_ge_None; lia).
  rewrite E2. simpl. split; [reflexivity|]. split; [reflexivity|].
  intros ->. simpl. split; [reflexivity|]. split; [reflexivity|].
  unfold resolve_winner. destruct (status_icon c0); [|tauto].
  repeat case_bool_decide; tauto.
Qed.

Lemma missing_fighter_links_witness :
  fighter2_name MoreSamples.linkless_fight = "N/A" /\
  fighter2_url MoreSamples.linkless_fight = None /\
  (anchors Samples.blank_cell = [] ->
   fighter1_name MoreSamples.linkless_fight = "N/A" /\
   fighter1_url MoreSamples.linkless_fight = None /\
   (winner MoreSamples.linkless_fight = "N/A" \/
    winner MoreSamples.linkless_fight = "Draw" \/
    winner MoreSamples.linkless_fight = "No Contest")).
Proof.
  apply (missing_fighter_links "May 01, 2021" MoreSamples.linkless_row
           MoreSamples.linkless_fight Samples.blank_cell);
    [reflexivity|reflexivity|simpl; lia].
Defined.

End MoreScraping.

Section MoreEvents.
Import Py Utils TidyFacts EventList EventListFacts.

(** X18: every event of the list has an address that starts with "http"
    and clean name, date and place; a row gives an event exactly when it
    has the link, the date and a non-empty [href]; the events come in the
    order of the rows. *)
Theorem event_list_records :
  (forall soup e, e ∈ scrape_event_list soup ->
     startswith "http" (url e) = true /\
     tidy (name e) = true /\ tidy (date e) = true /\
     tidy (location e) = true) /\
  (forall r, is_Some (row_event r) <-> usable r = true) /\
  (forall rows,
     List.length (scrape_event_list (Some rows))
     = List.length (List.filter usable rows)) /\
  (forall rows1 rows2,
     scrape_event_list (Some (rows1 ++ rows2)%list)
     = (scrape_event_list (Some rows1)
        ++ scrape_event_list (Some rows2))%list).
Proof.
  split; [|split; [apply row_event_usable|split]].
  - intros [rows|] e; simpl; [|intros H; by apply not_elem_of_nil in H].
    intros (r & _ & H)%event_rows_elem. by apply row_event_fields in H.
  - apply event_rows_length.
  - apply event_rows_app.
Qed.

Lemma event_list_records_witness :
  scrape_event_list (Some MoreSamples.event_rows)
  = [Event "Fight Night: Archer vs. Brook" "May 01, 2021"
           "Las Vegas, Nevada, USA" "http://ufcstats.com/event-details/e1"] /\
  startswith "http" "http://ufcstats.com/event-details/e1" = true.
Proof.
  split; [vm_compute; reflexivity|].
  destruct event_list_records as (H & _).
  apply (H (Some MoreSamples.event_rows)
           (Event "Fight Night: Archer vs. Brook" "May 01, 2021"
                  "Las Vegas, Nevada, USA"
                  "http://ufcstats.com/event-details/e1")).
  vm_compute. constructor.
Defined.

End MoreEvents.

Section MoreStats.
Import Py Utils TidyFacts CareerStats CareerStatsFacts.

(** X19: a label is matched whatever periods it holds; the keys written
    are among the eight statistic names and the values are clean; the
    value is all that follows the first colon of the item. *)
Theorem career_stats_labels :
  (forall label,
     stat_name_for (replace_chr "." "" label) = stat_name_for label) /\
  (forall boxes k v,
     career_stats boxes !! k = Some v ->
     k ∈ stat_names /\ tidy v = true) /\
  (forall st l v n,
     no_colon l -> stat_name_for (clean_text (Some l)) = Some n ->
     add_stat st (l ++ ":" ++ v) !! n = Some (clean_text (Some v))).
Proof.
  split; [apply stat_name_for_periods|]. split.
  - intros boxes k v. unfold career_stats.
    destruct (career_stats_box boxes) as [box|];
      [|by rewrite lookup_empty].
    intros H. apply add_stats_lookup in H as [H|H]; [|assumption].
    by rewrite lookup_empty in H.
  - intros st l v n. apply add_stat_sets.
Qed.

Lemma career_stats_labels_witness :
  career_stats MoreSamples.stat_boxes
  = {[ "slpm" := "4.10"; "str_acc" := "50%"; "str_def" := "61%";
       "sub_avg" := "0.5" ]} /\
  add_stat ∅ ("Str. Def." ++ ":" ++ " 61% ") !! "str_def" = Some "61%".
Proof.
  split; [vm_compute; reflexivity|].
  destruct career_stats_labels as (_ & _ & H).
  apply (H ∅ "Str. Def." " 61% " "str_def"); [|reflexivity].
  intros c Hc; simpl in Hc; intuition subst; discriminate.
Defined.

End MoreStats.

Section MoreIndex.
Import Py Utils TidyFacts Organizer OrganizerFacts IndexFacts IndexQueries.
Import MoreOrganizerFacts.

(** X20: the order of the fights does not matter: each class keeps the same
    fighters, and the list of classes is the same. *)
Theorem index_does_not_depend_on_order fs fs' :
  fs ≡ₚ fs' ->
  (forall wc,
     get_fighters_by_weight_class (Some (update_fighter_index fs)) wc
     ≡ₚ get_fighters_by_weight_class (Some (update_fighter_index fs')) wc) /\
  get_weight_classes (Some (update_fighter_index fs))
  = get_weight_classes (Some (update_fighter_index fs')).
Proof.
  intros Hp. split.
  - intros wc.
    destruct (get_fighters_spec fs wc) as (Hn & _ & Hm).
    destruct (get_fighters_spec fs' wc) as (Hn' & _ & Hm').
    apply NoDup_Permutation; [assumption..|].
    intros [n u]. rewrite Hm, Hm'. split; apply participates_perm; done.
  - destruct (get_weight_classes_spec (update_fighter_index fs))
      as (Hn & Hs & Hm).
    destruct (get_weight_classes_spec (update_fighter_index fs'))
      as (Hn' & Hs' & Hm').
    assert (Ha : AntiSymm eq key_le).
    { intros a b H1 H2. by apply String.leb_antisym. }
    apply (StronglySorted_unique key_le); [assumption..|].
    apply NoDup_Permutation; [assumption..|].
    intros wc. rewrite Hm, Hm', !index_key.
    split; intros (n & u & H); exists n, u;
      eapply participates_perm; try eassumption. done.
Qed.

Lemma index_does_not_depend_on_order_witness :
  get_weight_classes
    (Some (update_fighter_index Samples.shared_fights))
  = get_weight_classes
      (Some (update_fighter_index (reverse Samples.shared_fights))).
Proof.
  apply (index_does_not_depend_on_order Samples.shared_fights
           (reverse Samples.shared_fights)).
  symmetry. apply reverse_Permutation.
Defined.

(** X21: fights that are already in the collection add nothing when they
    come again. *)
Theorem index_ignores_repeated_fights fs fs' :
  fs' ⊆ fs ->
  update_fighter_index (fs ++ fs') = update_fighter_index fs.
Proof. apply update_again. Qed.

Lemma index_ignores_repeated_fights_witness :
  update_fighter_index (Samples.shared_fights ++ Samples.shared_fights)
  = update_fighter_index Samples.shared_fights.
Proof. by apply index_ignores_repeated_fights. Defined.


End MoreIndex.

Section MorePipeline.
Import Py PyFacts NormalizeFacts Utils TidyFacts.
Import Scraper ScraperFacts MoreScraperFacts.
Import Organizer OrganizerFacts IndexFacts MoreOrganizerFacts Pipeline.

(** X23: in the index built from the fights of the scraped pages every class
    name is a clean, non-empty text other than "N/A", and every entry has a
    clean name other than "N/A" and an address that starts with "http". *)
Theorem index_of_scraped_fights pages wc l e :
  index_of_pages pages !! wc = Some l -> e ∈ l ->
  tidy wc = true /\ wc <> "" /\ wc <> "N/A" /\
  tidy (Organizer.name e) = true /\ Organizer.name e <> "N/A" /\
  startswith "http" (Organizer.url e) = true.
Proof.
  unfold index_of_pages, all_fights. intros Hl He.
  destruct (index_lookup _ _ _ Hl) as (_ & _ & Hm).
  destruct e as [n u]. apply Hm in He as (f & p & Hf & Hw & Hp & Ha).
  apply list_elem_of_fmap in Hf as (f0 & -> & Hf0).
  apply list_elem_of_join in Hf0 as (fights & Hf0 & Hpage).
  apply list_elem_of_fmap in Hpage as ([soup date] & -> & _).
  destruct soup as [rows|]; simpl in Hf0;
    [|by apply not_elem_of_nil in Hf0].
  apply scrape_rows_elem in Hf0 as (r & _ & Hr).
  apply row_fight_fields in Hr
    as (c0 & c1 & c6 & c7 & c8 & c9 & _ & _ & _ & _ & _ & _ & -> & _).
  destruct (fight_wc_proper
              (of_fight
                 {| Scraper.fighter1_name := tag_name (anchors c1 !! 0%nat);
                    Scraper.fighter1_url :=
                      absolute_url (tag_href (anchors c1 !! 0%nat));
                    Scraper.fighter2_name := tag_name (anchors c1 !! 1%nat);
                    Scraper.fighter2_url :=
                      absolute_url (tag_href (anchors c1 !! 1%nat));
                    Scraper.winner :=
                      resolve_winner (status_icon c0)
                        (tag_name (anchors c1 !! 0%nat))
                        (tag_name (anchors c1 !! 1%nat));
                    Scraper.method := clean_text (Some (text_sep c7));
                    Scraper.round := clean_text (Some (text c8));
                    Scraper.time := clean_text (Some (text c9));
                    Scraper.weight_class :=
                      normalize_weight_class
                        (Some match table_text c6 with
                              | Some t => clean_text (Some t)
                              | None => "Unknown"
                              end);
                    Scraper.fight_details_url :=
                      absolute_url (Some (data_link r));
                    Scraper.event_date := date |})) as [W1 W2].
  rewrite Hw in W1, W2.
  assert (Wt : tidy wc = true).
  { rewrite <- Hw. unfold fight_wc, of_fight.
    cbn [Organizer.weight_class Scraper.weight_class].
    destruct (_ || _); [reflexivity|apply normalize_tidy]. }
  apply accepted_Some in Ha as (-> & Hn & Hna & Hu).
  assert (Hcases :
    (n = tag_name (anchors c1 !! 0%nat) /\
     Some u = absolute_url (tag_href (anchors c1 !! 0%nat))) \/
    (n = tag_name (anchors c1 !! 1%nat) /\
     Some u = absolute_url (tag_href (anchors c1 !! 1%nat)))).
  { unfold fighters_in_fight, of_fight in Hp.
    cbn [Organizer.fighter1_name Organizer.fighter1_url
         Organizer.fighter2_name Organizer.fighter2_url
         Scraper.fighter1_name Scraper.fighter1_url
         Scraper.fighter2_name Scraper.fighter2_url] in Hp.
    apply elem_of_cons in Hp as [[= -> E]|Hp]; [left; by split|].
    apply list_elem_of_singleton in Hp as [= -> E]. right. by split. }
  cbn [Organizer.name Organizer.url].
  repeat split; try assumption.
  - destruct Hcases as [[-> _]|[-> _]]; apply tag_name_tidy.
  - destruct Hcases as [[_ E]|[_ E]]; symmetry in E;
      apply absolute_url_cases in E as [->|E]; done.
Qed.

Lemma index_of_scraped_fights_witness :
  tidy "Lightweight" = true /\ "Lightweight" <> "" /\
  "Lightweight" <> "N/A" /\
  tidy "Ann Archer" = true /\ "Ann Archer" <> "N/A" /\
  startswith "http" "http://ufcstats.com/fighter-details/a1" = true.
Proof.
  apply (index_of_scraped_fights
           [(Some [Samples.fight_row [style_green]], "May 01, 2021");
            (None, "May 08, 2021")]
           "Lightweight"
           [Entry "Ann Archer" "http://ufcstats.com/fighter-details/a1";
            Entry "Bea Brook" "http://ufcstats.com/fighter-details/b2"]
           (Entry "Ann Archer" "http://ufcstats.com/fighter-details/a1")).
  - vm_compute. reflexivity.
  - constructor.
Defined.

End MorePipeline.

Section MorePredict.
Import App.
Variable feature : Type.
Variable unknown_class unknown_finish : Z -> string.
Variable round4 : feature -> feature.

#[local] Abbreviation run := (predict feature unknown_class unknown_finish round4).

(** X24: the handler answers 503 exactly when a model is missing or the list
    of feature names is empty, and raises no status other than 400, 500
    and 503. *)
Theorem predict_status_codes
        (g : globals feature) (request_data : PredictionRequest feature) :
  (run g request_data = HTTPException feature 503 <->
   model_fight_winner feature g = None \/
   model_finish_prediction feature g = None \/
   feature_names feature g = []) /\
  (forall code, run g request_data = HTTPException feature code ->
                code = 400%Z \/ code = 500%Z \/ code = 503%Z).
Proof.
  unfold predict.
  destruct (model_fight_winner feature g) as [w|];
    [|split; [split; auto|intros ? [= <-]; auto]].
  destruct (model_finish_prediction feature g) as [fin|];
    [|split; [split; auto|intros ? [= <-]; auto]].
  destruct (feature_names feature g) as [|n ns];
    [split; [split; auto|intros ? [= <-]; auto]|].
  destruct (negb _).
  - split; [|intros ? [= <-]; auto].
    split; [discriminate|]. intros [|[|]]; discriminate.
  - destruct (predict_body _ _ _ _ _ _ _).
    + split; [|discriminate].
      split; [discriminate|]. intros [|[|]]; discriminate.
    + split; [|intros ? [= <-]; auto].
      split; [discriminate|]. intros [|[|]]; discriminate.
Qed.


(** X26: with everything loaded and a vector of the right length, the
    answer is status 500 exactly when a call on a model fails or the class
    is no index of the probabilities; otherwise there is a response. *)
Theorem predict_failure_is_500
        (g : globals feature) (request_data : PredictionRequest feature)
        (winner finish : model feature) :
  model_fight_winner feature g = Some winner ->
  model_finish_prediction feature g = Some finish ->
  feature_names feature g <> [] ->
  List.length (features feature request_data)
  = List.length (feature_names feature g) ->
  let x := features feature request_data in
  (run g request_data = HTTPException feature 500 <->
   model_predict_proba feature winner x = None \/
   model_predict feature winner x = None \/
   model_predict feature finish x = None \/
   exists proba c, model_predict_proba feature winner x = Some proba /\
                   model_predict feature winner x = Some c /\
                   index feature proba c = None) /\
  (run g request_data <> HTTPException feature 500 ->
   exists r, run g request_data = Ok feature r).
Proof.
  intros Hw Hf Hn Hlen x. unfold predict. rewrite Hw, Hf.
  destruct (feature_names feature g) as [|n ns]; [done|].
  rewrite Hlen, Nat.eqb_refl. simpl negb. cbv iota.
  unfold predict_body. fold x.
  destruct (model_predict_proba feature winner x) as [proba|]; simpl.
  2:{ split; [split; auto|done]. }
  destruct (model_predict feature winner x) as [c|]; simpl.
  2:{ split; [split; auto|done]. }
  destruct (index feature proba c) as [conf|] eqn:Ei; simpl.
  2:{ split; [split; eauto 10|done]. }
  destruct (model_predict feature finish x) as [k|]; simpl.
  2:{ split; [split; auto|done]. }
  split; [|eauto]. split; [discriminate|].
  intros [|[|[|(p & c' & [= <-] & [= <-] & E)]]]; congruence.
Qed.

End MorePredict.


Lemma predict_failure_is_500_witness :
  exists r,
    App.predict Z (fun _ => "?") (fun _ => "?") (fun x => x)
                Samples.loaded MoreSamples.full_request
    = App.Ok Z r.
Proof.
  apply (predict_failure_is_500 Z (fun _ => "?") (fun _ => "?")
           (fun x => x) Samples.loaded MoreSamples.full_request
           Samples.constant_model Samples.constant_model);
    [reflexivity|reflexivity|discriminate|reflexivity|discriminate].
Defined.

Section MoreDates.
Import Py DataManager DataManagerFacts.
Variable datetime : Type.
Variable strptime : string -> option datetime.
Variable later : datetime -> datetime -> bool.
Variable strftime : datetime -> string.
Hypothesis later_trans :
  forall a b c, later a b = true -> later b c = true -> later a c = true.
Hypothesis later_irrefl : forall a, later a a = false.

(** X27: the function returns the formatted date of a fight that counts for
    the fighter (the address equals one of the two of the fight, the date
    text is there and can be read) such that no counted fight is later;
    it returns [None] exactly when no fight counts. *)
Theorem last_fight_date_is_latest fighter_url fights :
  match get_fighter_last_fight_date datetime strptime later strftime
          fighter_url fights with
  | Some s =>
      exists f d,
        f ∈ fights /\
        counted datetime strptime fighter_url f = Some d /\
        s = strftime d /\
        forall f' d', f' ∈ fights ->
                      counted datetime strptime fighter_url f' = Some d' ->
                      later d' d = false
  | None =>
      forall f, f ∈ fights -> counted datetime strptime fighter_url f = None
  end.
Proof.
  unfold get_fighter_last_fight_date.
  pose proof (latest_of_all datetime strptime later later_trans later_irrefl
                fighter_url fights) as H.
  destruct (foldl _ None fights) as [d|]; simpl in H.
  - destruct H as [(f & Hf & Ef) Hmax]. exists f, d. auto.
  - exact H.
Qed.

End MoreDates.

Lemma last_fight_date_is_latest_witness :
  MoreSamples.last_day (Some "u1") = Some "30" /\
  MoreSamples.last_day (Some "u9") = None /\
  exists f d,
    f ∈ MoreSamples.day_views /\
    DataManager.counted Z Py.int (Some "u1") f = Some d /\
    "30" = decimal (Z.to_nat d) /\
    forall f' d', f' ∈ MoreSamples.day_views ->
                  DataManager.counted Z Py.int (Some "u1") f' = Some d' ->
                  Z.gtb d' d = false.
Proof.
  split; [vm_compute; reflexivity|]. split; [vm_compute; reflexivity|].
  apply (last_fight_date_is_latest Z Py.int Z.gtb
           (fun d => decimal (Z.to_nat d))
           ltac:(intros a b c; lia) ltac:(intros a; lia)
           (Some "u1") MoreSamples.day_views).
Defined.
